(** * Load simulator: a shallow embedding of [simulator/main.py],
      [simulator/app/simulator.py] and [simulator/app/data_generators.py].

    Python objects mutated in place ([SimulationStats], [UserSession],
    [DataGenerators]) are threaded explicitly; the [random] module, the
    wall clock and the HTTP client are inputs of the functions that consult
    them. Python ints are [Z]; clock readings and think times are
    rationals ([Q]); the weights of the weighted draws are Python numbers,
    ints or binary64 floats, with the arithmetic CPython gives them.
    Library behaviour ([random], [str] methods, exception classes and
    messages) is that of CPython 3.11. *)

From Stdlib Require Import ZArith QArith String Ascii List Lia Lqa Floats.
From stdpp Require Import gmap strings list fin_maps pretty sorting.

Open Scope string_scope.
Open Scope list_scope.
Open Scope Z_scope.

(** ** Exceptions and results *)

(** A raised Python exception: its class and [str(e)]. *)
Record Exception := mkException { exc_class : string; exc_str : string }.

Definition IndexError (m : string) := mkException "IndexError" m.
Definition ValueError (m : string) := mkException "ValueError" m.
Definition UnboundLocalError (m : string) := mkException "UnboundLocalError" m.
Definition OverflowError (m : string) := mkException "OverflowError" m.
Definition AttributeError (m : string) := mkException "AttributeError" m.

(** [str] of a [KeyError] is the quoted key. *)
Definition KeyError (key : string) := mkException "KeyError" ("'" +:+ key +:+ "'").

Inductive result (A : Type) : Type :=
| Ok (a : A)
| Raise (e : Exception).
Arguments Ok {A} a.
Arguments Raise {A} e.

Definition bind {A B} (r : result A) (k : A -> result B) : result B :=
  match r with
  | Ok a => k a
  | Raise e => Raise e
  end.

Notation "'let*' x ':=' r 'in' k" := (bind r (fun x => k))
  (at level 10, x name, r at level 100, k at level 200).

Definition is_ok {A} (r : result A) : bool :=
  match r with Ok _ => true | Raise _ => false end.

(** Truthiness of an optional string: [None] and [''] are falsy. *)
Definition truthy_str (o : option string) : bool :=
  match o with
  | None => false
  | Some s => negb (String.eqb s "")
  end.

(** ** SimulationStats *)

Module Stats.

Record SimulationStats := mkStats {
  start_time : Q;
  total_requests : Z;
  successful_requests : Z;
  failed_requests : Z;
  response_times : list Q;
  status_codes : gmap Z Z;
  endpoints_hit : gmap string Z;
  errors : list string
}.

(** [SimulationStats.__init__]; [now] is the reading of [time.time()]. *)
Definition init (now : Q) : SimulationStats :=
  mkStats now 0 0 0 [] ∅ ∅ [].

(** [if key not in d: d[key] = 0] followed by [d[key] += 1]. *)
Definition bump `{Countable K} (k : K) (d : gmap K Z) : gmap K Z :=
  let d0 := match d !! k with
            | None => <[k := 0]> d
            | Some _ => d
            end in
  match d0 !! k with
  | Some v => <[k := v + 1]> d0
  | None => d0
  end.

(** The f-string [f"{method} {endpoint}"]. *)
Definition endpoint_key (method endpoint : string) : string :=
  method +:+ " " +:+ endpoint.

Definition record_request (st : SimulationStats) (endpoint method : string)
    (status_code : Z) (response_time : Q) (error : option string)
  : SimulationStats :=
  let total := total_requests st + 1 in
  let succ := if status_code <? 400 then successful_requests st + 1
              else successful_requests st in
  let fail := if status_code <? 400 then failed_requests st
              else failed_requests st + 1 in
  let times := response_times st ++ [response_time] in
  let codes := bump status_code (status_codes st) in
  let hits := bump (endpoint_key method endpoint) (endpoints_hit st) in
  let errs := match error with
              | Some e => if truthy_str error then errors st ++ [e] else errors st
              | None => errors st
              end in
  mkStats (start_time st) total succ fail times codes hits errs.

(** One call of [record_request], as its argument tuple. *)
Record Call := mkCall {
  c_endpoint : string;
  c_method : string;
  c_status : Z;
  c_time : Q;
  c_error : option string
}.

Definition record (st : SimulationStats) (c : Call) : SimulationStats :=
  record_request st (c_endpoint c) (c_method c) (c_status c) (c_time c) (c_error c).

(** A finite sequence of calls, applied in order. *)
Definition record_all (st : SimulationStats) (cs : list Call) : SimulationStats :=
  fold_left record cs st.

(** [sum(d.values())]. *)
Definition hist_sum `{Countable K} (d : gmap K Z) : Z :=
  map_fold (fun _ v acc => v + acc) 0 d.

(** How many calls of a sequence carry a status code below 400. *)
Definition count_ok (cs : list Call) : Z :=
  Z.of_nat (length (filter (fun c => c_status c < 400) cs)).

Definition count_bad (cs : list Call) : Z :=
  Z.of_nat (length (filter (fun c => ~ (c_status c < 400)) cs)).

End Stats.

(** ** Python numbers

    A YAML scalar used as a weight is an int or a binary64 float, [.inf]
    and [.nan] included. *)

Module Num.

Inductive number :=
| Int (z : Z)
| Float (f : float).

(** The float nearest to an int, ties to even; infinite beyond the range
    of floats. *)
Definition nearest_float (z : Z) : float :=
  SF2Prim (binary_normalize prec emax z 0 false).

(** An operand of float arithmetic: an int is converted, with
    [OverflowError] when it is too large. *)
Definition to_float (n : number) : result float :=
  match n with
  | Float f => Ok f
  | Int z =>
      let f := nearest_float z in
      if is_infinity f
      then Raise (OverflowError "int too large to convert to float")
      else Ok f
  end.

(** [a + b]: exact on two ints, in float arithmetic otherwise. *)
Definition add (a b : number) : result number :=
  match a, b with
  | Int x, Int y => Ok (Int (x + y))
  | _, _ =>
      let* f := to_float a in
      let* g := to_float b in
      Ok (Float (f + g)%float)
  end.

(** [x < n] for a float [x]; against an int the comparison is made on the
    exact values. *)
Definition float_lt (x : float) (n : number) : bool :=
  match n with
  | Float g => (x <? g)%float
  | Int z =>
      match Prim2SF x with
      | S754_nan => false
      | S754_infinity s => s
      | S754_zero _ => 0 <? z
      | S754_finite s m e =>
          let v := if s then Z.neg m else Z.pos m in
          if 0 <=? e then v * 2 ^ e <? z else v <? z * 2 ^ (- e)
      end
  end.

(** [n <= 0]. *)
Definition le_zero (n : number) : bool :=
  match n with
  | Int z => z <=? 0
  | Float f => (f <=? 0)%float
  end.

End Num.

(** ** The [random] module

    Every call consumes one entropy value, passed in by the caller. *)

Module Random.

(** [Random._randbelow(n)] for [n > 0]: an int in [0, n). *)
Definition randbelow (n k : Z) : Z := k mod n.

(** [random.randint(a, b)]: [a + randbelow(b - a + 1)], [ValueError] on an
    empty range. *)
Definition randint (a b k : Z) : result Z :=
  if a <=? b then Ok (a + randbelow (b - a + 1) k)
  else Raise (ValueError "empty range for randrange()").

(** [random.choice(seq)]: [seq[randbelow(len(seq))]], [IndexError] on an
    empty sequence. *)
Definition choice {A} (seq : list A) (k : Z) : result A :=
  match seq with
  | [] => Raise (IndexError "Cannot choose from an empty sequence")
  | _ :: _ =>
      match nth_error seq (Z.to_nat (randbelow (Z.of_nat (length seq)) k)) with
      | Some x => Ok x
      | None => Raise (IndexError "list index out of range")
      end
  end.



Definition Qltb (x y : Q) : bool := negb (Qle_bool y x).

(** [random.random()] as the float it is: a multiple of [2^-53]. *)
Definition random_float (k : Z) : float :=
  SF2Prim (binary_normalize prec emax (k mod 2 ^ 53) (-53) false).

(** [itertools.accumulate(weights)], consumed by [list]: the running sums,
    or the exception of the first addition that fails. *)
Fixpoint accumulate_from (acc : Num.number) (ws : list Num.number)
  : result (list Num.number) :=
  match ws with
  | [] => Ok []
  | w :: ws' =>
      let* acc' := Num.add acc w in
      let* tl := accumulate_from acc' ws' in
      Ok (acc' :: tl)
  end.

Definition accumulate (ws : list Num.number) : result (list Num.number) :=
  match ws with
  | [] => Ok []
  | w :: ws' => let* tl := accumulate_from w ws' in Ok (w :: tl)
  end.

(** [bisect.bisect_right(a, x, lo, hi)]: the loop
    [while lo < hi: mid = (lo + hi) // 2; if x < a[mid]: hi = mid else: lo = mid + 1].
    Each round shrinks [hi - lo], so [hi - lo] rounds of fuel are enough. *)
Fixpoint bisect_loop (fuel : nat) (a : list Num.number) (x : float) (lo hi : nat)
  : nat :=
  match fuel with
  | O => lo
  | S fuel' =>
      if (lo <? hi)%nat then
        let mid := ((lo + hi) / 2)%nat in
        if Num.float_lt x (nth mid a (Num.Int 0)) then bisect_loop fuel' a x lo mid
        else bisect_loop fuel' a x (S mid) hi
      else lo
  end.

Definition bisect (a : list Num.number) (x : float) (lo hi : nat) : nat :=
  bisect_loop (hi - lo) a x lo hi.

(** [cum_weights[-1] + 0.0]: the last running sum, as a float. *)
Definition cum_total (cum_weights : list Num.number) : result float :=
  match last cum_weights with
  | None => Raise (IndexError "list index out of range")
  | Some c => let* f := Num.to_float c in Ok (f + 0)%float
  end.

(** [random.choices(population, weights=weights)[0]]: the weights are
    accumulated, the total is taken as a float, it must be greater than
    zero and finite, and the item is found by bisection of
    [random() * total] in the cumulative weights. *)
Definition choices {A} (population : list A) (weights : list Num.number) (k : Z)
  : result A :=
  let* cum_weights := accumulate weights in
  let n := length population in
  if negb (length cum_weights =? n)%nat then
    Raise (ValueError "The number of weights does not match the population")
  else
    let* total := cum_total cum_weights in
    if (total <=? 0)%float then
      Raise (ValueError "Total of weights must be greater than zero")
    else if negb (is_finite total) then
      Raise (ValueError "Total of weights must be finite")
    else
      match nth_error population
              (bisect cum_weights (random_float k * total)%float 0 (n - 1)) with
      | Some x => Ok x
      | None => Raise (IndexError "list index out of range")
      end.

End Random.

(** ** String methods used by the simulator *)

Module Str.

(** [sub in s]. *)
Fixpoint contains (sub s : string) : bool :=
  String.prefix sub s ||
  match s with
  | EmptyString => false
  | String _ s' => contains sub s'
  end.

(** [s.replace(old, new)] for a non-empty [old]: occurrences are replaced
    from the left, without overlap. [skip] counts the characters of a
    match that are still to be dropped. *)
Fixpoint replace_from (old new : string) (skip : nat) (s : string) : string :=
  match s with
  | EmptyString => EmptyString
  | String c s' =>
      match skip with
      | S n => replace_from old new n s'
      | O =>
          if String.prefix old s
          then new +:+ replace_from old new (String.length old - 1) s'
          else String c (replace_from old new O s')
      end
  end.

Definition replace (old new s : string) : string := replace_from old new O s.

(** [s.split('/')[-1]]: what follows the last slash. *)
Fixpoint last_segment_from (acc : string) (s : string) : string :=
  match s with
  | EmptyString => acc
  | String c s' =>
      if Ascii.eqb c "/"%char then last_segment_from EmptyString s'
      else last_segment_from (acc +:+ String c EmptyString) s'
  end.

Definition last_segment (s : string) : string := last_segment_from EmptyString s.

Definition is_digit (c : ascii) : bool :=
  let n := Z.of_nat (nat_of_ascii c) in (48 <=? n) && (n <=? 57).

Fixpoint all_digits (s : string) : bool :=
  match s with
  | EmptyString => true
  | String c s' => is_digit c && all_digits s'
  end.

(** [s.isdigit()] on an ASCII string. *)
Definition isdigit (s : string) : bool :=
  match s with
  | EmptyString => false
  | _ => all_digits s
  end.

Fixpoint digits_value (acc : Z) (s : string) : Z :=
  match s with
  | EmptyString => acc
  | String c s' => digits_value (10 * acc + (Z.of_nat (nat_of_ascii c) - 48)) s'
  end.

(** [int(s)] for a string of digits; longer than 4300 digits it raises
    [ValueError]. *)
Definition int (s : string) : result Z :=
  if (4300 <? String.length s)%nat
  then Raise (ValueError "Exceeds the limit (4300 digits) for integer string conversion")
  else Ok (digits_value 0 s).

(** [str(n)] for an int. *)
Definition str (n : Z) : string := pretty n.

End Str.

(** ** Configuration, as loaded from YAML

    A key whose presence the code tests ([in], [.get]) is an [option]
    field; dicts that are iterated keep their insertion order. *)

Record UserType := mkUserType {
  ut_name : option string;
  ut_weight : option Num.number;
  ut_requests_per_session : Z * Z;
  ut_think_time_seconds : Q * Q
}.

Record Region := mkRegion {
  rg_region : string;
  rg_weight : Num.number;
  rg_ip_ranges : option (list string)
}.

Record EndpointConfig := mkEndpointConfig {
  ec_path : string;
  ec_methods : list string;
  ec_weight : Num.number;
  ec_user_types : option (list string);
  ec_payload_generator : option string;
  ec_path_generator : option string
}.

Record ServiceConfig := mkServiceConfig {
  sc_base_url : option string;
  sc_endpoints : option (list EndpointConfig)
}.

Record SimulationConfig := mkSimulationConfig {
  sim_workers : option Z;
  sim_requests_per_second : option Z
}.

Record Reporting := mkReporting {
  rp_log_level : option string
}.

Record Config := mkConfig {
  cfg_simulation : option SimulationConfig;
  cfg_user_types : option (list UserType);
  cfg_endpoints : option (list (string * ServiceConfig));
  cfg_geographic_distribution : option (list Region);
  cfg_reporting : option Reporting
}.

(** [d[key]]: [KeyError] when the key is absent. *)
Definition getitem {A} (key : string) (o : option A) : result A :=
  match o with
  | Some a => Ok a
  | None => Raise (KeyError key)
  end.

(** JSON values: request payloads and decoded response bodies. *)
#[local] Unset Elimination Schemes.
Inductive Json :=
| JNull
| JBool (b : bool)
| JInt (n : Z)
| JNum (q : Q)
| JStr (s : string)
| JList (l : list Json)
| JDict (d : list (string * Json)).
#[local] Set Elimination Schemes.

(** Python truthiness of a decoded JSON value. *)
Definition truthy (j : Json) : bool :=
  match j with
  | JNull => false
  | JBool b => b
  | JInt n => negb (n =? 0)
  | JNum q => negb (Qeq_bool q 0)
  | JStr s => negb (String.eqb s "")
  | JList l => match l with [] => false | _ => true end
  | JDict d => match d with [] => false | _ => true end
  end.

(** ** DataGenerators *)

Module DataGenerators.

Record Preferences := mkPreferences {
  preferred_categories : list Z;
  price_range : string;
  mobile_user : bool
}.

Record SessionData := mkSessionData {
  sd_user_id : string;
  sd_preferences : Preferences
}.

(** What Faker and [ipaddress] hand back: the bodies built by the payload
    generators, an address inside a CIDR range, a fake IPv4 address. *)
Record Providers := mkProviders {
  payload_body : string -> Json;
  ip_in_network : string -> Z -> result string;
  fake_ipv4 : string
}.

Record DataGenerators := mkDataGenerators {
  user_agents : list string;
  _session_data : gmap string SessionData
}.

Definition init : DataGenerators :=
  mkDataGenerators
    [ "Mozilla/5.0 (Windows NT 10.0; Win64; x64) AppleWebKit/537.36 (KHTML, like Gecko) Chrome/91.0.4472.124 Safari/537.36";
      "Mozilla/5.0 (Macintosh; Intel Mac OS X 10_15_7) AppleWebKit/537.36 (KHTML, like Gecko) Chrome/91.0.4472.124 Safari/537.36";
      "Mozilla/5.0 (Windows NT 10.0; Win64; x64; rv:89.0) Gecko/20100101 Firefox/89.0";
      "Mozilla/5.0 (Macintosh; Intel Mac OS X 10_15_7) AppleWebKit/605.1.15 (KHTML, like Gecko) Version/14.1.1 Safari/605.1.15";
      "Mozilla/5.0 (Windows NT 10.0; Win64; x64) AppleWebKit/537.36 (KHTML, like Gecko) Edge/91.0.864.59";
      "Mozilla/5.0 (X11; Linux x86_64) AppleWebKit/537.36 (KHTML, like Gecko) Chrome/91.0.4472.124 Safari/537.36";
      "Mozilla/5.0 (iPhone; CPU iPhone OS 14_6 like Mac OS X) AppleWebKit/605.1.15 (KHTML, like Gecko) Version/14.0 Mobile/15E148 Safari/604.1";
      "Mozilla/5.0 (Android 11; Mobile; rv:68.0) Gecko/68.0 Firefox/88.0" ]
    ∅.

Definition get_user_agent (dg : DataGenerators) (k : Z) : result string :=
  Random.choice (user_agents dg) k.

(** [if ip_ranges:] holds for a present, non-empty list. *)
Definition get_ip_address (pv : Providers) (ip_ranges : option (list string))
    (k_range k_ip : Z) : result string :=
  match ip_ranges with
  | Some (r :: rs) =>
      let* range_str := Random.choice (r :: rs) k_range in
      ip_in_network pv range_str k_ip
  | _ => Ok (fake_ipv4 pv)
  end.

(** The user id is drawn on the first lookup of a session id and cached. *)
Definition generate_user_id (dg : DataGenerators) (session_id : string)
    (k : Z) (prefs : Preferences) : result (string * DataGenerators) :=
  match _session_data dg !! session_id with
  | Some sd => Ok (sd_user_id sd, dg)
  | None =>
      let* n := Random.randint 1000 9999 k in
      let sd := mkSessionData ("user_" +:+ Str.str n) prefs in
      Ok (sd_user_id sd,
          mkDataGenerators (user_agents dg) (<[session_id := sd]> (_session_data dg)))
  end.

Definition payload_generators : list string :=
  ["create_user"; "create_product"; "add_to_cart"; "update_cart_item"; "checkout"].

(** Unknown generator names give the empty dict. *)
Definition get_payload (pv : Providers) (generator_name : string) : Json :=
  if existsb (String.eqb generator_name) payload_generators
  then payload_body pv generator_name
  else JDict [].

Definition product_id (k : Z) : result string :=
  let* n := Random.randint 1 10 k in Ok (Str.str n).

Definition cart_item_id (k : Z) : result string :=
  let* n := Random.randint 1 50 k in Ok (Str.str n).

Definition order_id (k : Z) : result string :=
  let* n := Random.randint 1 100 k in Ok (Str.str n).

(** Unknown generator names give ["1"]. *)
Definition get_path_param (generator_name : string) (k : Z) : result string :=
  if String.eqb generator_name "product_id" then product_id k
  else if String.eqb generator_name "cart_item_id" then cart_item_id k
  else if String.eqb generator_name "order_id" then order_id k
  else Ok "1".

End DataGenerators.

(** ** UserSession *)

Module UserSession.

Import DataGenerators.

Record UserSession := mkUserSession {
  session_id : string;
  user_type : UserType;
  region : Region;
  user_id : string;
  user_agent : string;
  ip_address : string;
  requests_made : Z;
  session_start : option Q;
  cart_items : list Json;
  last_product_viewed : option Z
}.

(** The random draws of one [UserSession(...)] construction. *)
Record Seed := mkSeed {
  k_user_id : Z;
  seed_prefs : Preferences;
  k_agent : Z;
  k_ip_range : Z;
  k_ip : Z
}.

(** [UserSession.__init__]; returns the session and the data generator,
    whose session cache the constructor fills. *)
Definition init (pv : Providers) (sid : string) (ut : UserType) (rg : Region)
    (dg : DataGenerators) (sd : Seed) : result (UserSession * DataGenerators) :=
  let* uid_dg := generate_user_id dg sid (k_user_id sd) (seed_prefs sd) in
  let uid := fst uid_dg in
  let dg' := snd uid_dg in
  let* agent := get_user_agent dg' (k_agent sd) in
  let* ip := get_ip_address pv (rg_ip_ranges rg) (k_ip_range sd) (k_ip sd) in
  Ok (mkUserSession sid ut rg uid agent ip 0 None [] None, dg').

Definition get_headers (s : UserSession) : list (string * string) :=
  [ ("User-Agent", user_agent s);
    ("X-Session-ID", session_id s);
    ("X-User-ID", user_id s);
    ("X-Forwarded-For", ip_address s) ].

(** [max_requests], a [random.randint] over the user type's
    [requests_per_session] pair, is drawn inside the check and then
    compared with the counter. *)
Definition should_continue_session (s : UserSession) (k : Z) : result bool :=
  let* max_requests :=
    Random.randint (fst (ut_requests_per_session (user_type s)))
                   (snd (ut_requests_per_session (user_type s))) k in
  Ok (requests_made s <? max_requests).


Definition set_requests_made (s : UserSession) (n : Z) : UserSession :=
  mkUserSession (session_id s) (user_type s) (region s) (user_id s)
    (user_agent s) (ip_address s) n (session_start s) (cart_items s)
    (last_product_viewed s).

Definition set_last_product_viewed (s : UserSession) (p : option Z) : UserSession :=
  mkUserSession (session_id s) (user_type s) (region s) (user_id s)
    (user_agent s) (ip_address s) (requests_made s) (session_start s)
    (cart_items s) p.

Definition set_session_start (s : UserSession) (t : Q) : UserSession :=
  mkUserSession (session_id s) (user_type s) (region s) (user_id s)
    (user_agent s) (ip_address s) (requests_made s) (Some t) (cart_items s)
    (last_product_viewed s).

(** [update_state]: the counter goes up by one; a path under [/products/]
    whose last segment is a number is remembered. The [/cart] branch is a
    [pass]; the [try ... except: pass] swallows a failing [int]. *)
Definition update_state (s : UserSession) (endpoint_path : string)
    (response_data : option Json) : UserSession :=
  let s1 := set_requests_made s (requests_made s + 1) in
  if Str.contains "/products/" endpoint_path then
    let product_id := Str.last_segment endpoint_path in
    if Str.isdigit product_id then
      match Str.int product_id with
      | Ok n => set_last_product_viewed s1 (Some n)
      | Raise _ => s1
      end
    else s1
  else s1.

End UserSession.

(** ** The HTTP client, seen from the simulator *)

Record Response := mkResponse {
  status_code : Z;
  (** [response.json()]: the decoded body, or the decoding error. *)
  json : result Json
}.

Record HttpRequest := mkHttpRequest {
  rq_method : string;
  rq_url : string;
  rq_json : option Json;
  rq_headers : list (string * string)
}.

(** ** The [logging] module, seen from the simulator *)

(** An attribute of the module: a level number, or anything else it
    exports. *)
Inductive LogAttr :=
| LevelNo (n : Z)
| OtherAttr (repr : string).

(** What the module answers: [getattr(logging, name)], which raises
    [AttributeError] for a name the module does not have, and
    [logging.basicConfig(level=..., format=...)]. *)
Record Logging := mkLogging {
  logging_attr : string -> result LogAttr;
  basicConfig : LogAttr -> result unit
}.

(** ** LoadSimulator *)

Module LoadSimulator.

Import DataGenerators UserSession.

Record Endpoint := mkEndpoint {
  service : string;
  base_url : string;
  path : string;
  method : string;
  weight : Num.number;
  user_types : list string;
  payload_generator : option string;
  path_generator : option string
}.

Record LoadSimulator := mkLoadSimulator {
  config : Config;
  data_gen : DataGenerators;
  stats : Stats.SimulationStats;
  endpoints : list Endpoint
}.

Definition set_stats (sim : LoadSimulator) (st : Stats.SimulationStats) : LoadSimulator :=
  mkLoadSimulator (config sim) (data_gen sim) st (endpoints sim).

Definition set_data_gen (sim : LoadSimulator) (dg : DataGenerators) : LoadSimulator :=
  mkLoadSimulator (config sim) dg (stats sim) (endpoints sim).

(** One endpoint per configured method. *)
Definition endpoints_of_config (service_name base : string) (ec : EndpointConfig)
  : list Endpoint :=
  map (fun m =>
         mkEndpoint service_name base (ec_path ec) m (ec_weight ec)
           (default [] (ec_user_types ec))
           (ec_payload_generator ec) (ec_path_generator ec))
      (ec_methods ec).

Fixpoint build_services (services : list (string * ServiceConfig))
  : result (list Endpoint) :=
  match services with
  | [] => Ok []
  | (service_name, service_config) :: rest =>
      let* base := getitem "base_url" (sc_base_url service_config) in
      let* ecs := getitem "endpoints" (sc_endpoints service_config) in
      let* tl := build_services rest in
      Ok (concat (map (endpoints_of_config service_name base) ecs) ++ tl)
  end.

Definition _build_endpoints (cfg : Config) : result (list Endpoint) :=
  let* services := getitem "endpoints" (cfg_endpoints cfg) in
  build_services services.

(** [config.get('reporting', {}).get('log_level', 'INFO')]. *)
Definition log_level_name (cfg : Config) : string :=
  match cfg_reporting cfg with
  | Some reporting => default "INFO" (rp_log_level reporting)
  | None => "INFO"
  end.

(** The last two statements of [__init__]: the level is looked up in the
    [logging] module by its configured name and handed to [basicConfig]. *)
Definition setup_logging (lg : Logging) (cfg : Config) : result unit :=
  let* log_level := logging_attr lg (log_level_name cfg) in
  basicConfig lg log_level.

(** [LoadSimulator.__init__]: the rate is read for the throttler, the
    endpoints are built, logging is set up; [now] is the clock reading of
    the fresh statistics. *)
Definition init (lg : Logging) (cfg : Config) (now : Q) : result LoadSimulator :=
  let* sim_config := getitem "simulation" (cfg_simulation cfg) in
  let* rps := getitem "requests_per_second" (sim_requests_per_second sim_config) in
  let* eps := _build_endpoints cfg in
  let* configured := setup_logging lg cfg in
  Ok (mkLoadSimulator cfg DataGenerators.init (Stats.init now) eps).

(** [user_type in ep['user_types']]. *)
Definition available_for (user_type : string) (ep : Endpoint) : bool :=
  existsb (String.eqb user_type) (user_types ep).

(** [k_choice] feeds [random.choice], [k_choices] feeds [random.choices]. *)
Definition _select_endpoint (sim : LoadSimulator) (user_type : string)
    (k_choice k_choices : Z) : result Endpoint :=
  let available_endpoints := List.filter (available_for user_type) (endpoints sim) in
  match available_endpoints with
  | [] => Random.choice (endpoints sim) k_choice
  | _ :: _ =>
      let weights := map weight available_endpoints in
      Random.choices available_endpoints weights k_choices
  end.

(** [[ut['weight'] for ut in user_types]]. *)
Fixpoint user_type_weights (uts : list UserType) : result (list Num.number) :=
  match uts with
  | [] => Ok []
  | ut :: rest =>
      let* w := getitem "weight" (ut_weight ut) in
      let* ws := user_type_weights rest in
      Ok (w :: ws)
  end.

Definition _select_user_type (sim : LoadSimulator) (k : Z) : result UserType :=
  let* uts := getitem "user_types" (cfg_user_types (config sim)) in
  let* weights := user_type_weights uts in
  Random.choices uts weights k.

Definition _select_region (sim : LoadSimulator) (k : Z) : result Region :=
  let* regions := getitem "geographic_distribution"
                    (cfg_geographic_distribution (config sim)) in
  let weights := map rg_weight regions in
  Random.choices regions weights k.

(** What one [_make_request] call reads from outside: the clock before the
    request and after it (or in the handler), the path-parameter draw, the
    provider outputs and the behaviour of the HTTP client. *)
Record RequestEnv := mkRequestEnv {
  t_start : Q;
  t_end : Q;
  k_param : Z;
  providers : Providers;
  send : HttpRequest -> result Response
}.

Definition in_post_put (m : string) : bool :=
  String.eqb m "POST" || String.eqb m "PUT".

(** The [if/elif] chain over the method; [None] when no branch binds
    [response]. *)
Definition dispatch (env : RequestEnv) (m url : string) (payload : option Json)
    (headers : list (string * string)) : option (result Response) :=
  if String.eqb m "GET" then Some (send env (mkHttpRequest "GET" url None headers))
  else if String.eqb m "POST" then
    Some (send env (mkHttpRequest "POST" url payload headers))
  else if String.eqb m "PUT" then
    match payload with
    | Some p => if truthy p
                then Some (send env (mkHttpRequest "PUT" url (Some p) headers))
                else Some (send env (mkHttpRequest "PUT" url None headers))
    | None => Some (send env (mkHttpRequest "PUT" url None headers))
    end
  else if String.eqb m "DELETE" then
    Some (send env (mkHttpRequest "DELETE" url None headers))
  else None.

Definition resolve_path (endpoint : Endpoint) (k : Z) : result string :=
  if truthy_str (path_generator endpoint) then
    let* param := get_path_param (default "" (path_generator endpoint)) k in
    Ok (Str.replace "{item_id}" param (Str.replace "{id}" param (path endpoint)))
  else Ok (path endpoint).

Definition build_payload (pv : Providers) (endpoint : Endpoint) : option Json :=
  if in_post_put (method endpoint) && truthy_str (payload_generator endpoint)
  then Some (get_payload pv (default "" (payload_generator endpoint)))
  else None.

(** The client call of one request, once the path is resolved: URL,
    headers and payload are built, then the method is dispatched. *)
Definition http_call (session : UserSession) (endpoint : Endpoint)
    (env : RequestEnv) (path : string) : option (result Response) :=
  let url := base_url endpoint +:+ path in
  let headers := get_headers session in
  let payload := build_payload (providers env) endpoint in
  dispatch env (method endpoint) url payload headers.

(** The body of the [try]: it changes the session and the statistics only
    in its last two statements, so an exception leaves both as they were. *)
Definition try_request (st : Stats.SimulationStats) (session : UserSession)
    (endpoint : Endpoint) (env : RequestEnv)
  : result (Stats.SimulationStats * UserSession) :=
  let* path := resolve_path endpoint (k_param env) in
  let* response :=
    match http_call session endpoint env path with
    | Some r =>
        let* response := r in Ok (Some response)
    | None => Ok None
    end in
  let response_time := (t_end env - t_start env)%Q in
  match response with
  | None =>
      Raise (UnboundLocalError
        "cannot access local variable 'response' where it is not associated with a value")
  | Some response =>
      let* response_data :=
        if status_code response <? 400
        then let* j := json response in Ok (Some j)
        else Ok None in
      let session' := update_state session path response_data in
      let st' := Stats.record_request st path (method endpoint)
                   (status_code response) response_time None in
      Ok (st', session')
  end.

(** The handler's effect on the statistics: the sentinel status 500 with
    [str(e)], under the endpoint's unresolved path. *)
Definition record_failure (sim : LoadSimulator) (ep : Endpoint) (env : RequestEnv)
    (e : Exception) : Stats.SimulationStats :=
  Stats.record_request (stats sim) (path ep) (method ep) 500
    (t_end env - t_start env)%Q (Some (exc_str e)).

(** [_make_request]: the [except Exception] handler records the failure
    and returns normally. The throttler slot held around the body only
    delays the call. *)
Definition _make_request (sim : LoadSimulator) (session : UserSession)
    (endpoint : Endpoint) (env : RequestEnv) : LoadSimulator * UserSession :=
  match try_request (stats sim) session endpoint env with
  | Ok (st', session') => (set_stats sim st', session')
  | Raise e => (set_stats sim (record_failure sim endpoint env e), session)
  end.

(** What one round of the session loop reads from outside: the [running]
    flag as the loop test sees it, and the draws of the round. *)
Record Tick := mkTick {
  tk_running : bool;
  k_continue : Z;
  k_choice : Z;
  k_choices : Z;
  tk_env : RequestEnv
}.

(** The inner loop of [_user_session_worker]:
    [while self.running and session.should_continue_session(): ...].
    [None] when the fuel runs out before the loop test fails; an exception
    of the test or of the endpoint selection leaves the loop. The sleep of
    [get_think_time] seconds that ends a round changes no state. The third
    component counts the rounds executed. *)
Fixpoint session_loop (fuel : nat) (world : nat -> Tick) (i : nat)
    (sim : LoadSimulator) (session : UserSession)
  : option (result (LoadSimulator * UserSession * nat)) :=
  match fuel with
  | O => None
  | S fuel' =>
      let tk := world i in
      if negb (tk_running tk) then Some (Ok (sim, session, i))
      else
        match should_continue_session session (k_continue tk) with
        | Raise e => Some (Raise e)
        | Ok false => Some (Ok (sim, session, i))
        | Ok true =>
            match
              (let* name := getitem "name" (ut_name (user_type session)) in
               _select_endpoint sim name (k_choice tk) (k_choices tk))
            with
            | Raise e => Some (Raise e)
            | Ok endpoint =>
                let '(sim', session') := _make_request sim session endpoint (tk_env tk) in
                session_loop fuel' world (S i) sim' session'
            end
        end
  end.

(** The start of a worker round: a user type, a region and a session id
    are obtained, the session is constructed and stamped, and the debug
    line is formatted, which reads the user type's name. *)
Definition new_session (sim : LoadSimulator) (pv : Providers)
    (k_user_type k_region : Z) (sid : string) (sd : Seed) (now : Q)
  : result (LoadSimulator * UserSession) :=
  let* ut := _select_user_type sim k_user_type in
  let* rg := _select_region sim k_region in
  let* s_dg := UserSession.init pv sid ut rg (data_gen sim) sd in
  let* name := getitem "name" (ut_name ut) in
  Ok (set_data_gen sim (snd s_dg), set_session_start (fst s_dg) now).

End LoadSimulator.

(** ** main.py *)

Module Main.

(** ['weight' not in user_type or user_type['weight'] <= 0]. *)
Definition bad_weight (ut : UserType) : bool :=
  match ut_weight ut with
  | None => true
  | Some w => Num.le_zero w
  end.

(** The loop over the user types stops at the first one it rejects. *)
Fixpoint check_user_types (uts : list UserType) : option string :=
  match uts with
  | [] => None
  | ut :: rest =>
      if bad_weight ut
      then Some ("User type " +:+ default "unnamed" (ut_name ut)
                 +:+ " must have positive weight")
      else check_user_types rest
  end.

(** The loop over the services stops at the first missing key. *)
Fixpoint check_services (services : list (string * ServiceConfig)) : option string :=
  match services with
  | [] => None
  | (service_name, service_config) :: rest =>
      match sc_base_url service_config, sc_endpoints service_config with
      | None, _ => Some ("Service " +:+ service_name +:+ " missing base_url")
      | Some _, None => Some ("Service " +:+ service_name +:+ " missing endpoints")
      | Some _, Some _ => check_services rest
      end
  end.

Definition passed : string := "Configuration validation passed".

Definition missing_section (section : string) : string * bool :=
  ("Missing required configuration section: " +:+ section, false).

Definition missing_field (field : string) : string * bool :=
  ("Missing required simulation field: " +:+ field, false).

(** The checks that follow the two presence loops. *)
Definition validate_values (workers requests_per_second : Z)
    (uts : list UserType) (services : list (string * ServiceConfig))
  : string * bool :=
  if workers <=? 0 then ("Number of workers must be positive", false)
  else if requests_per_second <=? 0
  then ("Requests per second must be positive", false)
  else
    match check_user_types uts with
    | Some msg => (msg, false)
    | None =>
        match check_services services with
        | Some msg => (msg, false)
        | None => (passed, true)
        end
    end.

(** [validate_config]: the line it prints and the boolean it returns. The
    sections and the simulation fields are looked up in the order of
    [required_sections] and [required_sim_fields]. *)
Definition validate_config (cfg : Config) : string * bool :=
  match cfg_simulation cfg with
  | None => missing_section "simulation"
  | Some sim_config =>
  match cfg_user_types cfg with
  | None => missing_section "user_types"
  | Some uts =>
  match cfg_endpoints cfg with
  | None => missing_section "endpoints"
  | Some services =>
  match cfg_geographic_distribution cfg with
  | None => missing_section "geographic_distribution"
  | Some _ =>
  match sim_workers sim_config with
  | None => missing_field "workers"
  | Some workers =>
  match sim_requests_per_second sim_config with
  | None => missing_field "requests_per_second"
  | Some requests_per_second =>
      validate_values workers requests_per_second uts services
  end end end end end end.

(** How [main] goes on after loading the configuration. *)
Inductive Startup :=
| SysExit (code : Z)
| Proceed.

(** [if not validate_config(config): sys.exit(1)]; only past this point
    are the services awaited and the simulator and its workers created. *)
Definition main_startup (cfg : Config) : string * Startup :=
  let '(printed, ok) := validate_config cfg in
  if ok then (printed, Proceed) else (printed, SysExit 1).

End Main.

(** ** The specification's wording, for comparison with the code *)

Module Spec.

Import LoadSimulator.

(** Eligibility as the specification words it: the endpoint's user-type
    list contains the name, or is empty. *)
Definition eligible_per_spec (user_type : string) (ep : Endpoint) : bool :=
  existsb (String.eqb user_type) (user_types ep) ||
  match user_types ep with [] => true | _ => false end.

(** A weight that is not positive. *)
Definition nonpositive (w : Num.number) : Prop :=
  match w with
  | Num.Int z => z <= 0
  | Num.Float f => (f <=? 0)%float = true
  end.

(** The total of a list of weights, as a weighted draw takes it: the last
    running sum, as a float. *)
Definition total_weight (ws : list Num.number) : result float :=
  let* cum_weights := Random.accumulate ws in
  Random.cum_total cum_weights.


(** What a weighted draw over [population] with [weights] comes to: an
    [IndexError] without candidates; an [OverflowError] when an int among
    the weights is beyond the floats; a [ValueError] when the total is not
    greater than zero, or not finite; one of the candidates otherwise. *)
Definition weighted_outcome {A} (population : list A) (weights : list Num.number)
    (r : result A) : Prop :=
  match population with
  | [] => r = Raise (IndexError "list index out of range")
  | _ :: _ =>
      match total_weight weights with
      | Raise e =>
          e = OverflowError "int too large to convert to float" /\ r = Raise e
      | Ok total =>
          if (total <=? 0)%float
          then r = Raise (ValueError "Total of weights must be greater than zero")
          else if is_finite total
          then exists x, r = Ok x /\ In x population
          else r = Raise (ValueError "Total of weights must be finite")
      end
  end.

(** What a uniform draw over [population] comes to. *)
Definition uniform_outcome {A} (population : list A) (k : Z) (r : result A) : Prop :=
  match population with
  | [] => r = Raise (IndexError "Cannot choose from an empty sequence")
  | _ :: _ =>
      exists x, r = Ok x /\
        nth_error population (Z.to_nat (k mod Z.of_nat (length population))) = Some x
  end.

(** The defects that validation looks for. *)
Inductive defect (cfg : Config) : Prop :=
| missing_simulation : cfg_simulation cfg = None -> defect cfg
| missing_user_types : cfg_user_types cfg = None -> defect cfg
| missing_endpoints : cfg_endpoints cfg = None -> defect cfg
| missing_geographic_distribution :
    cfg_geographic_distribution cfg = None -> defect cfg
| missing_workers sim :
    cfg_simulation cfg = Some sim -> sim_workers sim = None -> defect cfg
| missing_rate sim :
    cfg_simulation cfg = Some sim -> sim_requests_per_second sim = None -> defect cfg
| nonpositive_workers sim n :
    cfg_simulation cfg = Some sim -> sim_workers sim = Some n -> n <= 0 -> defect cfg
| nonpositive_rate sim r :
    cfg_simulation cfg = Some sim -> sim_requests_per_second sim = Some r ->
    r <= 0 -> defect cfg
| user_type_without_weight uts ut :
    cfg_user_types cfg = Some uts -> In ut uts -> ut_weight ut = None -> defect cfg
| user_type_nonpositive_weight uts ut w :
    cfg_user_types cfg = Some uts -> In ut uts -> ut_weight ut = Some w ->
    nonpositive w -> defect cfg
| service_without_base_url services name sc :
    cfg_endpoints cfg = Some services -> In (name, sc) services ->
    sc_base_url sc = None -> defect cfg
| service_without_endpoints services name sc :
    cfg_endpoints cfg = Some services -> In (name, sc) services ->
    sc_endpoints sc = None -> defect cfg.

(** What a line printed by validation says of the configuration: the
    section, field, user type or service it names has the defect it names. *)
Inductive blames (cfg : Config) : string -> Prop :=
| blames_simulation :
    cfg_simulation cfg = None ->
    blames cfg "Missing required configuration section: simulation"
| blames_user_types :
    cfg_user_types cfg = None ->
    blames cfg "Missing required configuration section: user_types"
| blames_endpoints :
    cfg_endpoints cfg = None ->
    blames cfg "Missing required configuration section: endpoints"
| blames_geographic_distribution :
    cfg_geographic_distribution cfg = None ->
    blames cfg "Missing required configuration section: geographic_distribution"
| blames_workers sim :
    cfg_simulation cfg = Some sim -> sim_workers sim = None ->
    blames cfg "Missing required simulation field: workers"
| blames_rate sim :
    cfg_simulation cfg = Some sim -> sim_requests_per_second sim = None ->
    blames cfg "Missing required simulation field: requests_per_second"
| blames_worker_count sim n :
    cfg_simulation cfg = Some sim -> sim_workers sim = Some n -> n <= 0 ->
    blames cfg "Number of workers must be positive"
| blames_rate_value sim r :
    cfg_simulation cfg = Some sim -> sim_requests_per_second sim = Some r ->
    r <= 0 ->
    blames cfg "Requests per second must be positive"
| blames_user_type uts ut :
    cfg_user_types cfg = Some uts -> In ut uts ->
    (ut_weight ut = None \/ exists w, ut_weight ut = Some w /\ nonpositive w) ->
    blames cfg ("User type " +:+ default "unnamed" (ut_name ut)
                +:+ " must have positive weight")
| blames_base_url services name sc :
    cfg_endpoints cfg = Some services -> In (name, sc) services ->
    sc_base_url sc = None ->
    blames cfg ("Service " +:+ name +:+ " missing base_url")
| blames_service_endpoints services name sc :
    cfg_endpoints cfg = Some services -> In (name, sc) services ->
    sc_endpoints sc = None ->
    blames cfg ("Service " +:+ name +:+ " missing endpoints").

(** An endpoint of the configuration whose weight is not positive. *)
Definition endpoint_nonpositive_weight (cfg : Config) : Prop :=
  exists services name sc ecs ec,
    cfg_endpoints cfg = Some services /\ In (name, sc) services /\
    sc_endpoints sc = Some ecs /\ In ec ecs /\ nonpositive (ec_weight ec).

End Spec.

(** ** Concrete configurations and environments *)

Module Examples.

Import DataGenerators UserSession LoadSimulator Num.

Definition pv0 : Providers :=
  mkProviders (fun _ => JDict [("quantity", JInt 1)])
              (fun _ _ => Ok "10.0.0.2") "192.0.2.7".

Definition browser : UserType :=
  mkUserType (Some "browser") (Some (Int 1)) (1, 3) (0%Q, 0%Q).

Definition ghost : UserType :=
  mkUserType (Some "ghost") (Some (Int 0)) (1, 3) (0%Q, 0%Q).

Definition shopper : UserType :=
  mkUserType (Some "shopper") (Some (Int 5)) (2, 4) (0%Q, 0%Q).

Definition eu : Region := mkRegion "eu" (Int 1) None.

Definition seed0 : Seed :=
  mkSeed 0 (mkPreferences [1] "low" false) 0 0 0.

Definition health : EndpointConfig :=
  mkEndpointConfig "/health" ["GET"] (Int 1) None None None.

Definition products : EndpointConfig :=
  mkEndpointConfig "/products" ["GET"] (Int 1) (Some ["browser"]) None None.

Definition patch_item : EndpointConfig :=
  mkEndpointConfig "/items/{id}" ["PATCH"] (Int 1) (Some ["browser"]) None
    (Some "product_id").

Definition free_item : EndpointConfig :=
  mkEndpointConfig "/free" ["GET"] (Int 0) (Some ["browser"]) None None.

Definition config_with (uts : list UserType) (ecs : list EndpointConfig) : Config :=
  mkConfig (Some (mkSimulationConfig (Some 2) (Some 10)))
           (Some uts)
           (Some [("shop", mkServiceConfig (Some "http://shop:8000") (Some ecs))])
           (Some [eu])
           None.

(** Two endpoints: one open to every user type by the specification's
    reading (no [user_types] key), one for browsers. *)
Definition cfg_shop : Config := config_with [browser] [health; products].

(** A user type of weight zero next to a regular one. *)
Definition cfg_ghost : Config := config_with [ghost; shopper] [health; products].

(** An endpoint of weight zero. *)
Definition cfg_free : Config := config_with [browser] [products; free_item].


Definition us : Region := mkRegion "us" (Int 3) None.


(** An endpoint with a method outside GET, POST, PUT and DELETE. *)
Definition cfg_patch : Config := config_with [browser] [patch_item].

(** The endpoints that [_build_endpoints] makes of them. *)
Definition get_health : Endpoint :=
  mkEndpoint "shop" "http://shop:8000" "/health" "GET" (Int 1) [] None None.

Definition get_products : Endpoint :=
  mkEndpoint "shop" "http://shop:8000" "/products" "GET" (Int 1) ["browser"] None None.

Definition patch_items : Endpoint :=
  mkEndpoint "shop" "http://shop:8000" "/items/{id}" "PATCH" (Int 1) ["browser"] None
    (Some "product_id").


(** A [logging] module reduced to its level names, with a root logger
    that takes any of them. *)
Definition logging_levels : Logging :=
  mkLogging
    (fun name =>
       if String.eqb name "DEBUG" then Ok (LevelNo 10)
       else if String.eqb name "INFO" then Ok (LevelNo 20)
       else if String.eqb name "WARNING" then Ok (LevelNo 30)
       else if String.eqb name "ERROR" then Ok (LevelNo 40)
       else if String.eqb name "CRITICAL" then Ok (LevelNo 50)
       else Raise (AttributeError
                     ("module 'logging' has no attribute '" +:+ name +:+ "'")))
    (fun _ => Ok tt).

(** A simulator built from a configuration that [__init__] accepts. *)
Definition sim_of (cfg : Config) : LoadSimulator :=
  match LoadSimulator.init logging_levels cfg 0%Q with
  | Ok sim => sim
  | Raise _ => mkLoadSimulator cfg DataGenerators.init (Stats.init 0%Q) []
  end.

Definition session_of (ut : UserType) : UserSession.UserSession :=
  match UserSession.init pv0 "4f9c" ut eu DataGenerators.init seed0 with
  | Ok (s, _) => s
  | Raise _ => mkUserSession "4f9c" ut eu "" "" "" 0 None [] None
  end.

Definition connect_error : Exception :=
  mkException "ConnectError" "All connection attempts failed".

(** A client whose every call fails at the transport level. *)
Definition env_down : RequestEnv :=
  mkRequestEnv 10%Q 11%Q 0 pv0 (fun _ => Raise connect_error).

(** A client whose every call is answered 200 with a JSON body. *)
Definition env_up : RequestEnv :=
  mkRequestEnv 10%Q 11%Q 0 pv0 (fun _ => Ok (mkResponse 200 (Ok (JDict [])))).

Definition tick_of (env : RequestEnv) (k : Z) : Tick :=
  mkTick true k 0 0 env.

(** No shutdown signal, every request failing at the transport level. *)
Definition world_down : nat -> Tick := fun i => tick_of env_down (Z.of_nat i).

(** No shutdown signal, every request answered. *)
Definition world_up : nat -> Tick := fun i => tick_of env_up (Z.of_nat i).

End Examples.

(** ** What a request puts on the wire *)

Module Wire.

Import DataGenerators UserSession LoadSimulator.

(** The request that the [if/elif] chain hands to the client, if any:
    the verb, the URL, the headers, and a JSON body for POST (whatever the
    payload is) and for PUT (when the payload is truthy). *)
Definition issued_request (session : UserSession.UserSession)
    (endpoint : Endpoint) (pv : Providers) (path : string) : option HttpRequest :=
  let url := base_url endpoint +:+ path in
  let headers := get_headers session in
  let payload := build_payload pv endpoint in
  let m := method endpoint in
  if String.eqb m "GET" then Some (mkHttpRequest "GET" url None headers)
  else if String.eqb m "POST" then Some (mkHttpRequest "POST" url payload headers)
  else if String.eqb m "PUT" then
    match payload with
    | Some p => if truthy p then Some (mkHttpRequest "PUT" url (Some p) headers)
                else Some (mkHttpRequest "PUT" url None headers)
    | None => Some (mkHttpRequest "PUT" url None headers)
    end
  else if String.eqb m "DELETE" then Some (mkHttpRequest "DELETE" url None headers)
  else None.

End Wire.

(** ** Shapes of strings used in the statements *)

Module Shape.

(** No opening brace, hence no placeholder, in a string. *)
Fixpoint brace_free (s : string) : bool :=
  match s with
  | EmptyString => true
  | String c s' => negb (Ascii.eqb c "{"%char) && brace_free s'
  end.

(** No slash in a string. *)
Fixpoint slash_free (s : string) : bool :=
  match s with
  | EmptyString => true
  | String c s' => negb (Ascii.eqb c "/"%char) && slash_free s'
  end.

End Shape.

(** ** SimulationStats.get_stats *)

Module Snapshot.

Import Stats.

Record Snapshot := mkSnapshot {
  elapsed_seconds : Q;
  snap_total_requests : Z;
  snap_successful_requests : Z;
  snap_failed_requests : Z;
  requests_per_second : Q;
  avg_response_time_ms : Q;
  snap_status_codes : gmap Z Z;
  top_endpoints : list (string * Z);
  error_count : Z
}.

(** [sum(xs)]: the additions run from 0 through the list. *)
Definition sum (xs : list Q) : Q := fold_left Qplus xs 0%Q.

(** One step of a stable sort by decreasing count: [x], which precedes
    every entry of [l] in the input, goes before the first entry whose
    count is not above its own. *)
Fixpoint insert_desc (x : string * Z) (l : list (string * Z)) : list (string * Z) :=
  match l with
  | [] => [x]
  | y :: l' => if snd x <? snd y then y :: insert_desc x l' else x :: l
  end.

(** [sorted(items, key=lambda x: x[1], reverse=True)]: by decreasing
    count, entries of equal count in their input order. *)
Definition sorted_desc (items : list (string * Z)) : list (string * Z) :=
  fold_right insert_desc [] items.

(** The order of the sorted entries: no later entry has more hits. *)
Definition by_count_desc (a b : string * Z) : Prop := snd b <= snd a.

(** [get_stats]. [now] is the reading of [time.time()]; [items] is
    [self.endpoints_hit.items()], the entries of the endpoint histogram in
    the order in which their keys were first recorded, an order that the
    map of the model does not keep. The resulting [top_endpoints] dict is
    given as the list of its entries in order. *)
Definition get_stats (st : SimulationStats) (now : Q) (items : list (string * Z))
  : Snapshot :=
  let elapsed := (now - start_time st)%Q in
  let avg_response_time :=
    match response_times st with
    | [] => 0%Q
    | _ :: _ => (sum (response_times st)
                 / inject_Z (Z.of_nat (length (response_times st))))%Q
    end in
  let rps := if Random.Qltb 0 elapsed
             then (inject_Z (total_requests st) / elapsed)%Q else 0%Q in
  mkSnapshot elapsed (total_requests st) (successful_requests st)
    (failed_requests st) rps (avg_response_time * 1000)%Q (status_codes st)
    (firstn 10 (sorted_desc items)) (Z.of_nat (length (errors st))).

End Snapshot.

(** ** main.wait_for_services *)

Module Readiness.

(** What one health request comes to: an answer with a status, or an
    exception of the client. *)
Inductive Probe :=
| Answered (status : Z)
| Failed (e : Exception).

(** What the function does that can be seen from outside, in order. *)
Inductive Event :=
| Get (url : string)
| Print (line : string)
| Sleep (seconds : Z).

Definition max_retries : nat := 30.
Definition retry_delay : Z := 2.

(** [[(name, f"{base_url}/health") for ...]]: a service without
    [base_url] raises [KeyError]. *)
Fixpoint health_urls (services : list (string * ServiceConfig))
  : result (list (string * string)) :=
  match services with
  | [] => Ok []
  | (service_name, service_config) :: rest =>
      let* base := getitem "base_url" (sc_base_url service_config) in
      let* tl := health_urls rest in
      Ok ((service_name, base +:+ "/health") :: tl)
  end.

(** The attempts on one service, from attempt number [attempt] on, for
    [remaining] more rounds of [for attempt in range(max_retries)].
    [probe n] is what the request of attempt [n] comes to. A 200 leaves
    the loop; any other answer goes straight to the next attempt; an
    exception sleeps and goes on, except on the last attempt, where the
    function returns [False] (the second component). *)
Fixpoint attempts (probe : nat -> Probe) (service_name health_url : string)
    (remaining attempt : nat) : list Event * bool :=
  match remaining with
  | O => ([], false)
  | S remaining' =>
      match probe attempt with
      | Answered status =>
          if status =? 200
          then ([Get health_url; Print ("✓ " +:+ service_name +:+ " is ready")], false)
          else
            let '(events, gave_up) :=
              attempts probe service_name health_url remaining' (S attempt) in
            (Get health_url :: events, gave_up)
      | Failed e =>
          if (attempt =? max_retries - 1)%nat
          then ([Get health_url;
                 Print ("✗ " +:+ service_name +:+ " failed to become ready after "
                        +:+ pretty max_retries +:+ " attempts");
                 Print ("  Last error: " +:+ exc_str e)], true)
          else
            let '(events, gave_up) :=
              attempts probe service_name health_url remaining' (S attempt) in
            (Get health_url
               :: Print ("  Waiting for " +:+ service_name +:+ "... (attempt "
                         +:+ pretty (attempt + 1)%nat +:+ "/" +:+ pretty max_retries
                         +:+ ")")
               :: Sleep retry_delay :: events, gave_up)
      end
  end.

(** The loop over the services: the first one given up ends the function
    with [False]. *)
Fixpoint poll (probe : string -> nat -> Probe) (services : list (string * string))
  : list Event * bool :=
  match services with
  | [] => ([Print "All services are ready!"], true)
  | (service_name, health_url) :: rest =>
      let '(events, gave_up) :=
        attempts (probe health_url) service_name health_url max_retries 0 in
      if gave_up then (events, false)
      else let '(events', ok) := poll probe rest in (events ++ events', ok)
  end.

(** [wait_for_services]: [probe url n] is what attempt [n] on [url] comes
    to. *)
Definition wait_for_services (cfg : Config) (probe : string -> nat -> Probe)
  : result (list Event * bool) :=
  let* services := getitem "endpoints" (cfg_endpoints cfg) in
  let* urls := health_urls services in
  let '(events, ok) := poll probe urls in
  Ok (Print "Waiting for API services to be ready..." :: events, ok).

(** A service on which the function gives up: no 200 in the attempts
    before the last, and an exception on the last. *)
Definition gives_up (p : nat -> Probe) : Prop :=
  (forall a, (a < max_retries - 1)%nat -> p a <> Answered 200) /\
  exists e, p (max_retries - 1)%nat = Failed e.

Definition is_get (e : Event) : bool :=
  match e with Get _ => true | _ => false end.

Definition is_sleep (e : Event) : bool :=
  match e with Sleep _ => true | _ => false end.

(** The number of health requests in a sequence of events. *)
Definition gets (events : list Event) : nat := length (List.filter is_get events).

(** The seconds slept in a sequence of events. *)
Definition seconds_slept (events : list Event) : Z :=
  fold_right (fun e acc => match e with Sleep n => n + acc | _ => acc end) 0 events.

End Readiness.

(** ** LoadSimulator._user_session_worker *)

Module Worker.

Import DataGenerators UserSession LoadSimulator.

(** What one round of the worker's outer loop reads from outside: the
    [running] flag as the outer loop test sees it, the draws and readings
    of the session's creation, and the rounds of its session loop. *)
Record Round := mkRound {
  rd_running : bool;
  rd_k_user_type : Z;
  rd_k_region : Z;
  rd_session_id : string;
  rd_seed : Seed;
  rd_now : Q;
  rd_providers : Providers;
  rd_world : nat -> Tick
}.

(** [_user_session_worker]: [while self.running:] a session is created and
    run to the end of its loop, then the worker sleeps between one and
    three seconds. The whole loop sits in one [try]: an exception of the
    session's creation or of its loop is logged by the handler and the
    worker returns. [Ok] carries the simulator and the number of sessions
    run when the loop test fails; [Raise] is the exception the handler
    logged; [None] when the fuel runs out. *)
Fixpoint _user_session_worker (fuel : nat) (rounds : nat -> Round) (j : nat)
    (sim : LoadSimulator) : option (result (LoadSimulator * nat)) :=
  match fuel with
  | O => None
  | S fuel' =>
      let rd := rounds j in
      if negb (rd_running rd) then Some (Ok (sim, j))
      else
        match new_session sim (rd_providers rd) (rd_k_user_type rd) (rd_k_region rd)
                (rd_session_id rd) (rd_seed rd) (rd_now rd) with
        | Raise e => Some (Raise e)
        | Ok (sim1, session) =>
            match session_loop fuel' (rd_world rd) 0 sim1 session with
            | None => None
            | Some (Raise e) => Some (Raise e)
            | Some (Ok (sim2, _, _)) =>
                _user_session_worker fuel' rounds (S j) sim2
            end
        end
  end.

End Worker.

(** ** The endpoint list, spelled out *)

Module Layout.

Import LoadSimulator.

(** The endpoint of one method of one configured entry. *)
Definition endpoint_of (name base : string) (ec : EndpointConfig) (m : string)
  : Endpoint :=
  mkEndpoint name base (ec_path ec) m (ec_weight ec)
    (default [] (ec_user_types ec)) (ec_payload_generator ec)
    (ec_path_generator ec).

(** One endpoint per service, entry and method, in the order of the
    configuration. *)
Definition expected (services : list (string * ServiceConfig)) : list Endpoint :=
  flat_map
    (fun p =>
       flat_map
         (fun ec => map (endpoint_of (fst p) (default "" (sc_base_url (snd p))) ec)
                        (ec_methods ec))
         (default [] (sc_endpoints (snd p))))
    services.

(** How many methods the entries of the configuration list in all. *)
Definition method_count (services : list (string * ServiceConfig)) : nat :=
  list_sum
    (map (fun p => list_sum (map (fun ec => length (ec_methods ec))
                                 (default [] (sc_endpoints (snd p)))))
         services).

End Layout.

(** ** Where a weighted draw lands *)

Module Draw.

Import Num.

(** Position [i] of [n] brackets the point [pt]: the point is not below
    the running sum that ends the position before, and is below the
    running sum that ends position [i]. The first position has nothing
    before it, and the last is never tested from above. *)
Definition bracketed (cum : list number) (pt : float) (i n : nat) : Prop :=
  (i = 0%nat \/ float_lt pt (nth (i - 1) cum (Int 0)) = false) /\
  (i = (n - 1)%nat \/ float_lt pt (nth i cum (Int 0)) = true).

(** The running sums of a list of ints, after a first sum [acc]. *)
Fixpoint running_sums (acc : Z) (zs : list Z) : list Z :=
  match zs with
  | [] => []
  | z :: zs' => (acc + z) :: running_sums (acc + z) zs'
  end.

(** Candidate [x] sits at a position that brackets the point of draw [k],
    [random() * total], among the running sums of the weights. *)
Definition designated {A} (population : list A) (weights : list number) (k : Z)
    (x : A) : Prop :=
  exists cum total i,
    Random.accumulate weights = Ok cum /\
    Random.cum_total cum = Ok total /\
    nth_error population i = Some x /\
    bracketed cum (Random.random_float k * total)%float i (length population).

End Draw.

(** ** Further concrete inputs *)

Module Examples2.

Import DataGenerators UserSession LoadSimulator Examples Num.


(** The reviews of a product, with the product id as path parameter. *)
Definition product_detail : Endpoint :=
  mkEndpoint "shop" "http://shop:8000" "/products/{id}/reviews" "GET" (Int 1)
    ["browser"] None (Some "product_id").

(** A client whose every call is answered 404. *)
Definition env_missing : RequestEnv :=
  mkRequestEnv 10%Q 11%Q 0 pv0 (fun _ => Ok (mkResponse 404 (Ok JNull))).

Definition decode_error : Exception :=
  mkException "JSONDecodeError" "Expecting value: line 1 column 1 (char 0)".

(** A client whose every call is answered 200 with a body that is not JSON. *)
Definition env_html : RequestEnv :=
  mkRequestEnv 10%Q 11%Q 0 pv0 (fun _ => Ok (mkResponse 200 (Raise decode_error))).

(** No shutdown signal; the client fails on even rounds and answers on
    odd ones. *)
Definition world_flaky : nat -> Tick :=
  fun i => tick_of (if Nat.even i then env_down else env_up) 2.

(** Three regions with weights 1, 0 and 3. *)
Definition cfg_regions : Config :=
  mkConfig (Some (mkSimulationConfig (Some 2) (Some 10)))
           (Some [browser; Examples.shopper])
           (Some [("shop", mkServiceConfig (Some "http://shop:8000") (Some [products]))])
           (Some [eu; mkRegion "void" (Int 0) None; us])
           None.

(** A region of a given weight, and the shop with given regions. *)
Definition region_of (name : string) (w : number) : Region := mkRegion name w None.

Definition cfg_of_regions (rgs : list Region) : Config :=
  mkConfig (Some (mkSimulationConfig (Some 2) (Some 10)))
           (Some [browser])
           (Some [("shop", mkServiceConfig (Some "http://shop:8000") (Some [products]))])
           (Some rgs)
           None.

(** A user type whose weight is the YAML scalar [.inf]. *)
Definition boundless : UserType :=
  mkUserType (Some "boundless") (Some (Float infinity)) (1, 3) (0%Q, 0%Q).

Definition cfg_boundless : Config := config_with [boundless] [health; products].

(** A configuration whose log level is no attribute of [logging]. *)
Definition cfg_verbose : Config :=
  mkConfig (Some (mkSimulationConfig (Some 2) (Some 10)))
           (Some [browser])
           (Some [("shop", mkServiceConfig (Some "http://shop:8000") (Some [products]))])
           (Some [eu])
           (Some (mkReporting (Some "verbose"))).

(** A service that answers 503 to every health request. *)
Definition always_503 : string -> nat -> Readiness.Probe :=
  fun _ _ => Readiness.Answered 503.

(** A service that refuses the connection twice and then answers 200. *)
Definition up_after_two : string -> nat -> Readiness.Probe :=
  fun _ n => if (n <? 2)%nat then Readiness.Failed Examples.connect_error
             else Readiness.Answered 200.

(** A service that refuses every connection. *)
Definition never_up : string -> nat -> Readiness.Probe :=
  fun _ _ => Readiness.Failed Examples.connect_error.

(** A configuration without user types. *)
Definition cfg_nobody : Config := Examples.config_with [] [Examples.health].

(** Rounds of a worker that is never told to stop. *)
Definition rounds_up : nat -> Worker.Round :=
  fun _ => Worker.mkRound true 0 0 "4f9c" Examples.seed0 0%Q Examples.pv0
             Examples.world_up.

(** Rounds of a worker that runs two sessions and is then told to stop. *)
Definition rounds_two : nat -> Worker.Round :=
  fun j => Worker.mkRound (j <? 2)%nat 0 0 "4f9c" Examples.seed0 0%Q Examples.pv0
             Examples.world_up.

(** A PUT endpoint whose payload generator is not a known one. *)
Definition put_profile : Endpoint :=
  mkEndpoint "shop" "http://shop:8000" "/profile" "PUT" (Int 1) ["browser"]
    (Some "update_profile") None.

End Examples2.

(** * Properties *)

(** ** Statistics *)

Section StatsFacts.

Import Stats.

Lemma bump_insert `{Countable K} (k : K) (d : gmap K Z) :
  bump k d = <[k := default 0 (d !! k) + 1]> d.
Proof.
  unfold bump. destruct (d !! k) as [v|] eqn:E.
  - rewrite E. reflexivity.
  - rewrite lookup_insert_eq. cbn. apply insert_insert_eq.
Qed.

Lemma hist_sum_insert_fresh `{Countable K} (k : K) (v : Z) (d : gmap K Z) :
  d !! k = None -> hist_sum (<[k := v]> d) = v + hist_sum d.
Proof.
  intros E. unfold hist_sum. apply (map_fold_insert_L (fun _ v acc => v + acc)); [|exact E].
  intros. lia.
Qed.

Lemma hist_sum_bump `{Countable K} (k : K) (d : gmap K Z) :
  hist_sum (bump k d) = hist_sum d + 1.
Proof.
  rewrite bump_insert. destruct (d !! k) as [v|] eqn:E; cbn.
  - rewrite <- (insert_delete_eq d k (v + 1)).
    rewrite hist_sum_insert_fresh by apply lookup_delete_eq.
    rewrite <- (insert_id d k v E) at 2.
    rewrite <- (insert_delete_eq d k v).
    rewrite hist_sum_insert_fresh by apply lookup_delete_eq. lia.
  - rewrite hist_sum_insert_fresh by exact E. lia.
Qed.

Lemma bump_lookup_eq `{Countable K} (k : K) (d : gmap K Z) :
  bump k d !! k = Some (default 0 (d !! k) + 1).
Proof. rewrite bump_insert. apply lookup_insert_eq. Qed.

Lemma bump_lookup_ne `{Countable K} (k k' : K) (d : gmap K Z) :
  k <> k' -> bump k d !! k' = d !! k'.
Proof. intros. rewrite bump_insert. by apply lookup_insert_ne. Qed.

Lemma count_ok_cons c cs :
  count_ok (c :: cs) = (if c_status c <? 400 then 1 else 0) + count_ok cs.
Proof.
  unfold count_ok. rewrite filter_cons.
  destruct (Z.ltb_spec (c_status c) 400); case_decide; try lia; cbn [length]; lia.
Qed.

Lemma count_bad_cons c cs :
  count_bad (c :: cs) = (if c_status c <? 400 then 0 else 1) + count_bad cs.
Proof.
  unfold count_bad. rewrite filter_cons.
  destruct (Z.ltb_spec (c_status c) 400); case_decide; try lia; cbn [length]; lia.
Qed.

(** What a sequence of calls adds to each counter. *)
Lemma record_all_counters cs : forall st,
  let st' := record_all st cs in
  total_requests st' = total_requests st + Z.of_nat (length cs) /\
  successful_requests st' = successful_requests st + count_ok cs /\
  failed_requests st' = failed_requests st + count_bad cs /\
  hist_sum (status_codes st') = hist_sum (status_codes st) + Z.of_nat (length cs) /\
  hist_sum (endpoints_hit st') = hist_sum (endpoints_hit st) + Z.of_nat (length cs) /\
  length (response_times st') = (length (response_times st) + length cs)%nat.
Proof.
  induction cs as [|c cs IH]; intros st; cbn zeta.
  - cbn. unfold count_ok, count_bad. cbn. repeat split; lia.
  - change (record_all st (c :: cs)) with (record_all (record st c) cs).
    destruct (IH (record st c)) as (Ht & Hs & Hf & Hc & He & Hl).
    rewrite Ht, Hs, Hf, Hc, He, Hl, count_ok_cons, count_bad_cons.
    unfold record, record_request; cbn [total_requests successful_requests
      failed_requests status_codes endpoints_hit response_times].
    rewrite !hist_sum_bump, length_app. cbn [length].
    destruct (c_status c <? 400); repeat split; lia.
Qed.

Lemma hist_sum_empty `{Countable K} : hist_sum (∅ : gmap K Z) = 0.
Proof. unfold hist_sum. apply map_fold_empty. Qed.

(** C4: from a fresh [SimulationStats], after any sequence of
    [record_request] calls, successes plus failures equal the total, the
    status-code histogram sums to the total, and the successes (failures)
    are exactly the calls whose status code is (is not) below 400; each
    single call adds one to the success counter when its status is below
    400 and one to the failure counter otherwise. *)
Theorem stats_counters_consistent (now : Q) (cs : list Call) :
  let st := record_all (init now) cs in
  successful_requests st + failed_requests st = total_requests st /\
  hist_sum (status_codes st) = total_requests st /\
  total_requests st = Z.of_nat (length cs) /\
  successful_requests st = count_ok cs /\
  failed_requests st = count_bad cs /\
  (forall st0 c,
      successful_requests (record st0 c)
        = successful_requests st0 + (if c_status c <? 400 then 1 else 0) /\
      failed_requests (record st0 c)
        = failed_requests st0 + (if c_status c <? 400 then 0 else 1)).
Proof.
  cbn zeta.
  destruct (record_all_counters cs (init now)) as (Ht & Hs & Hf & Hc & _ & _).
  cbn [init total_requests successful_requests failed_requests status_codes] in *.
  rewrite hist_sum_empty in Hc.
  assert (Hsplit : count_ok cs + count_bad cs = Z.of_nat (length cs)).
  { clear. induction cs as [|c cs IH]; [reflexivity|].
    rewrite count_ok_cons, count_bad_cons. cbn [length].
    destruct (c_status c <? 400); lia. }
  repeat split; try lia;
    unfold record, record_request; cbn; destruct (c_status c <? 400); lia.
Qed.

(** C10: every [record_request] call appends one latency sample and adds one
    to exactly one bucket of the endpoint histogram, the bucket of
    [method endpoint], leaving the others as they were; so from a fresh
    [SimulationStats] the number of samples and the sum of the endpoint
    histogram both equal [total_requests]. *)
Theorem stats_samples_and_hits (now : Q) (cs : list Call) :
  let st := record_all (init now) cs in
  Z.of_nat (length (response_times st)) = total_requests st /\
  hist_sum (endpoints_hit st) = total_requests st /\
  (forall st0 c,
      let key := endpoint_key (c_method c) (c_endpoint c) in
      response_times (record st0 c) = response_times st0 ++ [c_time c] /\
      endpoints_hit (record st0 c)
        = <[key := default 0 (endpoints_hit st0 !! key) + 1]> (endpoints_hit st0) /\
      hist_sum (endpoints_hit (record st0 c)) = hist_sum (endpoints_hit st0) + 1 /\
      total_requests (record st0 c) = total_requests st0 + 1).
Proof.
  cbn zeta.
  destruct (record_all_counters cs (init now)) as (Ht & _ & _ & _ & He & Hl).
  cbn [init total_requests endpoints_hit response_times length] in *.
  rewrite hist_sum_empty in He.
  split; [lia|]. split; [lia|].
  intros st0 c. unfold record, record_request;
    cbn [response_times endpoints_hit total_requests].
  split; [reflexivity|]. split; [apply bump_insert|].
  split; [apply hist_sum_bump | reflexivity].
Qed.

End StatsFacts.

(** ** Random draws *)

Section RandomFacts.

Lemma randint_range (a b k : Z) :
  a <= b -> exists d, Random.randint a b k = Ok d /\ a <= d <= b.
Proof.
  intros Hab. unfold Random.randint, Random.randbelow.
  destruct (Z.leb_spec a b); [|lia].
  eexists; split; [reflexivity|].
  pose proof (Z.mod_pos_bound k (b - a + 1)). lia.
Qed.

Lemma randint_onto (a b d : Z) :
  a <= d <= b -> Random.randint a b (d - a) = Ok d.
Proof.
  intros Hd. unfold Random.randint, Random.randbelow.
  destruct (Z.leb_spec a b); [|lia].
  rewrite Z.mod_small by lia. f_equal. lia.
Qed.

Lemma choice_nth {A} (seq : list A) (k : Z) :
  seq <> [] ->
  exists x, Random.choice seq k = Ok x /\
            nth_error seq (Z.to_nat (k mod Z.of_nat (length seq))) = Some x.
Proof.
  intros Hne. destruct seq as [|y seq]; [congruence|].
  unfold Random.choice, Random.randbelow.
  set (l := y :: seq).
  assert (Hlt : (Z.to_nat (k mod Z.of_nat (length l)) < length l)%nat).
  { pose proof (Z.mod_pos_bound k (Z.of_nat (length l))).
    cbn [length l] in *. lia. }
  destruct (nth_error l _) as [x|] eqn:E.
  - exists x. split; reflexivity.
  - apply nth_error_None in E. lia.
Qed.

Lemma bisect_loop_bounds (a : list Num.number) (x : float) (fuel : nat) :
  forall lo hi,
  (lo <= hi)%nat ->
  (lo <= Random.bisect_loop fuel a x lo hi <= hi)%nat.
Proof.
  induction fuel as [|fuel IH]; intros lo hi Hle; cbn [Random.bisect_loop]; [lia|].
  destruct (Nat.ltb_spec lo hi) as [Hlt|]; [|lia].
  assert (Hmid : (lo <= (lo + hi) / 2 < hi)%nat).
  { split.
    - apply Nat.div_le_lower_bound; lia.
    - apply Nat.Div0.div_lt_upper_bound; lia. }
  destruct (Num.float_lt _ _).
  - specialize (IH lo ((lo + hi) / 2)%nat ltac:(lia)). lia.
  - specialize (IH (S ((lo + hi) / 2)) hi ltac:(lia)). lia.
Qed.

(** Number arithmetic fails in one way only. *)
Lemma to_float_raises n e :
  Num.to_float n = Raise e ->
  e = OverflowError "int too large to convert to float".
Proof.
  destruct n as [z|f]; cbn [Num.to_float]; [|discriminate].
  destruct (is_infinity _); [|discriminate]. by intros [= <-].
Qed.

Lemma add_raises a b e :
  Num.add a b = Raise e ->
  e = OverflowError "int too large to convert to float".
Proof.
  assert (Hgen : (let* f := Num.to_float a in
                  let* g := Num.to_float b in
                  Ok (Num.Float (f + g)%float)) = Raise e ->
                 e = OverflowError "int too large to convert to float").
  { destruct (Num.to_float a) eqn:E1; cbn [bind].
    - destruct (Num.to_float b) eqn:E2; cbn [bind]; [discriminate|].
      intros [= <-]. by apply to_float_raises in E2.
    - intros [= <-]. by apply to_float_raises in E1. }
  unfold Num.add. destruct a, b; try discriminate; exact Hgen.
Qed.

Lemma accumulate_from_length ws : forall acc l,
  Random.accumulate_from acc ws = Ok l -> length l = length ws.
Proof.
  induction ws as [|w ws IH]; intros acc l; cbn [Random.accumulate_from].
  - by intros [= <-].
  - destruct (Num.add acc w) as [acc'|]; cbn [bind]; [|discriminate].
    destruct (Random.accumulate_from acc' ws) as [tl|] eqn:E; cbn [bind];
      [|discriminate].
    intros [= <-]. cbn [length]. f_equal. by apply (IH acc').
Qed.

Lemma accumulate_length ws l :
  Random.accumulate ws = Ok l -> length l = length ws.
Proof.
  destruct ws as [|w ws]; cbn [Random.accumulate]; [by intros [= <-]|].
  destruct (Random.accumulate_from w ws) as [tl|] eqn:E; cbn [bind]; [|discriminate].
  intros [= <-]. cbn [length]. f_equal. by apply (accumulate_from_length ws w).
Qed.

Lemma accumulate_from_raises ws : forall acc e,
  Random.accumulate_from acc ws = Raise e ->
  e = OverflowError "int too large to convert to float".
Proof.
  induction ws as [|w ws IH]; intros acc e; cbn [Random.accumulate_from];
    [discriminate|].
  destruct (Num.add acc w) as [acc'|e'] eqn:Ea; cbn [bind].
  - destruct (Random.accumulate_from acc' ws) as [tl|e'] eqn:E; cbn [bind];
      [discriminate|].
    intros [= <-]. by apply (IH acc').
  - intros [= <-]. by apply add_raises in Ea.
Qed.

Lemma accumulate_raises ws e :
  Random.accumulate ws = Raise e ->
  e = OverflowError "int too large to convert to float".
Proof.
  destruct ws as [|w ws]; cbn [Random.accumulate]; [discriminate|].
  destruct (Random.accumulate_from w ws) as [tl|e'] eqn:E; cbn [bind];
    [discriminate|].
  intros [= <-]. by apply accumulate_from_raises in E.
Qed.

Lemma cum_total_raises cum e :
  cum <> [] -> Random.cum_total cum = Raise e ->
  e = OverflowError "int too large to convert to float".
Proof.
  intros Hne. unfold Random.cum_total.
  destruct (last cum) as [c|] eqn:El.
  - destruct (Num.to_float c) eqn:E; cbn [bind]; [discriminate|].
    intros [= <-]. by apply to_float_raises in E.
  - apply last_None in El. congruence.
Qed.

(** The ways a call of [choices] ends. *)
Lemma choices_outcome {A} (population : list A) (weights : list Num.number) (k : Z) :
  length weights = length population ->
  Spec.weighted_outcome population weights (Random.choices population weights k).
Proof.
  intros Hlen. unfold Random.choices, Spec.weighted_outcome, Spec.total_weight.
  destruct population as [|x pop].
  - destruct weights; [|discriminate]. reflexivity.
  - destruct (Random.accumulate weights) as [cum|e] eqn:Ea; cbn [bind].
    2: { split; [by apply accumulate_raises in Ea | reflexivity]. }
    pose proof (accumulate_length _ _ Ea) as Hcum.
    rewrite Hcum, Hlen, Nat.eqb_refl. cbn [negb].
    destruct (Random.cum_total cum) as [t|e] eqn:Et; cbn [bind].
    2: { split; [|reflexivity]. apply (cum_total_raises cum); [|exact Et].
         intros ->. rewrite Hlen in Hcum. discriminate. }
    destruct (t <=? 0)%float; [reflexivity|].
    destruct (is_finite t); cbn [negb]; [|reflexivity].
    set (pop' := x :: pop).
    pose proof (bisect_loop_bounds cum (Random.random_float k * t)%float
                  (length pop' - 1 - 0) 0 (length pop' - 1) ltac:(lia)) as Hb.
    unfold Random.bisect.
    destruct (nth_error pop' _) as [y|] eqn:E.
    + exists y. split; [reflexivity|]. eapply nth_error_In, E.
    + apply nth_error_None in E. cbn [length pop'] in *. lia.
Qed.

(** Whatever [choices] returns is one of the population. *)
Lemma choices_In {A} (population : list A) (weights : list Num.number) (k : Z) x :
  Random.choices population weights k = Ok x -> In x population.
Proof.
  unfold Random.choices.
  destruct (Random.accumulate weights); cbn [bind]; [|discriminate].
  destruct (negb _); [discriminate|].
  destruct (Random.cum_total _); cbn [bind]; [|discriminate].
  destruct (_ <=? _)%float; [discriminate|].
  destruct (negb _); [discriminate|].
  destruct (nth_error _ _) eqn:E; [|discriminate].
  intros [= <-]. eapply nth_error_In, E.
Qed.

Lemma choice_outcome {A} (population : list A) (k : Z) :
  Spec.uniform_outcome population k (Random.choice population k).
Proof.
  destruct population as [|x pop]; [reflexivity|].
  apply choice_nth. discriminate.
Qed.

End RandomFacts.

(** ** Sessions and requests *)

Section SessionFacts.

Import DataGenerators UserSession LoadSimulator Examples.

Lemma should_continue_spec (s : UserSession.UserSession) (a b k : Z) :
  ut_requests_per_session (user_type s) = (a, b) -> a <= b ->
  exists d, a <= d <= b /\
            should_continue_session s k = Ok (requests_made s <? d).
Proof.
  intros Hr Hab. unfold should_continue_session. rewrite Hr. cbn [fst snd].
  destruct (randint_range a b k Hab) as (d & -> & Hd).
  exists d. split; [exact Hd | reflexivity].
Qed.

(** C1, as the code has it: the constructor stores the user type with a
    zero counter and no budget; each evaluation of the continue-session
    check draws its own threshold from the range [a, b] of the user type
    and compares the counter with that draw, and every value of the range
    is the threshold of some evaluation. *)
Theorem continue_check_redraws (s : UserSession.UserSession) (a b : Z) :
  ut_requests_per_session (user_type s) = (a, b) -> a <= b ->
  (forall k, exists d, a <= d <= b /\
             should_continue_session s k = Ok (requests_made s <? d)) /\
  (forall d, a <= d <= b ->
             should_continue_session s (d - a) = Ok (requests_made s <? d)) /\
  (forall pv sid ut rg dg sd s0 dg',
      UserSession.init pv sid ut rg dg sd = Ok (s0, dg') ->
      requests_made s0 = 0 /\ user_type s0 = ut).
Proof.
  intros Hr Hab. split; [|split].
  - intros k. exact (should_continue_spec s a b k Hr Hab).
  - intros d Hd. unfold should_continue_session. rewrite Hr. cbn [fst snd].
    rewrite (randint_onto a b d Hd). reflexivity.
  - intros pv sid ut rg dg sd s0 dg'. unfold UserSession.init.
    destruct (generate_user_id dg sid (k_user_id sd) (seed_prefs sd)) as [[uid dg1]|e];
      cbn [bind]; [|discriminate].
    destruct (get_user_agent _ _) as [agent|e]; cbn [bind]; [|discriminate].
    destruct (get_ip_address _ _ _ _) as [ip|e]; cbn [bind]; [|discriminate].
    intros [= <- _]. split; reflexivity.
Qed.

Lemma continue_check_redraws_witness :
  (forall k, exists d, 1 <= d <= 3 /\
     should_continue_session (session_of browser) k
       = Ok (requests_made (session_of browser) <? d)) /\
  (forall d, 1 <= d <= 3 ->
     should_continue_session (session_of browser) (d - 1)
       = Ok (requests_made (session_of browser) <? d)) /\
  (forall pv sid ut rg dg sd s0 dg',
      UserSession.init pv sid ut rg dg sd = Ok (s0, dg') ->
      requests_made s0 = 0 /\ user_type s0 = ut).
Proof.
  apply (continue_check_redraws (session_of browser) 1 3); [reflexivity | lia].
Defined.

(** C1, as stated, fails: a session built by the constructor and advanced
    by one request stops on one draw and continues on another, so no fixed
    budget accounts for its continue-session checks. *)
Lemma no_fixed_budget :
  let s := update_state (session_of browser) "/health" None in
  (exists dg', UserSession.init pv0 "4f9c" browser eu DataGenerators.init seed0
               = Ok (session_of browser, dg')) /\
  should_continue_session s 0 = Ok false /\
  should_continue_session s 2 = Ok true /\
  ~ (exists budget, forall k,
        should_continue_session s k = Ok (requests_made s <? budget)).
Proof.
  cbn zeta. split; [|split; [|split]].
  - eexists. vm_compute. reflexivity.
  - vm_compute. reflexivity.
  - vm_compute. reflexivity.
  - intros [budget H].
    pose proof (H 0) as H0. pose proof (H 2) as H2.
    vm_compute in H0, H2. congruence.
Qed.

Lemma get_path_param_total (g : string) (k : Z) :
  exists p, get_path_param g k = Ok p.
Proof.
  unfold get_path_param, product_id, cart_item_id, order_id.
  do 3 (destruct (String.eqb g _); [cbn; eauto|]). eauto.
Qed.

(** Resolving the path never raises. *)
Lemma resolve_path_total (ep : Endpoint) (k : Z) :
  exists p, resolve_path ep k = Ok p.
Proof.
  unfold resolve_path. destruct (truthy_str _); [|eauto].
  destruct (get_path_param_total (default "" (path_generator ep)) k) as [p ->].
  cbn. eauto.
Qed.

Lemma make_request_raise sim s ep env e :
  try_request (stats sim) s ep env = Raise e ->
  _make_request sim s ep env = (set_stats sim (record_failure sim ep env e), s).
Proof. intros H. unfold _make_request. rewrite H. reflexivity. Qed.

Lemma try_request_call_raises st s ep env p e :
  resolve_path ep (k_param env) = Ok p ->
  http_call s ep env p = Some (Raise e) ->
  try_request st s ep env = Raise e.
Proof. intros Hp Hc. unfold try_request. rewrite Hp. cbn [bind]. rewrite Hc. reflexivity. Qed.

Lemma try_request_unbound st s ep env p :
  resolve_path ep (k_param env) = Ok p ->
  http_call s ep env p = None ->
  try_request st s ep env = Raise (UnboundLocalError
    "cannot access local variable 'response' where it is not associated with a value").
Proof. intros Hp Hc. unfold try_request. rewrite Hp. cbn [bind]. rewrite Hc. reflexivity. Qed.

Lemma record_failure_counters sim ep env e :
  let st := stats sim in
  let st' := record_failure sim ep env e in
  Stats.total_requests st' = Stats.total_requests st + 1 /\
  Stats.failed_requests st' = Stats.failed_requests st + 1 /\
  Stats.successful_requests st' = Stats.successful_requests st /\
  Stats.status_codes st' !! 500
    = Some (default 0 (Stats.status_codes st !! 500) + 1) /\
  Stats.response_times st' = Stats.response_times st ++ [(t_end env - t_start env)%Q] /\
  Stats.errors st'
    = (if String.eqb (exc_str e) "" then Stats.errors st
       else Stats.errors st ++ [exc_str e]).
Proof.
  cbn zeta. unfold record_failure, Stats.record_request.
  cbn [Stats.total_requests Stats.failed_requests Stats.successful_requests
       Stats.status_codes Stats.response_times Stats.errors].
  change (500 <? 400) with false. cbn iota.
  repeat split.
  - apply bump_lookup_eq.
  - unfold truthy_str. destruct (String.eqb (exc_str e) ""); reflexivity.
Qed.

(** C8: when the HTTP call of a request raises an exception [e], the call
    of [_make_request] returns normally; it has recorded one request for the
    endpoint's path and method with status 500 and [str(e)] as error text
    (one more failure, one more hit of histogram bucket 500, no success,
    and [str(e)] appended to the error list unless it is the empty string), and the
    session is as before. *)
Theorem transport_error_recorded sim s ep env p e :
  resolve_path ep (k_param env) = Ok p ->
  http_call s ep env p = Some (Raise e) ->
  _make_request sim s ep env
    = (set_stats sim
         (Stats.record_request (stats sim) (path ep) (method ep) 500
            (t_end env - t_start env)%Q (Some (exc_str e))),
       s) /\
  let st := stats sim in
  let st' := stats (fst (_make_request sim s ep env)) in
  Stats.total_requests st' = Stats.total_requests st + 1 /\
  Stats.failed_requests st' = Stats.failed_requests st + 1 /\
  Stats.successful_requests st' = Stats.successful_requests st /\
  Stats.status_codes st' !! 500
    = Some (default 0 (Stats.status_codes st !! 500) + 1) /\
  Stats.errors st'
    = (if String.eqb (exc_str e) "" then Stats.errors st
       else Stats.errors st ++ [exc_str e]).
Proof.
  intros Hp Hc.
  pose proof (make_request_raise sim s ep env e
                (try_request_call_raises _ _ _ _ _ _ Hp Hc)) as Hm.
  split; [exact Hm|]. cbn zeta. rewrite Hm. cbn [fst set_stats stats].
  destruct (record_failure_counters sim ep env e) as (Ht & Hf & Hs & Hc5 & _ & He).
  repeat split; assumption.
Qed.

Lemma transport_error_recorded_witness :
  _make_request (sim_of cfg_shop) (session_of browser) get_health env_down
    = (set_stats (sim_of cfg_shop)
         (Stats.record_request (stats (sim_of cfg_shop)) "/health" "GET" 500
            (11 - 10)%Q (Some "All connection attempts failed")),
       session_of browser) /\
  let st := stats (sim_of cfg_shop) in
  let st' := stats (fst (_make_request (sim_of cfg_shop) (session_of browser)
                           get_health env_down)) in
  Stats.total_requests st' = Stats.total_requests st + 1 /\
  Stats.failed_requests st' = Stats.failed_requests st + 1 /\
  Stats.successful_requests st' = Stats.successful_requests st /\
  Stats.status_codes st' !! 500
    = Some (default 0 (Stats.status_codes st !! 500) + 1) /\
  Stats.errors st' = Stats.errors st ++ ["All connection attempts failed"].
Proof.
  apply (transport_error_recorded (sim_of cfg_shop) (session_of browser)
           get_health env_down "/health" connect_error); reflexivity.
Defined.

Lemma dispatch_unknown env m url payload headers :
  m <> "GET" -> m <> "POST" -> m <> "PUT" -> m <> "DELETE" ->
  dispatch env m url payload headers = None.
Proof.
  intros H1 H2 H3 H4. unfold dispatch.
  apply String.eqb_neq in H1, H2, H3, H4. rewrite H1, H2, H3, H4. reflexivity.
Qed.

(** C9: for an endpoint whose method is none of GET, POST, PUT and DELETE
    no client call is made and [response] stays unbound; [_make_request]
    returns normally, having recorded the request as a failure with status
    500 and the unbound-variable message, never as a success, and the
    session is as before. *)
Theorem unknown_method_recorded_as_failure sim s ep env :
  method ep <> "GET" -> method ep <> "POST" ->
  method ep <> "PUT" -> method ep <> "DELETE" ->
  (forall p, http_call s ep env p = None) /\
  _make_request sim s ep env
    = (set_stats sim
         (Stats.record_request (stats sim) (path ep) (method ep) 500
            (t_end env - t_start env)%Q
            (Some "cannot access local variable 'response' where it is not associated with a value")),
       s) /\
  let st := stats sim in
  let st' := stats (fst (_make_request sim s ep env)) in
  Stats.total_requests st' = Stats.total_requests st + 1 /\
  Stats.failed_requests st' = Stats.failed_requests st + 1 /\
  Stats.successful_requests st' = Stats.successful_requests st /\
  Stats.status_codes st' !! 500
    = Some (default 0 (Stats.status_codes st !! 500) + 1).
Proof.
  intros H1 H2 H3 H4.
  assert (Hcall : forall p, http_call s ep env p = None).
  { intros p. unfold http_call. by apply dispatch_unknown. }
  split; [exact Hcall|].
  destruct (resolve_path_total ep (k_param env)) as [p Hp].
  pose proof (make_request_raise sim s ep env _
                (try_request_unbound (stats sim) s ep env p Hp (Hcall p))) as Hm.
  split; [exact Hm|]. cbn zeta. rewrite Hm. cbn [fst set_stats stats].
  destruct (record_failure_counters sim ep env (UnboundLocalError
    "cannot access local variable 'response' where it is not associated with a value"))
    as (Ht & Hf & Hs & Hc5 & _ & _).
  repeat split; assumption.
Qed.

Lemma unknown_method_recorded_as_failure_witness :
  (forall p, http_call (session_of browser) patch_items env_up p = None) /\
  _make_request (sim_of cfg_patch) (session_of browser) patch_items env_up
    = (set_stats (sim_of cfg_patch)
         (Stats.record_request (stats (sim_of cfg_patch)) "/items/{id}" "PATCH" 500
            (11 - 10)%Q
            (Some "cannot access local variable 'response' where it is not associated with a value")),
       session_of browser) /\
  let st := stats (sim_of cfg_patch) in
  let st' := stats (fst (_make_request (sim_of cfg_patch) (session_of browser)
                           patch_items env_up)) in
  Stats.total_requests st' = Stats.total_requests st + 1 /\
  Stats.failed_requests st' = Stats.failed_requests st + 1 /\
  Stats.successful_requests st' = Stats.successful_requests st /\
  Stats.status_codes st' !! 500
    = Some (default 0 (Stats.status_codes st !! 500) + 1).
Proof.
  apply (unknown_method_recorded_as_failure (sim_of cfg_patch)
           (session_of browser) patch_items env_up);
    apply String.eqb_neq; reflexivity.
Defined.

(** With a response in hand and a decodable body (or an error status),
    the request is counted by the session and recorded with the response's
    status. *)
Lemma try_request_answered st s ep env p resp :
  resolve_path ep (k_param env) = Ok p ->
  http_call s ep env p = Some (Ok resp) ->
  (status_code resp < 400 -> is_ok (json resp) = true) ->
  exists data,
    try_request st s ep env
      = Ok (Stats.record_request st p (method ep) (status_code resp)
              (t_end env - t_start env)%Q None,
            update_state s p data).
Proof.
  intros Hp Hc Hj. unfold try_request. rewrite Hp. cbn [bind]. rewrite Hc. cbn [bind].
  destruct (Z.ltb_spec (status_code resp) 400) as [Hlt|Hge].
  - specialize (Hj Hlt). destruct (json resp) as [j|e]; [|discriminate].
    cbn [bind]. eauto.
  - cbn [bind]. eauto.
Qed.

Lemma update_state_counter s p data :
  user_type (update_state s p data) = user_type s /\
  requests_made (update_state s p data) = requests_made s + 1.
Proof.
  unfold update_state.
  destruct (Str.contains _ _); [|split; reflexivity].
  destruct (Str.isdigit _); [|split; reflexivity].
  destruct (Str.int _); split; reflexivity.
Qed.

(** [_make_request] moves the session counter exactly when the [try] body
    runs to its end. *)
Lemma make_request_counter sim s ep env :
  let s' := snd (_make_request sim s ep env) in
  user_type s' = user_type s /\
  requests_made s'
    = requests_made s + (if is_ok (try_request (stats sim) s ep env) then 1 else 0).
Proof.
  cbn zeta. unfold _make_request, try_request.
  destruct (resolve_path ep (k_param env)) as [p|e]; cbn [bind is_ok snd];
    [|split; [reflexivity|lia]].
  destruct (http_call s ep env p) as [[resp|e]|]; cbn [bind is_ok snd];
    try (split; [reflexivity|lia]).
  destruct (status_code resp <? 400); cbn [bind].
  - destruct (json resp); cbn [bind is_ok snd]; [|split; [reflexivity|lia]].
    apply update_state_counter.
  - cbn [is_ok snd]. apply update_state_counter.
Qed.

(** C2 on a failing transport: the request against a client that raises a
    connection error is recorded in the statistics as a failure, but the
    session's counter stays where it was, so the next continue-session
    check sees the same counter. *)
Theorem transport_failure_not_counted :
  let s := session_of browser in
  let r := _make_request (sim_of cfg_shop) s get_health env_down in
  requests_made (snd r) = requests_made s /\
  requests_made (snd r) <> requests_made s + 1 /\
  Stats.total_requests (stats (fst r)) = 1 /\
  Stats.failed_requests (stats (fst r)) = 1 /\
  Stats.errors (stats (fst r)) = ["All connection attempts failed"] /\
  (forall k, should_continue_session (snd r) k = should_continue_session s k).
Proof.
  cbn zeta. repeat split; try (vm_compute; congruence).
Qed.

Lemma select_endpoint_ext sim sim' ut k1 k2 :
  endpoints sim' = endpoints sim ->
  _select_endpoint sim' ut k1 k2 = _select_endpoint sim ut k1 k2.
Proof. intros H. unfold _select_endpoint. rewrite H. reflexivity. Qed.

Lemma session_loop_down fuel : forall i sim,
  endpoints sim = endpoints (sim_of cfg_shop) ->
  session_loop fuel world_down i sim (session_of browser) = None.
Proof.
  induction fuel as [|fuel IH]; intros i sim Hep; [reflexivity|].
  cbn [session_loop]. change (tk_running (world_down i)) with true. cbn [negb].
  destruct (should_continue_spec (session_of browser) 1 3
              (k_continue (world_down i)) eq_refl ltac:(lia)) as (d & Hd & ->).
  change (requests_made (session_of browser)) with 0.
  destruct (Z.ltb_spec 0 d); [|lia].
  change (ut_name (user_type (session_of browser))) with (Some "browser").
  cbn [getitem bind].
  rewrite (select_endpoint_ext (sim_of cfg_shop) sim) by exact Hep.
  change (k_choice (world_down i)) with 0. change (k_choices (world_down i)) with 0.
  replace (_select_endpoint (sim_of cfg_shop) "browser" 0 0)
    with (Ok get_products) by (vm_compute; reflexivity).
  change (tk_env (world_down i)) with env_down.
  rewrite (make_request_raise sim (session_of browser) get_products env_down connect_error)
    by (apply (try_request_call_raises _ _ _ _ "/products"); reflexivity).
  apply IH. exact Hep.
Qed.

(** C7 on a failing transport: with no shutdown signal, a user type of
    range [1, 3] and a client whose every call raises a connection error,
    the session loop does not end, whatever the number of rounds allowed;
    after any number of rounds the counter is still 0. *)
Theorem session_loop_never_ends_when_down (fuel : nat) :
  session_loop fuel world_down 0 (sim_of cfg_shop) (session_of browser) = None.
Proof. apply session_loop_down. reflexivity. Qed.

End SessionFacts.

(** ** Weighted selection *)

Section SelectionFacts.

Import DataGenerators UserSession LoadSimulator Examples.

Lemma user_type_weights_length uts : forall ws,
  user_type_weights uts = Ok ws -> length ws = length uts.
Proof.
  induction uts as [|ut uts IH]; intros ws; cbn [user_type_weights].
  - intros [= <-]. reflexivity.
  - destruct (ut_weight ut); cbn [getitem bind]; [|discriminate].
    destruct (user_type_weights uts) as [ws'|]; cbn [bind]; [|discriminate].
    intros [= <-]. cbn [length]. f_equal. by apply IH.
Qed.

Lemma available_for_In ut ep :
  available_for ut ep = true <-> In ut (user_types ep).
Proof.
  unfold available_for. rewrite existsb_exists. split.
  - intros (x & Hin & Heq). apply String.eqb_eq in Heq. by subst.
  - intros Hin. exists ut. split; [exact Hin | apply String.eqb_refl].
Qed.

Lemma select_endpoint_cases sim ut k1 k2 :
  match List.filter (available_for ut) (endpoints sim) with
  | [] => Spec.uniform_outcome (endpoints sim) k1 (_select_endpoint sim ut k1 k2)
  | av => Spec.weighted_outcome av (map weight av) (_select_endpoint sim ut k1 k2)
  end.
Proof.
  unfold _select_endpoint.
  destruct (List.filter (available_for ut) (endpoints sim)) as [|ep av].
  - apply choice_outcome.
  - apply choices_outcome. by rewrite length_map.
Qed.

(** C3, as the code has it: the candidates for a user type are exactly the
    endpoints whose [user_types] list contains the name (an empty list
    makes an endpoint a candidate for nobody). When there is a candidate,
    the selection is the weighted draw among the candidates, so whatever it
    returns is an endpoint of the simulator that lists the user type. When
    a non-empty endpoint list has no candidate, the selection does not fail
    and returns the endpoint at position [k mod n] of the whole list, [k]
    being the uniform draw. *)
Theorem endpoint_selection_filter sim ut k1 k2 :
  endpoints sim <> [] ->
  let av := List.filter (available_for ut) (endpoints sim) in
  (forall ep, In ep av <-> In ep (endpoints sim) /\ In ut (user_types ep)) /\
  (av <> [] ->
   _select_endpoint sim ut k1 k2 = Random.choices av (map weight av) k2 /\
   forall ep, _select_endpoint sim ut k1 k2 = Ok ep ->
     In ep (endpoints sim) /\ In ut (user_types ep)) /\
  (av = [] ->
   exists ep, _select_endpoint sim ut k1 k2 = Ok ep /\
     nth_error (endpoints sim)
       (Z.to_nat (k1 mod Z.of_nat (length (endpoints sim)))) = Some ep).
Proof.
  intros Hne av.
  assert (Hav : forall ep,
            In ep av <-> In ep (endpoints sim) /\ In ut (user_types ep)).
  { intros ep. unfold av. rewrite filter_In, available_for_In. reflexivity. }
  split; [exact Hav|]. split.
  - intros Hsome.
    assert (Heq : _select_endpoint sim ut k1 k2
                  = Random.choices av (map weight av) k2).
    { unfold _select_endpoint. fold av. destruct av; [congruence | reflexivity]. }
    split; [exact Heq|].
    intros ep Hsel. rewrite Heq in Hsel. apply choices_In in Hsel.
    by apply Hav.
  - intros Hnone. unfold _select_endpoint. fold av. rewrite Hnone.
    by apply choice_nth.
Qed.

Lemma endpoint_selection_filter_witness :
  let sim := sim_of cfg_shop in
  let av := List.filter (available_for "browser") (endpoints sim) in
  (forall ep, In ep av <-> In ep (endpoints sim) /\ In "browser" (user_types ep)) /\
  (av <> [] ->
   _select_endpoint sim "browser" 1 0 = Random.choices av (map weight av) 0 /\
   forall ep, _select_endpoint sim "browser" 1 0 = Ok ep ->
     In ep (endpoints sim) /\ In "browser" (user_types ep)) /\
  (av = [] ->
   exists ep, _select_endpoint sim "browser" 1 0 = Ok ep /\
     nth_error (endpoints sim)
       (Z.to_nat (1 mod Z.of_nat (length (endpoints sim)))) = Some ep).
Proof.
  apply (endpoint_selection_filter (sim_of cfg_shop) "browser" 1 0).
  vm_compute. discriminate.
Defined.

(** C3, as stated, fails: an endpoint configured without [user_types] is
    eligible for browsers in the specification's reading, but the code's
    filter leaves it out and the selection for a browser gives the other
    endpoint. *)
Lemma empty_user_types_not_eligible :
  let eps := endpoints (sim_of cfg_shop) in
  eps = [get_health; get_products] /\
  user_types get_health = [] /\
  List.filter (Spec.eligible_per_spec "browser") eps = [get_health; get_products] /\
  List.filter (available_for "browser") eps = [get_products] /\
  _select_endpoint (sim_of cfg_shop) "browser" 0 0 = Ok get_products /\
  _select_endpoint (sim_of cfg_shop) "browser" 1 (2 ^ 52) = Ok get_products.
Proof. cbn zeta. repeat split; vm_compute; reflexivity. Qed.




End SelectionFacts.

(** ** Validation of the configuration *)

Section ValidationFacts.

Import Examples.

Lemma check_user_types_rejects uts ut :
  In ut uts -> Main.bad_weight ut = true ->
  exists msg, Main.check_user_types uts = Some msg.
Proof.
  induction uts as [|u uts IH]; intros Hin Hbad; [destruct Hin|].
  cbn [Main.check_user_types]. destruct (Main.bad_weight u) eqn:E; [eauto|].
  destruct Hin as [->|Hin]; [congruence | by apply IH].
Qed.

Lemma check_services_rejects services name sc :
  In (name, sc) services ->
  sc_base_url sc = None \/ sc_endpoints sc = None ->
  exists msg, Main.check_services services = Some msg.
Proof.
  induction services as [|[n c] services IH]; intros Hin Hbad; [destruct Hin|].
  cbn [Main.check_services].
  destruct (sc_base_url c) eqn:Eb; [|eauto].
  destruct (sc_endpoints c) eqn:Ee; [|eauto].
  destruct Hin as [[= -> ->]|Hin]; [|by apply IH].
  destruct Hbad; congruence.
Qed.

Lemma le_zero_spec w : Num.le_zero w = true <-> Spec.nonpositive w.
Proof. destruct w as [z|f]; cbn; [apply Z.leb_le | reflexivity]. Qed.

Lemma bad_weight_spec ut :
  Main.bad_weight ut = true <->
  ut_weight ut = None \/ exists w, ut_weight ut = Some w /\ Spec.nonpositive w.
Proof.
  unfold Main.bad_weight. destruct (ut_weight ut) as [w|].
  - rewrite le_zero_spec. split.
    + intros H. right. eauto.
    + intros [H|(w' & [= <-] & H)]; [discriminate | exact H].
  - split; [auto | reflexivity].
Qed.

Lemma validate_values_rejects w r uts services :
  w <= 0 \/ r <= 0 \/
  (exists ut, In ut uts /\ Main.bad_weight ut = true) \/
  (exists name sc, In (name, sc) services /\
                   (sc_base_url sc = None \/ sc_endpoints sc = None)) ->
  snd (Main.validate_values w r uts services) = false.
Proof.
  intros H. unfold Main.validate_values.
  destruct (Z.leb_spec w 0); [reflexivity|].
  destruct (Z.leb_spec r 0); [reflexivity|].
  destruct (Main.check_user_types uts) as [m|] eqn:Eu; [reflexivity|].
  destruct (Main.check_services services) as [m|] eqn:Es; [reflexivity|].
  destruct H as [H|[H|[(ut & Hin & Hbad)|(name & sc & Hin & Hbad)]]]; try lia.
  - destruct (check_user_types_rejects uts ut Hin Hbad). congruence.
  - destruct (check_services_rejects services name sc Hin Hbad). congruence.
Qed.

Lemma validate_config_rejects cfg :
  Spec.defect cfg -> snd (Main.validate_config cfg) = false.
Proof.
  intros Hd. unfold Main.validate_config.
  destruct (cfg_simulation cfg) as [sim|] eqn:E1; [|reflexivity].
  destruct (cfg_user_types cfg) as [uts|] eqn:E2; [|reflexivity].
  destruct (cfg_endpoints cfg) as [services|] eqn:E3; [|reflexivity].
  destruct (cfg_geographic_distribution cfg) eqn:E4; [|reflexivity].
  destruct (sim_workers sim) as [w|] eqn:E5; [|reflexivity].
  destruct (sim_requests_per_second sim) as [r|] eqn:E6; [|reflexivity].
  apply validate_values_rejects.
  destruct Hd as [H|H|H|H|s H H'|s H H'|s n H H' Hn|s n H H' Hn
                  |us ut H Hin Hw|us ut q H Hin Hw Hq|ss name sc H Hin Hb
                  |ss name sc H Hin Hb];
    try congruence.
  - left. congruence.
  - right; left. congruence.
  - right; right; left. exists ut. split; [congruence|].
    apply bad_weight_spec. auto.
  - right; right; left. exists ut. split; [congruence|].
    apply bad_weight_spec. eauto.
  - right; right; right. exists name, sc. split; [congruence | auto].
  - right; right; right. exists name, sc. split; [congruence | auto].
Qed.

(** The line printed for a rejected user type names that user type. *)
Lemma check_user_types_culprit uts msg :
  Main.check_user_types uts = Some msg ->
  exists ut, In ut uts /\ Main.bad_weight ut = true /\
    msg = "User type " +:+ default "unnamed" (ut_name ut)
          +:+ " must have positive weight".
Proof.
  induction uts as [|u uts IH]; cbn [Main.check_user_types]; [discriminate|].
  destruct (Main.bad_weight u) eqn:E.
  - intros [= <-]. exists u. split; [by left | by split].
  - intros H. destruct (IH H) as (ut & Hin & Hbad & Hmsg).
    exists ut. split; [by right | by split].
Qed.

(** The line printed for a rejected service names that service and the
    key it lacks. *)
Lemma check_services_culprit services msg :
  Main.check_services services = Some msg ->
  exists name sc, In (name, sc) services /\
    ((sc_base_url sc = None /\ msg = "Service " +:+ name +:+ " missing base_url") \/
     (sc_endpoints sc = None /\ msg = "Service " +:+ name +:+ " missing endpoints")).
Proof.
  induction services as [|[n c] services IH]; cbn [Main.check_services];
    [discriminate|].
  destruct (sc_base_url c) eqn:Eb;
    [|intros [= <-]; exists n, c; split; [by left | by left]].
  destruct (sc_endpoints c) eqn:Ee;
    [|intros [= <-]; exists n, c; split; [by left | by right]].
  intros H. destruct (IH H) as (name & sc & Hin & Hbad).
  exists name, sc. split; [by right | exact Hbad].
Qed.

(** Every line printed with a rejection is true of the configuration. *)
Lemma validate_config_blames cfg msg :
  Main.validate_config cfg = (msg, false) -> Spec.blames cfg msg.
Proof.
  unfold Main.validate_config, Main.missing_section, Main.missing_field.
  destruct (cfg_simulation cfg) as [sim|] eqn:E1;
    [|intros [= <-]; by apply Spec.blames_simulation].
  destruct (cfg_user_types cfg) as [uts|] eqn:E2;
    [|intros [= <-]; by apply Spec.blames_user_types].
  destruct (cfg_endpoints cfg) as [services|] eqn:E3;
    [|intros [= <-]; by apply Spec.blames_endpoints].
  destruct (cfg_geographic_distribution cfg) eqn:E4;
    [|intros [= <-]; by apply Spec.blames_geographic_distribution].
  destruct (sim_workers sim) as [w|] eqn:E5;
    [|intros [= <-]; by apply (Spec.blames_workers cfg sim)].
  destruct (sim_requests_per_second sim) as [r|] eqn:E6;
    [|intros [= <-]; by apply (Spec.blames_rate cfg sim)].
  unfold Main.validate_values.
  destruct (Z.leb_spec w 0);
    [intros [= <-]; by apply (Spec.blames_worker_count cfg sim w)|].
  destruct (Z.leb_spec r 0);
    [intros [= <-]; by apply (Spec.blames_rate_value cfg sim r)|].
  destruct (Main.check_user_types uts) as [m|] eqn:Eu.
  { intros [= <-].
    destruct (check_user_types_culprit uts m Eu) as (ut & Hin & Hbad & ->).
    apply (Spec.blames_user_type cfg uts ut); [exact E2 | exact Hin |].
    by apply bad_weight_spec. }
  destruct (Main.check_services services) as [m|] eqn:Es; [|discriminate].
  intros [= <-].
  destruct (check_services_culprit services m Es)
    as (name & sc & Hin & [[Hb ->]|[Hb ->]]).
  - by apply (Spec.blames_base_url cfg services name sc).
  - by apply (Spec.blames_service_endpoints cfg services name sc).
Qed.

(** C5, as the code has it: a configuration with a missing required
    section, a missing or non-positive worker count or rate, a user type
    whose weight is missing or not positive, or a service without base URL
    or endpoint list is rejected: [validate_config] returns [False] and
    prints one line, and what that line names is a defect the
    configuration has (the section or field it names is missing, the count
    it names is not positive, the user type it names is one of the
    configured ones and lacks a positive weight, the service it names is a
    configured one and lacks the key); [main] then exits with status 1
    before anything else is started. Endpoint weights are not part of the
    validation. *)
Theorem validation_rejects_defects cfg :
  Spec.defect cfg ->
  exists msg,
    Main.validate_config cfg = (msg, false) /\
    Spec.blames cfg msg /\
    Main.main_startup cfg = (msg, Main.SysExit 1).
Proof.
  intros Hd. pose proof (validate_config_rejects cfg Hd) as Hr.
  destruct (Main.validate_config cfg) as [msg ok] eqn:E. cbn [snd] in Hr. subst ok.
  exists msg. split; [reflexivity|]. split.
  - by apply validate_config_blames.
  - unfold Main.main_startup. rewrite E. reflexivity.
Qed.

Lemma validation_rejects_defects_witness :
  exists msg,
    Main.validate_config cfg_ghost = (msg, false) /\
    Spec.blames cfg_ghost msg /\
    Main.main_startup cfg_ghost = (msg, Main.SysExit 1).
Proof.
  apply (validation_rejects_defects cfg_ghost).
  apply (Spec.user_type_nonpositive_weight cfg_ghost [ghost; shopper] ghost (Num.Int 0)).
  - reflexivity.
  - simpl. auto.
  - reflexivity.
  - simpl. lia.
Defined.

(** C5, as stated, fails: a configuration with an endpoint of weight 0
    passes validation and [main] goes on to start the simulator. *)
Lemma endpoint_weight_not_validated :
  Spec.endpoint_nonpositive_weight cfg_free /\
  Main.validate_config cfg_free = (Main.passed, true) /\
  Main.main_startup cfg_free = (Main.passed, Main.Proceed).
Proof.
  split; [|split; reflexivity].
  exists [("shop", mkServiceConfig (Some "http://shop:8000") (Some [products; free_item]))],
    "shop", (mkServiceConfig (Some "http://shop:8000") (Some [products; free_item])),
    [products; free_item], free_item.
  repeat split; simpl; auto. lia.
Qed.

(** Validation rejects nothing but the listed defects. *)
Lemma validate_config_rejects_only_defects cfg :
  snd (Main.validate_config cfg) = false -> Spec.defect cfg.
Proof.
  unfold Main.validate_config.
  destruct (cfg_simulation cfg) as [sim|] eqn:E1;
    [|intros _; by apply Spec.missing_simulation].
  destruct (cfg_user_types cfg) as [uts|] eqn:E2;
    [|intros _; by apply Spec.missing_user_types].
  destruct (cfg_endpoints cfg) as [services|] eqn:E3;
    [|intros _; by apply Spec.missing_endpoints].
  destruct (cfg_geographic_distribution cfg) eqn:E4;
    [|intros _; by apply Spec.missing_geographic_distribution].
  destruct (sim_workers sim) as [w|] eqn:E5;
    [|intros _; by apply (Spec.missing_workers cfg sim)].
  destruct (sim_requests_per_second sim) as [r|] eqn:E6;
    [|intros _; by apply (Spec.missing_rate cfg sim)].
  unfold Main.validate_values.
  destruct (Z.leb_spec w 0);
    [intros _; by apply (Spec.nonpositive_workers cfg sim w)|].
  destruct (Z.leb_spec r 0);
    [intros _; by apply (Spec.nonpositive_rate cfg sim r)|].
  destruct (Main.check_user_types uts) as [m|] eqn:Eu.
  { intros _. destruct (check_user_types_culprit uts m Eu) as (ut & Hin & Hbad & _).
    apply bad_weight_spec in Hbad. destruct Hbad as [Hn|(q & Hq & Hle)].
    - by apply (Spec.user_type_without_weight cfg uts ut).
    - by apply (Spec.user_type_nonpositive_weight cfg uts ut q). }
  destruct (Main.check_services services) as [m|] eqn:Es; [|discriminate].
  intros _. destruct (check_services_culprit services m Es)
    as (name & sc & Hin & [[Hb _]|[Hb _]]).
  - by apply (Spec.service_without_base_url cfg services name sc).
  - by apply (Spec.service_without_endpoints cfg services name sc).
Qed.

End ValidationFacts.

(** ** The session loop when requests are answered *)

Section AnsweredLoop.

Import DataGenerators UserSession LoadSimulator Examples.

Variable world : nat -> Tick.
Variable sim : LoadSimulator.
Variable s : UserSession.UserSession.
Variables a b : Z.
Variable nm : string.

Hypothesis range_ab : ut_requests_per_session (user_type s) = (a, b).
Hypothesis range_ok : 1 <= a <= b.
Hypothesis named : ut_name (user_type s) = Some nm.
Hypothesis no_shutdown : forall i, tk_running (world i) = true.
Hypothesis selectable : forall k1 k2,
  exists ep, _select_endpoint sim nm k1 k2 = Ok ep /\ In ep (endpoints sim).
Hypothesis known_methods : forall ep,
  In ep (endpoints sim) -> In (method ep) ["GET"; "POST"; "PUT"; "DELETE"].
Hypothesis answered : forall i rq,
  exists resp, send (tk_env (world i)) rq = Ok resp /\
               (status_code resp < 400 -> is_ok (json resp) = true).

Lemma http_call_sends s0 ep env p :
  In (method ep) ["GET"; "POST"; "PUT"; "DELETE"] ->
  exists rq, http_call s0 ep env p = Some (send env rq).
Proof.
  intros Hm. unfold http_call, dispatch.
  destruct Hm as [<-|[<-|[<-|[<-|[]]]]]; cbn [String.eqb Ascii.eqb Bool.eqb andb].
  - eauto.
  - eauto.
  - destruct (build_payload _ _) as [pl|]; [destruct (truthy pl)|]; eauto.
  - eauto.
Qed.

Lemma answered_round i sim0 s0 ep :
  In ep (endpoints sim) ->
  exists st' p data,
    _make_request sim0 s0 ep (tk_env (world i))
      = (set_stats sim0 st', update_state s0 p data).
Proof.
  intros Hin.
  destruct (resolve_path_total ep (k_param (tk_env (world i)))) as [p Hp].
  destruct (http_call_sends s0 ep (tk_env (world i)) p (known_methods ep Hin))
    as [rq Hrq].
  destruct (answered i rq) as (resp & Hresp & Hjson).
  rewrite Hresp in Hrq.
  destruct (try_request_answered (stats sim0) s0 ep _ p resp Hp Hrq Hjson)
    as [data Htry].
  unfold _make_request. rewrite Htry. eauto.
Qed.

Lemma session_loop_answered fuel : forall i sim0 s0,
  endpoints sim0 = endpoints sim ->
  user_type s0 = user_type s ->
  requests_made s0 <= b ->
  b - requests_made s0 < Z.of_nat fuel ->
  exists sim' s' n,
    session_loop fuel world i sim0 s0 = Some (Ok (sim', s', n)) /\
    a <= requests_made s' <= b /\
    Z.of_nat n - Z.of_nat i = requests_made s' - requests_made s0.
Proof.
  induction fuel as [|fuel IH]; intros i sim0 s0 Hep Hut Hle Hfuel; [lia|].
  cbn [session_loop]. rewrite no_shutdown. cbn [negb].
  destruct (should_continue_spec s0 a b (k_continue (world i))) as (d & Hd & ->);
    [by rewrite Hut | lia |].
  destruct (Z.ltb_spec (requests_made s0) d) as [Hlt|Hge].
  - rewrite Hut, named. cbn [getitem bind].
    rewrite (select_endpoint_ext sim sim0) by exact Hep.
    destruct (selectable (k_choice (world i)) (k_choices (world i))) as (ep & -> & Hin).
    destruct (answered_round i sim0 s0 ep Hin) as (st' & p & data & ->).
    destruct (update_state_counter s0 p data) as [Hut' Hrm'].
    destruct (IH (S i) (set_stats sim0 st') (update_state s0 p data))
      as (sim' & s' & n & Hloop & Hbounds & Hn);
      [exact Hep | congruence | lia | lia |].
    exists sim', s', n. split; [exact Hloop|]. split; [exact Hbounds | lia].
  - exists sim0, s0, i. split; [reflexivity|]. split; lia.
Qed.

(** Apart from transport failures: when every request is answered (with a
    decodable body if the status is below 400), a fresh session of range
    [a, b] ends within [b + 1] evaluations of the loop test, having counted
    between [a] and [b] requests, one per round. *)
Lemma session_loop_ends_when_answered :
  requests_made s = 0 ->
  exists sim' s' n,
    session_loop (S (Z.to_nat b)) world 0 sim s = Some (Ok (sim', s', n)) /\
    a <= requests_made s' <= b /\
    Z.of_nat n = requests_made s'.
Proof.
  intros H0.
  destruct (session_loop_answered (S (Z.to_nat b)) 0 sim s)
    as (sim' & s' & n & Hloop & Hbounds & Hn); try reflexivity; try lia.
  exists sim', s', n. split; [exact Hloop|]. split; [exact Hbounds | lia].
Qed.

End AnsweredLoop.

Section AnsweredExample.

Import DataGenerators UserSession LoadSimulator Examples.

(** The hypotheses of the previous lemma hold of a browser session against
    a shop whose client answers every call. *)
Example session_loop_up_ends :
  exists sim' s' n,
    session_loop 4 world_up 0 (sim_of cfg_shop) (session_of browser)
      = Some (Ok (sim', s', n)) /\
    1 <= requests_made s' <= 3 /\
    Z.of_nat n = requests_made s'.
Proof.
  apply (session_loop_ends_when_answered world_up (sim_of cfg_shop)
           (session_of browser) 1 3 "browser").
  - reflexivity.
  - lia.
  - reflexivity.
  - intros i. reflexivity.
  - intros k1 k2.
    pose proof (select_endpoint_cases (sim_of cfg_shop) "browser" k1 k2) as H.
    change (List.filter (available_for "browser") (endpoints (sim_of cfg_shop)))
      with [get_products] in H.
    destruct H as (ep & Hsel & [<-|[]]).
    exists get_products. split; [exact Hsel|]. right. left. reflexivity.
  - intros ep [<-|[<-|[]]]; cbn; auto.
  - intros i rq. eexists. split; [reflexivity|]. intros _. reflexivity.
  - reflexivity.
Qed.

End AnsweredExample.

(** * Further properties of the simulator *)

(** ** Data generators *)

Section GeneratorFacts.

Import DataGenerators UserSession LoadSimulator Examples.

Lemma generate_user_id_spec (dg : DataGenerators) (sid : string)
    (k : Z) (prefs : Preferences) :
  exists uid dg',
    generate_user_id dg sid k prefs = Ok (uid, dg') /\
    (forall k' prefs', generate_user_id dg' sid k' prefs' = Ok (uid, dg')) /\
    (forall sid', sid' <> sid -> _session_data dg' !! sid' = _session_data dg !! sid') /\
    user_agents dg' = user_agents dg /\
    (_session_data dg !! sid = None ->
     exists n, 1000 <= n <= 9999 /\ uid = "user_" +:+ Str.str n).
Proof.
  unfold generate_user_id at 1.
  destruct (_session_data dg !! sid) as [sd|] eqn:E.
  - exists (sd_user_id sd), dg. split; [reflexivity|]. split; [|split; [|split]].
    + intros k' prefs'. unfold generate_user_id. rewrite E. reflexivity.
    + reflexivity.
    + reflexivity.
    + discriminate.
  - destruct (randint_range 1000 9999 k ltac:(lia)) as (n & Hn & Hr).
    rewrite Hn. cbn [bind sd_user_id].
    eexists _, _. split; [reflexivity|]. split; [|split; [|split]].
    + intros k' prefs'. unfold generate_user_id. cbn [_session_data].
      rewrite lookup_insert_eq. reflexivity.
    + intros sid' Hne. cbn [_session_data]. by rewrite lookup_insert_ne.
    + reflexivity.
    + intros _. exists n. split; [exact Hr | reflexivity].
Qed.

(** X1: the user id of a session id is drawn once and cached: the call
    never raises, a repeated lookup returns the same id and leaves the
    generator as it is whatever the new draws, the entries of other
    session ids and the user-agent list are untouched, and an id drawn for
    a session id not yet cached is [user_] followed by a number between
    1000 and 9999. *)
Theorem generate_user_id_cached (dg : DataGenerators) (sid : string)
    (k : Z) (prefs : Preferences) :
  exists uid dg',
    generate_user_id dg sid k prefs = Ok (uid, dg') /\
    (forall k' prefs', generate_user_id dg' sid k' prefs' = Ok (uid, dg')) /\
    (forall sid', sid' <> sid -> _session_data dg' !! sid' = _session_data dg !! sid') /\
    user_agents dg' = user_agents dg /\
    (_session_data dg !! sid = None ->
     exists n, 1000 <= n <= 9999 /\ uid = "user_" +:+ Str.str n).
Proof. apply generate_user_id_spec. Qed.

Lemma get_path_param_spec (g : string) (k : Z) :
  exists n,
    get_path_param g k = Ok (Str.str n) /\
    1 <= n <= (if String.eqb g "product_id" then 10
               else if String.eqb g "cart_item_id" then 50
               else if String.eqb g "order_id" then 100
               else 1).
Proof.
  unfold get_path_param, product_id, cart_item_id, order_id.
  destruct (String.eqb g "product_id").
  { destruct (randint_range 1 10 k ltac:(lia)) as (n & -> & Hn). exists n. split; [reflexivity | lia]. }
  destruct (String.eqb g "cart_item_id").
  { destruct (randint_range 1 50 k ltac:(lia)) as (n & -> & Hn). exists n. split; [reflexivity | lia]. }
  destruct (String.eqb g "order_id").
  { destruct (randint_range 1 100 k ltac:(lia)) as (n & -> & Hn). exists n. split; [reflexivity | lia]. }
  exists 1. split; [reflexivity | lia].
Qed.

(** X2: a path parameter is always produced, and it is the decimal text of
    a number in the range of its generator: 1 to 10 for [product_id], 1 to
    50 for [cart_item_id], 1 to 100 for [order_id], and 1 for any other
    generator name. *)
Theorem get_path_param_range (g : string) (k : Z) :
  exists n,
    get_path_param g k = Ok (Str.str n) /\
    1 <= n <= (if String.eqb g "product_id" then 10
               else if String.eqb g "cart_item_id" then 50
               else if String.eqb g "order_id" then 100
               else 1).
Proof. apply get_path_param_spec. Qed.

(** X3: without IP ranges for the region (none configured, or an empty
    list) the address is the fake one; with ranges, the address is asked
    of the address library for one of the configured ranges, and a failure
    of that library is the failure of the call. *)
Theorem get_ip_address_cases (pv : Providers) (ranges : option (list string))
    (k_range k_ip : Z) :
  match ranges with
  | None | Some [] => get_ip_address pv ranges k_range k_ip = Ok (fake_ipv4 pv)
  | Some l =>
      exists r, In r l /\
        get_ip_address pv ranges k_range k_ip = ip_in_network pv r k_ip
  end.
Proof.
  destruct ranges as [[|r rs]|]; [reflexivity| |reflexivity].
  unfold get_ip_address.
  destruct (choice_nth (r :: rs) k_range ltac:(discriminate)) as (x & -> & Hx).
  exists x. split; [|reflexivity]. eapply nth_error_In, Hx.
Qed.

End GeneratorFacts.

(** ** Strings *)

Section StringFacts.

Lemma append_cons c s t : String c s +:+ t = String c (s +:+ t).
Proof. reflexivity. Qed.

Lemma append_nil_r s : s +:+ "" = s.
Proof. induction s as [|c s IH]; [reflexivity|]. by rewrite append_cons, IH. Qed.

Lemma append_assoc s t u : (s +:+ t) +:+ u = s +:+ (t +:+ u).
Proof. induction s as [|c s IH]; [reflexivity|]. by rewrite !append_cons, IH. Qed.

Lemma length_append s t :
  String.length (s +:+ t) = (String.length s + String.length t)%nat.
Proof. induction s as [|c s IH]; [reflexivity|]. rewrite append_cons. cbn. by rewrite IH. Qed.

Lemma all_digits_append s t :
  Str.all_digits (s +:+ t) = Str.all_digits s && Str.all_digits t.
Proof.
  induction s as [|c s IH]; [reflexivity|].
  rewrite append_cons. cbn [Str.all_digits]. rewrite IH. by rewrite andb_assoc.
Qed.

Lemma digits_value_append s t acc :
  Str.digits_value acc (s +:+ t) = Str.digits_value (Str.digits_value acc s) t.
Proof.
  revert acc. induction s as [|c s IH]; intros acc; [reflexivity|].
  rewrite append_cons. cbn [Str.digits_value]. apply IH.
Qed.

Lemma pretty_N_char_digit (x : N) :
  (x < 10)%N ->
  Str.is_digit (pretty_N_char x) = true /\
  Z.of_nat (nat_of_ascii (pretty_N_char x)) - 48 = Z.of_N x.
Proof.
  intros Hx.
  assert (x = 0 \/ x = 1 \/ x = 2 \/ x = 3 \/ x = 4 \/ x = 5 \/ x = 6 \/ x = 7
          \/ x = 8 \/ x = 9)%N as H by lia.
  repeat (destruct H as [->|H]); try subst x; split; reflexivity.
Qed.

Lemma pretty_N_go_append (x : N) : forall s,
  pretty_N_go x s = pretty_N_go x "" +:+ s.
Proof.
  induction (N.lt_wf_0 x) as [x _ IH]; intros s.
  destruct (N.eq_dec x 0%N) as [->|Hx]; [reflexivity|].
  rewrite (pretty_N_go_step x s), (pretty_N_go_step x "") by lia.
  rewrite (IH (x `div` 10)%N) by (apply N.div_lt; lia).
  rewrite (IH (x `div` 10)%N ltac:(apply N.div_lt; lia) (String _ "")).
  by rewrite append_assoc.
Qed.

Lemma pretty_N_go_digits (x : N) :
  Str.all_digits (pretty_N_go x "") = true /\
  Str.digits_value 0 (pretty_N_go x "") = Z.of_N x.
Proof.
  induction (N.lt_wf_0 x) as [x _ IH].
  destruct (N.eq_dec x 0%N) as [->|Hx]; [split; reflexivity|].
  rewrite (pretty_N_go_step x "") by lia.
  rewrite pretty_N_go_append.
  destruct (IH (x `div` 10)%N) as [Hd Hv]; [apply N.div_lt; lia|].
  destruct (pretty_N_char_digit (x `mod` 10)%N) as [Hc Hcv];
    [apply N.mod_lt; lia|].
  split.
  - rewrite all_digits_append, Hd. cbn [Str.all_digits]. by rewrite Hc.
  - rewrite digits_value_append, Hv. cbn [Str.digits_value]. rewrite Hcv.
    rewrite (N.div_mod x 10%N) at 3 by lia. lia.
Qed.

(** [str] of a natural number is a digit string that [int] reads back. *)
Lemma str_digits (n : Z) :
  0 <= n ->
  Str.isdigit (Str.str n) = true /\ Str.digits_value 0 (Str.str n) = n.
Proof.
  intros Hn. unfold Str.str, pretty, pretty_Z.
  destruct n as [|p|p]; [split; reflexivity| |lia].
  unfold pretty, pretty_positive, pretty, pretty_N.
  destruct (decide (N.pos p = 0%N)) as [|_]; [discriminate|].
  destruct (pretty_N_go_digits (N.pos p)) as [Hd Hv].
  split; [|exact Hv].
  unfold Str.isdigit. destruct (pretty_N_go (N.pos p) "") eqn:E; [|exact Hd].
  cbn in Hv. lia.
Qed.

Lemma all_digits_slash_free s : Str.all_digits s = true -> Shape.slash_free s = true.
Proof.
  induction s as [|c s IH]; [reflexivity|].
  cbn [Str.all_digits Shape.slash_free]. intros [Hc Hs]%andb_true_iff.
  rewrite (IH Hs), andb_true_r.
  destruct (Ascii.eqb_spec c "/"%char) as [->|]; [discriminate | reflexivity].
Qed.

Lemma all_digits_brace_free s : Str.all_digits s = true -> Shape.brace_free s = true.
Proof.
  induction s as [|c s IH]; [reflexivity|].
  cbn [Str.all_digits Shape.brace_free]. intros [Hc Hs]%andb_true_iff.
  rewrite (IH Hs), andb_true_r.
  destruct (Ascii.eqb_spec c "{"%char) as [->|]; [discriminate | reflexivity].
Qed.

Lemma brace_free_append s t :
  Shape.brace_free (s +:+ t) = Shape.brace_free s && Shape.brace_free t.
Proof.
  induction s as [|c s IH]; [reflexivity|].
  rewrite append_cons. cbn [Shape.brace_free]. rewrite IH. by rewrite andb_assoc.
Qed.

Lemma contains_append_r sub p s :
  String.prefix sub s = true -> Str.contains sub (p +:+ s) = true.
Proof.
  intros H. induction p as [|c p IH].
  - change ("" +:+ s) with s.
    destruct s; cbn [Str.contains]; rewrite H; reflexivity.
  - rewrite append_cons. cbn [Str.contains]. rewrite IH. apply orb_true_r.
Qed.

Lemma last_segment_from_slash_free d : forall acc,
  Shape.slash_free d = true -> Str.last_segment_from acc d = acc +:+ d.
Proof.
  induction d as [|c d IH]; intros acc Hd.
  - by rewrite append_nil_r.
  - cbn [Shape.slash_free] in Hd. apply andb_true_iff in Hd as [Hc Hd].
    cbn [Str.last_segment_from]. apply negb_true_iff in Hc. rewrite Hc.
    rewrite IH by exact Hd. by rewrite append_assoc.
Qed.

Lemma last_segment_after_slash p d :
  Shape.slash_free d = true ->
  Str.last_segment (p +:+ String "/" d) = d.
Proof.
  intros Hd. unfold Str.last_segment. generalize EmptyString.
  induction p as [|c p IH]; intros acc.
  - change ("" +:+ String "/" d) with (String "/" d).
    cbn [Str.last_segment_from]. change (Ascii.eqb "/" "/") with true. cbn iota.
    by rewrite last_segment_from_slash_free.
  - rewrite append_cons. cbn [Str.last_segment_from].
    destruct (Ascii.eqb c "/"); apply IH.
Qed.

End StringFacts.

(** ** Session construction and state *)

Section SessionStateFacts.

Import DataGenerators UserSession LoadSimulator Examples Examples2.





Lemma get_user_agent_member (dg : DataGenerators) (k : Z) :
  user_agents dg <> [] ->
  exists ua, get_user_agent dg k = Ok ua /\ In ua (user_agents dg).
Proof.
  intros Hne. unfold get_user_agent.
  destruct (choice_nth (user_agents dg) k Hne) as (ua & -> & Hn).
  exists ua. split; [reflexivity|]. eapply nth_error_In, Hn.
Qed.

(** X5: constructing a session fails exactly when the address generation
    fails, and then with its exception. Otherwise the session carries the
    given id, user type and region and the generated address, one of the
    configured user agents, a zero counter and no product hint, and its
    user id is the one the generator has cached for the session id. *)
Theorem session_construction (pv : Providers) (sid : string) (ut : UserType)
    (rg : Region) (dg : DataGenerators) (sd : Seed) :
  user_agents dg <> [] ->
  match get_ip_address pv (rg_ip_ranges rg) (k_ip_range sd) (k_ip sd) with
  | Raise e => UserSession.init pv sid ut rg dg sd = Raise e
  | Ok ip =>
      exists s dg',
        UserSession.init pv sid ut rg dg sd = Ok (s, dg') /\
        session_id s = sid /\ user_type s = ut /\ region s = rg /\
        ip_address s = ip /\ In (user_agent s) (user_agents dg) /\
        requests_made s = 0 /\ last_product_viewed s = None /\
        session_start s = None /\
        (forall k prefs, generate_user_id dg' sid k prefs = Ok (user_id s, dg'))
  end.
Proof.
  intros Hne. unfold UserSession.init.
  destruct (generate_user_id_spec dg sid (k_user_id sd) (seed_prefs sd))
    as (uid & dg' & -> & Hcached & _ & Hua & _).
  cbn [bind fst snd].
  destruct (get_user_agent_member dg' (k_agent sd)) as (ua & -> & Hin);
    [by rewrite Hua|].
  cbn [bind].
  destruct (get_ip_address _ _ _ _) as [ip|e]; cbn [bind]; [|reflexivity].
  eexists _, _. split; [reflexivity|].
  cbn. rewrite <- Hua. repeat split; try assumption.
Qed.

Lemma session_construction_witness :
  match get_ip_address pv0 (rg_ip_ranges eu) (k_ip_range seed0) (k_ip seed0) with
  | Raise e => UserSession.init pv0 "4f9c" browser eu DataGenerators.init seed0 = Raise e
  | Ok ip =>
      exists s dg',
        UserSession.init pv0 "4f9c" browser eu DataGenerators.init seed0 = Ok (s, dg') /\
        session_id s = "4f9c" /\ user_type s = browser /\ region s = eu /\
        ip_address s = ip /\ In (user_agent s) (user_agents DataGenerators.init) /\
        requests_made s = 0 /\ last_product_viewed s = None /\
        session_start s = None /\
        (forall k prefs, generate_user_id dg' "4f9c" k prefs = Ok (user_id s, dg'))
  end.
Proof.
  apply (session_construction pv0 "4f9c" browser eu DataGenerators.init seed0).
  vm_compute. discriminate.
Defined.

Lemma prefix_append s t : String.prefix s (s +:+ t) = true.
Proof.
  induction s as [|c s IH]; [by destruct t|].
  rewrite append_cons. cbn [String.prefix].
  destruct (ascii_dec c c); [exact IH | congruence].
Qed.

Lemma update_state_frame s p data :
  get_headers (update_state s p data) = get_headers s /\
  user_type (update_state s p data) = user_type s /\
  region (update_state s p data) = region s /\
  requests_made (update_state s p data) = requests_made s + 1.
Proof.
  unfold update_state.
  destruct (Str.contains _ _); [|repeat split].
  destruct (Str.isdigit _); [|repeat split].
  destruct (Str.int _); repeat split.
Qed.

Lemma update_state_products s p d data :
  Str.isdigit d = true ->
  (String.length d <= 4300)%nat ->
  last_product_viewed (update_state s (p +:+ "/products/" +:+ d) data)
    = Some (Str.digits_value 0 d).
Proof.
  intros Hd Hlen. unfold update_state.
  rewrite (contains_append_r "/products/" p ("/products/" +:+ d))
    by apply prefix_append.
  assert (Hall : Str.all_digits d = true) by (destruct d; [discriminate | exact Hd]).
  change (p +:+ "/products/" +:+ d) with (p +:+ "/products" +:+ String "/" d).
  rewrite <- append_assoc.
  rewrite last_segment_after_slash by (by apply all_digits_slash_free).
  rewrite Hd. unfold Str.int.
  destruct (Nat.ltb_spec 4300 (String.length d)); [lia|]. reflexivity.
Qed.

(** X6: after a request whose path ends in [/products/] followed by the
    decimal text of a number [n], the session remembers [n] as the last
    product viewed (whatever precedes [/products/] in the path), and has
    counted the request. *)
Theorem update_state_remembers_product (s : UserSession.UserSession)
    (p : string) (n : Z) (data : option Json) :
  0 <= n ->
  (String.length (Str.str n) <= 4300)%nat ->
  let s' := update_state s (p +:+ "/products/" +:+ Str.str n) data in
  last_product_viewed s' = Some n /\
  requests_made s' = requests_made s + 1.
Proof.
  intros Hn Hlen. cbn zeta.
  destruct (str_digits n Hn) as [Hd Hv].
  rewrite update_state_products by assumption. rewrite Hv.
  split; [reflexivity|]. apply update_state_frame.
Qed.

Lemma update_state_remembers_product_witness :
  let s' := update_state (session_of browser)
              ("/shop/v1" +:+ "/products/" +:+ Str.str 42) None in
  last_product_viewed s' = Some 42 /\
  requests_made s' = requests_made (session_of browser) + 1.
Proof.
  apply (update_state_remembers_product (session_of browser) "/shop/v1" 42 None).
  - lia.
  - vm_compute. lia.
Defined.

End SessionStateFacts.

(** ** Paths and requests *)

Section RequestFacts.

Import DataGenerators UserSession LoadSimulator Examples Examples2.

Lemma replace_from_brace_free old' new s :
  Shape.brace_free s = true ->
  Str.replace_from (String "{" old') new 0 s = s.
Proof.
  induction s as [|c s IH]; [reflexivity|].
  cbn [Shape.brace_free]. intros [Hc Hs]%andb_true_iff.
  cbn [Str.replace_from String.prefix].
  destruct (ascii_dec "{" c) as [<-|_]; [discriminate|].
  by rewrite IH.
Qed.

Lemma replace_from_append old' new pre s :
  Shape.brace_free pre = true ->
  Str.replace_from (String "{" old') new 0 (pre +:+ s)
    = pre +:+ Str.replace_from (String "{" old') new 0 s.
Proof.
  induction pre as [|c pre IH]; [reflexivity|].
  cbn [Shape.brace_free]. intros [Hc Hs]%andb_true_iff.
  rewrite !append_cons. cbn [Str.replace_from String.prefix].
  destruct (ascii_dec "{" c) as [<-|_]; [discriminate|].
  by rewrite IH.
Qed.

Lemma replace_from_skip old new t : forall s,
  Str.replace_from old new (String.length t) (t +:+ s) = Str.replace_from old new 0 s.
Proof.
  induction t as [|c t IH]; intros s; [reflexivity|].
  rewrite append_cons. cbn [String.length Str.replace_from]. apply IH.
Qed.

Lemma replace_from_match c old' new s :
  Str.replace_from (String c old') new 0 (String c old' +:+ s)
    = new +:+ Str.replace_from (String c old') new 0 s.
Proof.
  rewrite append_cons at 1. cbn [Str.replace_from].
  rewrite <- append_cons, prefix_append.
  replace (String.length (String c old') - 1)%nat with (String.length old')
    by (cbn [String.length]; lia).
  f_equal. apply replace_from_skip.
Qed.

(** A placeholder between brace-free texts is replaced by the parameter. *)
Lemma replace_placeholder old' new pre post :
  Shape.brace_free pre = true -> Shape.brace_free post = true ->
  Str.replace (String "{" old') new (pre +:+ String "{" old' +:+ post)
    = pre +:+ new +:+ post.
Proof.
  intros Hpre Hpost. unfold Str.replace.
  rewrite replace_from_append by exact Hpre.
  rewrite replace_from_match, replace_from_brace_free by exact Hpost.
  reflexivity.
Qed.

Lemma replace_absent old' new s :
  Shape.brace_free s = true -> Str.replace (String "{" old') new s = s.
Proof. apply replace_from_brace_free. Qed.

(** Replacing [{id}] leaves an [{item_id}] placeholder alone. *)
Lemma replace_id_keeps_item_id new pre post :
  Shape.brace_free pre = true -> Shape.brace_free post = true ->
  Str.replace "{id}" new (pre +:+ "{item_id}" +:+ post)
    = pre +:+ "{item_id}" +:+ post.
Proof.
  intros Hpre Hpost. unfold Str.replace.
  rewrite replace_from_append by exact Hpre. f_equal.
  change ("{item_id}" +:+ post) with (String "{" ("item_id}" +:+ post)).
  cbn [Str.replace_from String.prefix].
  destruct (ascii_dec "{" "{"); [|congruence].
  change ("item_id}" +:+ post) with (String "i" (String "t" ("em_id}" +:+ post))).
  destruct (ascii_dec "i" "i"); [|congruence].
  destruct (ascii_dec "d" "t"); [discriminate|].
  f_equal. apply replace_from_brace_free.
  change (String "i" (String "t" ("em_id}" +:+ post))) with ("item_id}" +:+ post).
  rewrite brace_free_append. by rewrite Hpost.
Qed.

Lemma str_brace_free n : 0 <= n -> Shape.brace_free (Str.str n) = true.
Proof.
  intros Hn. destruct (str_digits n Hn) as [Hd _].
  apply all_digits_brace_free. unfold Str.isdigit in Hd.
  by destruct (Str.str n).
Qed.

(** X7: for an endpoint with a path generator whose path has one
    placeholder, [{id}] or [{item_id}], between texts without braces,
    the request path is the path with the placeholder replaced by the
    decimal text of the drawn parameter, a number between 1 and 100. *)
Theorem resolve_path_substitutes (ep : Endpoint) (k : Z)
    (pre ph post g : string) :
  ph = "{id}" \/ ph = "{item_id}" ->
  path ep = pre +:+ ph +:+ post ->
  Shape.brace_free pre = true -> Shape.brace_free post = true ->
  path_generator ep = Some g -> g <> "" ->
  exists n,
    get_path_param g k = Ok (Str.str n) /\ 1 <= n <= 100 /\
    resolve_path ep k = Ok (pre +:+ Str.str n +:+ post).
Proof.
  intros Hph Hpath Hpre Hpost Hg Hne.
  destruct (get_path_param_spec g k) as (n & Hparam & Hn).
  assert (Hn100 : 1 <= n <= 100)
    by (destruct (String.eqb g "product_id"), (String.eqb g "cart_item_id"),
          (String.eqb g "order_id"); lia).
  exists n. split; [exact Hparam|]. split; [exact Hn100|].
  unfold resolve_path. rewrite Hg. unfold truthy_str.
  apply String.eqb_neq in Hne. rewrite Hne. cbn [negb].
  change (default "" (Some g)) with g. rewrite Hparam. cbn [bind]. f_equal. rewrite Hpath.
  pose proof (str_brace_free n ltac:(lia)) as Hb.
  destruct Hph as [-> | ->].
  - rewrite (replace_placeholder "id}") by assumption.
    apply replace_absent. rewrite !brace_free_append, Hpre, Hb, Hpost. reflexivity.
  - rewrite replace_id_keeps_item_id by assumption.
    by apply (replace_placeholder "item_id}").
Qed.

Lemma resolve_path_substitutes_witness :
  exists n,
    get_path_param "product_id" 14 = Ok (Str.str n) /\ 1 <= n <= 100 /\
    resolve_path product_detail 14 = Ok ("/products/" +:+ Str.str n +:+ "/reviews").
Proof.
  apply (resolve_path_substitutes product_detail 14 "/products/" "{id}" "/reviews"
           "product_id").
  - left. reflexivity.
  - reflexivity.
  - reflexivity.
  - reflexivity.
  - reflexivity.
  - apply String.eqb_neq. reflexivity.
Defined.

Lemma http_call_issued s ep env p :
  http_call s ep env p
    = option_map (send env) (Wire.issued_request s ep (providers env) p).
Proof.
  unfold http_call, dispatch, Wire.issued_request.
  repeat (destruct (String.eqb (method ep) _); [try reflexivity|]); [|reflexivity].
  destruct (build_payload _ _) as [pl|]; [destruct (truthy pl)|]; reflexivity.
Qed.

Lemma build_payload_Some pv ep body :
  build_payload pv ep = Some body ->
  (method ep = "POST" \/ method ep = "PUT") /\
  exists g, payload_generator ep = Some g /\ g <> "" /\ body = get_payload pv g.
Proof.
  unfold build_payload, in_post_put, truthy_str.
  destruct (String.eqb_spec (method ep) "POST") as [HP|_];
    [|destruct (String.eqb_spec (method ep) "PUT") as [HU|_]]; cbn [orb andb];
    try discriminate.
  - destruct (payload_generator ep) as [g|]; [|discriminate].
    destruct (String.eqb_spec g ""); [discriminate|]. cbn [negb].
    change (default "" (Some g)) with g.
    intros [= <-]. split; [by left|]. eauto.
  - destruct (payload_generator ep) as [g|]; [|discriminate].
    destruct (String.eqb_spec g ""); [discriminate|]. cbn [negb].
    change (default "" (Some g)) with g.
    intros [= <-]. split; [by right|]. eauto.
Qed.

(** X8: the client call of a request is the sending of one request that
    carries the endpoint's verb, the base URL followed by the resolved
    path, and the session's four identity headers; it carries a JSON body
    only for POST and PUT endpoints with a payload generator, the body
    being that generator's payload, and a PUT never carries an empty
    body. *)
Theorem request_on_the_wire (s : UserSession.UserSession) (ep : Endpoint)
    (env : RequestEnv) (p : string) :
  http_call s ep env p
    = option_map (send env) (Wire.issued_request s ep (providers env) p) /\
  (forall rq, Wire.issued_request s ep (providers env) p = Some rq ->
     rq_method rq = method ep /\
     rq_url rq = base_url ep +:+ p /\
     rq_headers rq = [ ("User-Agent", user_agent s);
                       ("X-Session-ID", session_id s);
                       ("X-User-ID", user_id s);
                       ("X-Forwarded-For", ip_address s) ] /\
     (forall body, rq_json rq = Some body ->
        (method ep = "POST" \/ method ep = "PUT") /\
        (method ep = "PUT" -> truthy body = true) /\
        exists g, payload_generator ep = Some g /\ g <> "" /\
                  body = get_payload (providers env) g)).
Proof.
  split; [apply http_call_issued|].
  intros rq. unfold Wire.issued_request.
  destruct (String.eqb_spec (method ep) "GET") as [HG|HG].
  { intros [= <-]. cbn [rq_method rq_url rq_headers rq_json].
    split; [congruence|]. split; [reflexivity|]. split; [reflexivity|].
    discriminate. }
  destruct (String.eqb_spec (method ep) "POST") as [HP|HP].
  { intros [= <-]. cbn [rq_method rq_url rq_headers rq_json].
    split; [congruence|]. split; [reflexivity|]. split; [reflexivity|].
    intros body Hbody. split; [by left|]. split; [congruence|].
    by apply (build_payload_Some (providers env) ep body). }
  destruct (String.eqb_spec (method ep) "PUT") as [HU|HU].
  { destruct (build_payload (providers env) ep) as [pl|] eqn:E.
    - destruct (truthy pl) eqn:Et; intros [= <-];
        cbn [rq_method rq_url rq_headers rq_json];
        (split; [congruence|]); (split; [reflexivity|]); (split; [reflexivity|]);
        [|discriminate].
      intros body [= <-]. split; [by right|]. split; [intros _; exact Et|].
      by apply (build_payload_Some (providers env) ep pl).
    - intros [= <-]. cbn [rq_method rq_url rq_headers rq_json].
      split; [congruence|]. split; [reflexivity|]. split; [reflexivity|].
      discriminate. }
  destruct (String.eqb_spec (method ep) "DELETE") as [HD|HD]; [|discriminate].
  intros [= <-]. cbn [rq_method rq_url rq_headers rq_json].
  split; [congruence|]. split; [reflexivity|]. split; [reflexivity|].
  discriminate.
Qed.

Lemma get_payload_unknown pv g :
  existsb (String.eqb g) payload_generators = false -> get_payload pv g = JDict [].
Proof. intros H. unfold get_payload. by rewrite H. Qed.

(** X28: a payload generator name that is not one of the five known ones
    gives the empty dict, whatever the providers: a POST endpoint then
    sends the empty JSON object as its body, and a PUT endpoint sends no
    body at all. *)
Theorem unknown_payload_generator (s : UserSession.UserSession) (ep : Endpoint)
    (pv : Providers) (p g : string) :
  payload_generator ep = Some g -> g <> "" ->
  existsb (String.eqb g) payload_generators = false ->
  (method ep = "POST" ->
   Wire.issued_request s ep pv p
     = Some (mkHttpRequest "POST" (base_url ep +:+ p) (Some (JDict [])) (get_headers s))) /\
  (method ep = "PUT" ->
   Wire.issued_request s ep pv p
     = Some (mkHttpRequest "PUT" (base_url ep +:+ p) None (get_headers s))).
Proof.
  intros Hg Hne Hunknown.
  assert (Hpl : forall m, (m = "POST" \/ m = "PUT") -> method ep = m ->
                build_payload pv ep = Some (JDict [])).
  { intros m Hm Hep. unfold build_payload, in_post_put, truthy_str.
    rewrite Hg, Hep. apply String.eqb_neq in Hne. rewrite Hne.
    change (default "" (Some g)) with g. rewrite (get_payload_unknown pv g Hunknown).
    destruct Hm as [-> | ->]; reflexivity. }
  split; intros Hm; unfold Wire.issued_request.
  - rewrite (Hpl "POST" ltac:(by left) Hm), Hm. reflexivity.
  - rewrite (Hpl "PUT" ltac:(by right) Hm), Hm. reflexivity.
Qed.

Lemma unknown_payload_generator_witness :
  (method put_profile = "POST" ->
   Wire.issued_request (session_of browser) put_profile pv0 "/profile"
     = Some (mkHttpRequest "POST" (base_url put_profile +:+ "/profile")
               (Some (JDict [])) (get_headers (session_of browser)))) /\
  (method put_profile = "PUT" ->
   Wire.issued_request (session_of browser) put_profile pv0 "/profile"
     = Some (mkHttpRequest "PUT" (base_url put_profile +:+ "/profile") None
               (get_headers (session_of browser)))).
Proof.
  apply (unknown_payload_generator (session_of browser) put_profile pv0 "/profile"
           "update_profile").
  - reflexivity.
  - apply String.eqb_neq. reflexivity.
  - reflexivity.
Defined.

End RequestFacts.

(** ** Outcomes of a request *)

Section OutcomeFacts.

Import DataGenerators UserSession LoadSimulator Examples Examples2.

Lemma record_request_effect st ep m code rt err :
  let st' := Stats.record_request st ep m code rt err in
  Stats.total_requests st' = Stats.total_requests st + 1 /\
  Stats.successful_requests st'
    = Stats.successful_requests st + (if code <? 400 then 1 else 0) /\
  Stats.failed_requests st'
    = Stats.failed_requests st + (if code <? 400 then 0 else 1) /\
  Stats.status_codes st' !! code
    = Some (default 0 (Stats.status_codes st !! code) + 1) /\
  Stats.endpoints_hit st' !! Stats.endpoint_key m ep
    = Some (default 0 (Stats.endpoints_hit st !! Stats.endpoint_key m ep) + 1) /\
  Stats.response_times st' = Stats.response_times st ++ [rt] /\
  Stats.errors st'
    = (match err with
       | Some e => if String.eqb e "" then Stats.errors st else Stats.errors st ++ [e]
       | None => Stats.errors st
       end) /\
  Stats.start_time st' = Stats.start_time st.
Proof.
  cbn zeta. unfold Stats.record_request.
  cbn [Stats.total_requests Stats.successful_requests Stats.failed_requests
       Stats.status_codes Stats.endpoints_hit Stats.response_times Stats.errors
       Stats.start_time].
  rewrite !bump_lookup_eq.
  destruct (code <? 400); (repeat split; try lia);
    destruct err as [e|]; try reflexivity;
    unfold truthy_str; destruct (String.eqb e ""); reflexivity.
Qed.

(** X9: a request that is answered, with a decodable body when the status
    is below 400, is recorded under the resolved path with the status of
    the response, whether below 400 or not, and without error text; the
    session counts it. A 404 or a 503 from the server is thus a failure
    recorded as 404 or 503, not as the sentinel 500. *)
Theorem answered_request_recorded sim s ep env p resp j :
  resolve_path ep (k_param env) = Ok p ->
  http_call s ep env p = Some (Ok resp) ->
  (status_code resp < 400 -> json resp = Ok j) ->
  _make_request sim s ep env
    = (set_stats sim
         (Stats.record_request (stats sim) p (method ep) (status_code resp)
            (t_end env - t_start env)%Q None),
       update_state s p (if status_code resp <? 400 then Some j else None)) /\
  let st := stats sim in
  let r := _make_request sim s ep env in
  Stats.successful_requests (stats (fst r))
    = Stats.successful_requests st + (if status_code resp <? 400 then 1 else 0) /\
  Stats.failed_requests (stats (fst r))
    = Stats.failed_requests st + (if status_code resp <? 400 then 0 else 1) /\
  Stats.status_codes (stats (fst r)) !! status_code resp
    = Some (default 0 (Stats.status_codes st !! status_code resp) + 1) /\
  Stats.errors (stats (fst r)) = Stats.errors st /\
  requests_made (snd r) = requests_made s + 1.
Proof.
  intros Hp Hc Hj.
  assert (Hm : _make_request sim s ep env
    = (set_stats sim
         (Stats.record_request (stats sim) p (method ep) (status_code resp)
            (t_end env - t_start env)%Q None),
       update_state s p (if status_code resp <? 400 then Some j else None))).
  { unfold _make_request, try_request. rewrite Hp. cbn [bind]. rewrite Hc. cbn [bind].
    destruct (Z.ltb_spec (status_code resp) 400) as [Hlt|Hge].
    - rewrite (Hj Hlt). reflexivity.
    - reflexivity. }
  split; [exact Hm|]. cbn zeta. rewrite Hm. cbn [fst snd set_stats stats].
  destruct (record_request_effect (stats sim) p (method ep) (status_code resp)
              (t_end env - t_start env)%Q None) as (_ & Hs & Hf & Hc4 & _ & _ & He & _).
  repeat split; try assumption.
  apply update_state_frame.
Qed.

Lemma answered_request_recorded_witness :
  _make_request (sim_of cfg_shop) (session_of browser) get_products env_missing
    = (set_stats (sim_of cfg_shop)
         (Stats.record_request (stats (sim_of cfg_shop)) "/products" "GET" 404
            (11 - 10)%Q None),
       update_state (session_of browser) "/products" None) /\
  let st := stats (sim_of cfg_shop) in
  let r := _make_request (sim_of cfg_shop) (session_of browser) get_products env_missing in
  Stats.successful_requests (stats (fst r)) = Stats.successful_requests st + 0 /\
  Stats.failed_requests (stats (fst r)) = Stats.failed_requests st + 1 /\
  Stats.status_codes (stats (fst r)) !! 404
    = Some (default 0 (Stats.status_codes st !! 404) + 1) /\
  Stats.errors (stats (fst r)) = Stats.errors st /\
  requests_made (snd r) = requests_made (session_of browser) + 1.
Proof.
  apply (answered_request_recorded (sim_of cfg_shop) (session_of browser)
           get_products env_missing "/products" (mkResponse 404 (Ok JNull)) JNull).
  - reflexivity.
  - reflexivity.
  - simpl. lia.
Defined.

(** X10: a response with a status below 400 whose body does not decode is
    recorded as a failure with the sentinel status 500 and the decoding
    error as text, under the endpoint's unresolved path; the status the
    server sent is not recorded and the session does not count the
    request. *)
Theorem undecodable_body_recorded_as_failure sim s ep env p resp e :
  resolve_path ep (k_param env) = Ok p ->
  http_call s ep env p = Some (Ok resp) ->
  status_code resp < 400 ->
  json resp = Raise e ->
  _make_request sim s ep env
    = (set_stats sim
         (Stats.record_request (stats sim) (path ep) (method ep) 500
            (t_end env - t_start env)%Q (Some (exc_str e))),
       s) /\
  let st := stats sim in
  let st' := stats (fst (_make_request sim s ep env)) in
  Stats.failed_requests st' = Stats.failed_requests st + 1 /\
  Stats.successful_requests st' = Stats.successful_requests st /\
  Stats.status_codes st' !! 500 = Some (default 0 (Stats.status_codes st !! 500) + 1).
Proof.
  intros Hp Hc Hlt Hj.
  assert (Hm : _make_request sim s ep env = (set_stats sim (record_failure sim ep env e), s)).
  { apply make_request_raise. unfold try_request. rewrite Hp. cbn [bind].
    rewrite Hc. cbn [bind].
    destruct (Z.ltb_spec (status_code resp) 400); [|lia]. rewrite Hj. reflexivity. }
  split; [exact Hm|]. cbn zeta. rewrite Hm. cbn [fst set_stats stats].
  destruct (record_failure_counters sim ep env e) as (_ & Hf & Hs & Hc5 & _).
  repeat split; assumption.
Qed.

Lemma undecodable_body_recorded_as_failure_witness :
  _make_request (sim_of cfg_shop) (session_of browser) get_products env_html
    = (set_stats (sim_of cfg_shop)
         (Stats.record_request (stats (sim_of cfg_shop)) "/products" "GET" 500
            (11 - 10)%Q (Some "Expecting value: line 1 column 1 (char 0)")),
       session_of browser) /\
  let st := stats (sim_of cfg_shop) in
  let st' := stats (fst (_make_request (sim_of cfg_shop) (session_of browser)
                           get_products env_html)) in
  Stats.failed_requests st' = Stats.failed_requests st + 1 /\
  Stats.successful_requests st' = Stats.successful_requests st /\
  Stats.status_codes st' !! 500 = Some (default 0 (Stats.status_codes st !! 500) + 1).
Proof.
  apply (undecodable_body_recorded_as_failure (sim_of cfg_shop) (session_of browser)
           get_products env_html "/products" (mkResponse 200 (Raise decode_error))
           decode_error).
  - reflexivity.
  - reflexivity.
  - simpl. lia.
  - reflexivity.
Defined.

End OutcomeFacts.

(** ** Invariants of the session loop *)

Section LoopFacts.

Import DataGenerators UserSession LoadSimulator Examples Examples2.

Lemma try_request_Ok_inv st s ep env st' s' :
  try_request st s ep env = Ok (st', s') ->
  exists p code data,
    st' = Stats.record_request st p (method ep) code (t_end env - t_start env)%Q None /\
    s' = update_state s p data.
Proof.
  unfold try_request.
  destruct (resolve_path ep (k_param env)) as [p|]; cbn [bind]; [|discriminate].
  destruct (http_call s ep env p) as [[resp|]|]; cbn [bind]; try discriminate.
  destruct (status_code resp <? 400); cbn [bind].
  - destruct (json resp); cbn [bind]; [|discriminate]. intros [= <- <-]. eauto.
  - intros [= <- <-]. eauto.
Qed.

(** What one call of [_make_request] changes. *)
Lemma make_request_effect sim s ep env :
  let r := _make_request sim s ep env in
  let st := stats sim in
  let st' := stats (fst r) in
  config (fst r) = config sim /\ endpoints (fst r) = endpoints sim /\
  data_gen (fst r) = data_gen sim /\
  Stats.total_requests st' = Stats.total_requests st + 1 /\
  Stats.successful_requests st <= Stats.successful_requests st' /\
  Stats.failed_requests st <= Stats.failed_requests st' /\
  Stats.successful_requests st' + Stats.failed_requests st'
    = Stats.successful_requests st + Stats.failed_requests st + 1 /\
  (length (Stats.response_times st') = length (Stats.response_times st) + 1)%nat /\
  (length (Stats.errors st) <= length (Stats.errors st'))%nat /\
  Z.of_nat (length (Stats.errors st')) - Z.of_nat (length (Stats.errors st))
    <= Stats.failed_requests st' - Stats.failed_requests st /\
  get_headers (snd r) = get_headers s /\
  user_type (snd r) = user_type s /\
  requests_made s <= requests_made (snd r) <= requests_made s + 1 /\
  requests_made (snd r) - requests_made s
    <= Stats.total_requests st' - Stats.total_requests st.
Proof.
  cbn zeta. unfold _make_request.
  destruct (try_request (stats sim) s ep env) as [[st' s']|e] eqn:E.
  - apply try_request_Ok_inv in E as (p & code & data & -> & ->).
    cbn [fst snd set_stats config endpoints data_gen stats].
    destruct (record_request_effect (stats sim) p (method ep) code
                (t_end env - t_start env)%Q None)
      as (Ht & Hs & Hf & _ & _ & Hr & He & _).
    destruct (update_state_frame s p data) as (Hh & Hu & _ & Hrm).
    rewrite Ht, Hs, Hf, Hr, He, Hh, Hu, Hrm, length_app. cbn [length].
    destruct (code <? 400); repeat split; lia.
  - cbn [fst snd set_stats config endpoints data_gen stats].
    unfold record_failure.
    destruct (record_request_effect (stats sim) (path ep) (method ep) 500
                (t_end env - t_start env)%Q (Some (exc_str e)))
      as (Ht & Hs & Hf & _ & _ & Hr & He & _).
    rewrite Ht, Hs, Hf, Hr, He, length_app. change (500 <? 400) with false.
    cbn [length].
    destruct (String.eqb (exc_str e) ""); rewrite ?length_app; cbn [length];
      repeat split; lia.
Qed.

(** What any number of completed rounds of the session loop change. *)
Lemma session_loop_effect world fuel : forall i sim s sim' s' n,
  session_loop fuel world i sim s = Some (Ok (sim', s', n)) ->
  let st := stats sim in
  let st' := stats sim' in
  let rounds := Z.of_nat n - Z.of_nat i in
  0 <= rounds /\
  config sim' = config sim /\ endpoints sim' = endpoints sim /\
  data_gen sim' = data_gen sim /\
  Stats.total_requests st' = Stats.total_requests st + rounds /\
  Stats.successful_requests st' + Stats.failed_requests st'
    = Stats.successful_requests st + Stats.failed_requests st + rounds /\
  Z.of_nat (length (Stats.response_times st'))
    = Z.of_nat (length (Stats.response_times st)) + rounds /\
  Z.of_nat (length (Stats.errors st')) - Z.of_nat (length (Stats.errors st))
    <= Stats.failed_requests st' - Stats.failed_requests st /\
  get_headers s' = get_headers s /\
  user_type s' = user_type s /\
  requests_made s <= requests_made s' <= requests_made s + rounds.
Proof.
  induction fuel as [|fuel IH]; intros i sim s sim' s' n; [discriminate|].
  cbn [session_loop].
  destruct (tk_running (world i)); cbn [negb];
    [|intros [= <- <- <-]; cbn zeta; repeat split; lia].
  destruct (should_continue_session s (k_continue (world i))) as [[|]|];
    [| intros [= <- <- <-]; cbn zeta; repeat split; lia | discriminate].
  destruct (let* name := _ in _) as [ep|]; [|discriminate].
  pose proof (make_request_effect sim s ep (tk_env (world i))) as Hstep.
  destruct (_make_request sim s ep (tk_env (world i))) as [sim1 s1].
  cbn zeta in Hstep. cbn [fst snd] in Hstep.
  destruct Hstep as (Hc & He & Hd & Ht & Hs & Hf & Hsf & Hr & Her & Hef & Hh & Hu & Hrm & _).
  intros Hloop. specialize (IH (S i) sim1 s1 sim' s' n Hloop). cbn zeta in IH.
  destruct IH as (I0 & Ic & Ie & Id & It & Isf & Ir & Ier & Ih & Iu & Irm).
  cbn zeta. repeat split; try congruence; try lia.
Qed.

(** X11: every completed round of the session loop records exactly one
    request in the statistics, answered or not: when the loop ends after
    some rounds, the total, the sum of successes and failures and the
    number of latency samples have each grown by the number of rounds,
    and the simulator's configuration and endpoints are as before. *)
Theorem session_loop_records_every_round world fuel i sim s sim' s' n :
  session_loop fuel world i sim s = Some (Ok (sim', s', n)) ->
  let rounds := Z.of_nat n - Z.of_nat i in
  0 <= rounds /\
  Stats.total_requests (stats sim') = Stats.total_requests (stats sim) + rounds /\
  Stats.successful_requests (stats sim') + Stats.failed_requests (stats sim')
    = Stats.successful_requests (stats sim) + Stats.failed_requests (stats sim)
      + rounds /\
  Z.of_nat (length (Stats.response_times (stats sim')))
    = Z.of_nat (length (Stats.response_times (stats sim))) + rounds /\
  config sim' = config sim /\ endpoints sim' = endpoints sim.
Proof.
  intros H. apply session_loop_effect in H. cbn zeta in *.
  destruct H as (I0 & Ic & Ie & Id & It & Isf & Ir & Ier & Ih & Iu & Irm).
  repeat split; assumption.
Qed.

Lemma session_loop_records_every_round_witness :
  exists sim' s' n,
    session_loop 4 world_up 0 (sim_of cfg_shop) (session_of browser)
      = Some (Ok (sim', s', n)) /\
    let rounds := Z.of_nat n - Z.of_nat 0 in
    0 <= rounds /\
    Stats.total_requests (stats sim')
      = Stats.total_requests (stats (sim_of cfg_shop)) + rounds /\
    Stats.successful_requests (stats sim') + Stats.failed_requests (stats sim')
      = Stats.successful_requests (stats (sim_of cfg_shop))
        + Stats.failed_requests (stats (sim_of cfg_shop)) + rounds /\
    Z.of_nat (length (Stats.response_times (stats sim')))
      = Z.of_nat (length (Stats.response_times (stats (sim_of cfg_shop)))) + rounds /\
    config sim' = config (sim_of cfg_shop) /\
    endpoints sim' = endpoints (sim_of cfg_shop).
Proof.
  destruct (session_loop 4 world_up 0 (sim_of cfg_shop) (session_of browser))
    as [[[[sim' s'] n]|]|] eqn:E; [|vm_compute in E; discriminate..].
  exists sim', s', n. split; [reflexivity|].
  apply (session_loop_records_every_round world_up 4 0 (sim_of cfg_shop)
           (session_of browser) sim' s' n E).
Defined.

(** X12: through the session loop the session keeps its identity: the
    headers it sends and its user type are the same at the end as at the
    start, and its counter has grown by at most one per round. *)
Theorem session_loop_keeps_identity world fuel i sim s sim' s' n :
  session_loop fuel world i sim s = Some (Ok (sim', s', n)) ->
  get_headers s' = get_headers s /\
  user_type s' = user_type s /\
  requests_made s <= requests_made s' <= requests_made s + (Z.of_nat n - Z.of_nat i).
Proof.
  intros H. apply session_loop_effect in H. cbn zeta in *.
  destruct H as (I0 & Ic & Ie & Id & It & Isf & Ir & Ier & Ih & Iu & Irm).
  repeat split; try assumption; lia.
Qed.

Lemma session_loop_keeps_identity_witness :
  exists sim' s' n,
    session_loop 4 world_up 0 (sim_of cfg_shop) (session_of browser)
      = Some (Ok (sim', s', n)) /\
    get_headers s' = get_headers (session_of browser) /\
    user_type s' = user_type (session_of browser) /\
    requests_made (session_of browser) <= requests_made s'
      <= requests_made (session_of browser) + (Z.of_nat n - Z.of_nat 0).
Proof.
  destruct (session_loop 4 world_up 0 (sim_of cfg_shop) (session_of browser))
    as [[[[sim' s'] n]|]|] eqn:E; [|vm_compute in E; discriminate..].
  exists sim', s', n. split; [reflexivity|].
  apply (session_loop_keeps_identity world_up 4 0 (sim_of cfg_shop)
           (session_of browser) sim' s' n E).
Defined.

(** X13: the error texts never outnumber the failures: if the statistics
    hold no more error texts than failed requests before the session loop,
    they hold no more after it. *)
Theorem session_loop_errors_within_failures world fuel i sim s sim' s' n :
  session_loop fuel world i sim s = Some (Ok (sim', s', n)) ->
  Z.of_nat (length (Stats.errors (stats sim))) <= Stats.failed_requests (stats sim) ->
  Z.of_nat (length (Stats.errors (stats sim'))) <= Stats.failed_requests (stats sim').
Proof.
  intros H Hle. apply session_loop_effect in H. cbn zeta in *.
  destruct H as (I0 & Ic & Ie & Id & It & Isf & Ir & Ier & Ih & Iu & Irm). lia.
Qed.

Lemma session_loop_errors_within_failures_witness :
  exists sim' s' n,
    session_loop 4 world_up 0 (sim_of cfg_shop) (session_of browser)
      = Some (Ok (sim', s', n)) /\
    Z.of_nat (length (Stats.errors (stats sim'))) <= Stats.failed_requests (stats sim').
Proof.
  destruct (session_loop 4 world_up 0 (sim_of cfg_shop) (session_of browser))
    as [[[[sim' s'] n]|]|] eqn:E; [|vm_compute in E; discriminate..].
  exists sim', s', n. split; [reflexivity|].
  apply (session_loop_errors_within_failures world_up 4 0 (sim_of cfg_shop)
           (session_of browser) sim' s' n E).
  vm_compute. discriminate.
Defined.

(** The counter stays within the upper end of the range, and a loop that
    ends without a shutdown signal has reached the lower end. *)
Lemma session_loop_budget world a b fuel : forall i sim s sim' s' n,
  ut_requests_per_session (user_type s) = (a, b) ->
  a <= b ->
  requests_made s <= b ->
  session_loop fuel world i sim s = Some (Ok (sim', s', n)) ->
  requests_made s' <= b /\
  ((forall j, tk_running (world j) = true) -> a <= requests_made s').
Proof.
  induction fuel as [|fuel IH]; intros i sim s sim' s' n Hr Hab Hle; [discriminate|].
  cbn [session_loop].
  destruct (tk_running (world i)) eqn:Erun; cbn [negb].
  2:{ intros [= <- <- <-]. split; [exact Hle|]. intros Hall.
      rewrite Hall in Erun. discriminate. }
  destruct (should_continue_spec s a b (k_continue (world i)) Hr Hab) as (d & Hd & ->).
  destruct (Z.ltb_spec (requests_made s) d) as [Hlt|Hge].
  2:{ intros [= <- <- <-]. split; [exact Hle|]. intros _. lia. }
  destruct (let* name := _ in _) as [ep|]; [|discriminate].
  pose proof (make_request_effect sim s ep (tk_env (world i))) as Hstep.
  destruct (_make_request sim s ep (tk_env (world i))) as [sim1 s1].
  cbn zeta in Hstep. cbn [fst snd] in Hstep.
  destruct Hstep as (_ & _ & _ & _ & _ & _ & _ & _ & _ & _ & _ & Hu & Hrm & _).
  apply IH; [congruence | exact Hab | lia].
Qed.

(** X14: whatever the draws and whatever the client does, a session whose
    counter is within the upper end [b] of its range leaves the session
    loop with a counter of at most [b]; and when no shutdown signal was
    seen, the counter has reached the lower end [a]. *)
Theorem session_loop_respects_budget world a b fuel i sim s sim' s' n :
  ut_requests_per_session (user_type s) = (a, b) ->
  a <= b ->
  requests_made s <= b ->
  session_loop fuel world i sim s = Some (Ok (sim', s', n)) ->
  requests_made s' <= b /\
  ((forall j, tk_running (world j) = true) -> a <= requests_made s').
Proof. apply session_loop_budget. Qed.

Lemma session_loop_respects_budget_witness :
  exists sim' s' n,
    session_loop 9 world_flaky 0 (sim_of cfg_shop) (session_of browser)
      = Some (Ok (sim', s', n)) /\
    requests_made s' <= 3 /\
    ((forall j, tk_running (world_flaky j) = true) -> 1 <= requests_made s').
Proof.
  destruct (session_loop 9 world_flaky 0 (sim_of cfg_shop) (session_of browser))
    as [[[[sim' s'] n]|]|] eqn:E; [|vm_compute in E; discriminate..].
  exists sim', s', n. split; [reflexivity|].
  apply (session_loop_respects_budget world_flaky 1 3 9 0 (sim_of cfg_shop)
           (session_of browser) sim' s' n); [reflexivity | lia | vm_compute; discriminate | exact E].
Defined.

End LoopFacts.

(** ** Building the simulator from a configuration *)

Section BuildFacts.

Import DataGenerators UserSession LoadSimulator Examples Examples2.

Lemma endpoints_of_config_In name base ec ep :
  In ep (endpoints_of_config name base ec) <->
  In (method ep) (ec_methods ec) /\
  ep = mkEndpoint name base (ec_path ec) (method ep) (ec_weight ec)
         (default [] (ec_user_types ec)) (ec_payload_generator ec)
         (ec_path_generator ec).
Proof.
  unfold endpoints_of_config. rewrite in_map_iff. split.
  - intros (m & <- & Hm). cbn [method]. split; [exact Hm | reflexivity].
  - intros [Hm ->]. cbn [method] in *. eauto.
Qed.

Lemma build_services_In services : forall eps,
  build_services services = Ok eps ->
  forall ep, In ep eps <->
    exists name sc base ecs ec,
      In (name, sc) services /\ sc_base_url sc = Some base /\
      sc_endpoints sc = Some ecs /\ In ec ecs /\
      In ep (endpoints_of_config name base ec).
Proof.
  induction services as [|[name sc] services IH]; intros eps; cbn [build_services].
  - intros [= <-] ep. split; [intros []|]. intros (? & ? & ? & ? & ? & [] & _).
  - destruct (sc_base_url sc) as [base|] eqn:Eb; cbn [getitem bind]; [|discriminate].
    destruct (sc_endpoints sc) as [ecs|] eqn:Ee; cbn [getitem bind]; [|discriminate].
    destruct (build_services services) as [tl|]; cbn [bind]; [|discriminate].
    intros [= <-] ep. rewrite in_app_iff, (IH tl eq_refl ep), in_concat. split.
    + intros [(l & Hl & Hep)|(n & c & b & es & ec & Hin & H)].
      * apply in_map_iff in Hl as (ec & <- & Hec).
        exists name, sc, base, ecs, ec. repeat split; try assumption. by left.
      * exists n, c, b, es, ec. destruct H as (? & ? & ? & ?).
        repeat split; try assumption. by right.
    + intros (n & c & b & es & ec & [[= <- <-]|Hin] & Hb & He & Hec & Hep).
      * left. exists (endpoints_of_config name base ec).
        assert (b = base) by congruence. assert (es = ecs) by congruence. subst.
        split; [|exact Hep]. apply in_map_iff. eauto.
      * right. exists n, c, b, es, ec. repeat split; assumption.
Qed.

Lemma endpoints_of_config_layout name base ec :
  endpoints_of_config name base ec
  = map (Layout.endpoint_of name base ec) (ec_methods ec).
Proof. reflexivity. Qed.

Lemma concat_endpoints_layout name base ecs :
  concat (map (endpoints_of_config name base) ecs)
  = flat_map (fun ec => map (Layout.endpoint_of name base ec) (ec_methods ec)) ecs.
Proof.
  induction ecs as [|ec ecs IHe]; [reflexivity|].
  cbn [map concat flat_map]. by rewrite IHe.
Qed.

Lemma concat_endpoints_length name base ecs :
  length (concat (map (endpoints_of_config name base) ecs))
  = list_sum (map (fun ec => length (ec_methods ec)) ecs).
Proof.
  induction ecs as [|ec ecs IHe]; [reflexivity|].
  cbn [map concat list_sum]. rewrite length_app, IHe.
  unfold endpoints_of_config. by rewrite length_map.
Qed.

Lemma build_services_layout services : forall eps,
  build_services services = Ok eps ->
  eps = Layout.expected services /\
  length eps = Layout.method_count services.
Proof.
  induction services as [|[name sc] services IH]; intros eps; cbn [build_services].
  - intros [= <-]. split; reflexivity.
  - destruct (sc_base_url sc) as [base|] eqn:Eb; cbn [getitem bind]; [|discriminate].
    destruct (sc_endpoints sc) as [ecs|] eqn:Ee; cbn [getitem bind]; [|discriminate].
    destruct (build_services services) as [tl|]; cbn [bind]; [|discriminate].
    intros [= <-]. destruct (IH tl eq_refl) as [Htl Hlen].
    unfold Layout.expected, Layout.method_count.
    cbn [flat_map map list_sum fst snd]. rewrite Eb, Ee.
    change (default "" (Some base)) with base.
    change (default [] (Some ecs)) with ecs.
    split.
    + f_equal; [apply concat_endpoints_layout | exact Htl].
    + rewrite length_app, Hlen, concat_endpoints_length. reflexivity.
Qed.

(** X15: the endpoints built from a configuration are exactly one per
    service, endpoint entry and method of that entry, in the order of the
    configuration and as many as the entries list methods (an entry or a
    method listed twice gives its endpoint twice, nothing else does), each
    carrying its service's name and base URL and its entry's path, weight
    and generators, with an empty user-type list when the entry has
    none. *)
Theorem build_endpoints_members (cfg : Config) (eps : list Endpoint) :
  _build_endpoints cfg = Ok eps ->
  (exists services,
     cfg_endpoints cfg = Some services /\
     eps = Layout.expected services /\
     length eps = Layout.method_count services) /\
  forall ep, In ep eps <->
    exists services name sc base ecs ec,
      cfg_endpoints cfg = Some services /\
      In (name, sc) services /\ sc_base_url sc = Some base /\
      sc_endpoints sc = Some ecs /\ In ec ecs /\
      In (method ep) (ec_methods ec) /\
      ep = mkEndpoint name base (ec_path ec) (method ep) (ec_weight ec)
             (default [] (ec_user_types ec)) (ec_payload_generator ec)
             (ec_path_generator ec).
Proof.
  unfold _build_endpoints.
  destruct (cfg_endpoints cfg) as [services|]; cbn [getitem bind]; [|discriminate].
  intros H. split.
  { exists services. split; [reflexivity|]. by apply build_services_layout. }
  intros ep. rewrite (build_services_In services eps H ep). split.
  - intros (n & c & b & es & ec & Hin & Hb & He & Hec & Hep).
    apply endpoints_of_config_In in Hep as [Hm Heq].
    exists services, n, c, b, es, ec. repeat split; assumption.
  - intros (ss & n & c & b & es & ec & [= <-] & Hin & Hb & He & Hec & Hm & Heq).
    exists n, c, b, es, ec. repeat split; try assumption.
    apply endpoints_of_config_In. split; assumption.
Qed.

Lemma build_endpoints_members_witness :
  (exists services,
     cfg_endpoints cfg_shop = Some services /\
     [get_health; get_products] = Layout.expected services /\
     length [get_health; get_products] = Layout.method_count services) /\
  forall ep, In ep [get_health; get_products] <->
    exists services name sc base ecs ec,
      cfg_endpoints cfg_shop = Some services /\
      In (name, sc) services /\ sc_base_url sc = Some base /\
      sc_endpoints sc = Some ecs /\ In ec ecs /\
      In (method ep) (ec_methods ec) /\
      ep = mkEndpoint name base (ec_path ec) (method ep) (ec_weight ec)
             (default [] (ec_user_types ec)) (ec_payload_generator ec)
             (ec_path_generator ec).
Proof.
  apply (build_endpoints_members cfg_shop [get_health; get_products]).
  reflexivity.
Defined.


Lemma validate_config_true_inv cfg :
  snd (Main.validate_config cfg) = true ->
  exists sim_config uts services rgs w r,
    cfg_simulation cfg = Some sim_config /\ cfg_user_types cfg = Some uts /\
    cfg_endpoints cfg = Some services /\
    cfg_geographic_distribution cfg = Some rgs /\
    sim_workers sim_config = Some w /\ sim_requests_per_second sim_config = Some r /\
    0 < w /\ 0 < r /\
    Main.check_user_types uts = None /\ Main.check_services services = None /\
    Main.validate_config cfg = (Main.passed, true).
Proof.
  unfold Main.validate_config.
  destruct (cfg_simulation cfg) as [sim_config|]; [|discriminate].
  destruct (cfg_user_types cfg) as [uts|]; [|discriminate].
  destruct (cfg_endpoints cfg) as [services|]; [|discriminate].
  destruct (cfg_geographic_distribution cfg) as [rgs|]; [|discriminate].
  destruct (sim_workers sim_config) as [w|] eqn:Ew; [|discriminate].
  destruct (sim_requests_per_second sim_config) as [r|] eqn:Er; [|discriminate].
  unfold Main.validate_values.
  destruct (Z.leb_spec w 0); [discriminate|].
  destruct (Z.leb_spec r 0); [discriminate|].
  destruct (Main.check_user_types uts) eqn:Eu; [discriminate|].
  destruct (Main.check_services services) eqn:Es; [discriminate|].
  intros _. exists sim_config, uts, services, rgs, w, r.
  repeat (split; [first [reflexivity | assumption]|]). reflexivity.
Qed.

(** X16: validation accepts a configuration, printing the success line,
    exactly when the configuration has none of the defects it looks for:
    a missing section, a missing or non-positive worker count or rate, a
    user type with a missing or non-positive weight, a service without
    base URL or endpoint list. *)
Theorem validation_accepts_iff (cfg : Config) :
  Main.validate_config cfg = (Main.passed, true) <-> ~ Spec.defect cfg.
Proof.
  split.
  - intros H Hd. apply validate_config_rejects in Hd. rewrite H in Hd. discriminate.
  - intros Hn. destruct (snd (Main.validate_config cfg)) eqn:E.
    + by destruct (validate_config_true_inv cfg E)
        as (? & ? & ? & ? & ? & ? & _ & _ & _ & _ & _ & _ & _ & _ & _ & _ & H).
    + destruct Hn. by apply validate_config_rejects_only_defects.
Qed.



(** A configuration that validation accepts and the constructor rejects:
    the level name [verbose] is no attribute of [logging]. *)
Example verbose_level_rejected_late :
  Main.validate_config cfg_verbose = (Main.passed, true) /\
  LoadSimulator.init logging_levels cfg_verbose 0%Q
  = Raise (AttributeError "module 'logging' has no attribute 'verbose'").
Proof. split; reflexivity. Qed.

End BuildFacts.

(** ** The weighted draw *)

Section WeightedDrawFacts.

Import DataGenerators UserSession LoadSimulator Examples Examples2 Num.

(** The bisection ends between an element the point is not below and an
    element the point is below, whatever the order of the list. *)
Lemma bisect_loop_brackets (a : list number) (x : float) (lo0 hi0 : nat)
    (fuel : nat) :
  forall lo hi,
  (lo <= hi)%nat -> (hi - lo <= fuel)%nat ->
  (lo = lo0 \/ float_lt x (nth (lo - 1) a (Int 0)) = false) ->
  (hi = hi0 \/ float_lt x (nth hi a (Int 0)) = true) ->
  let r := Random.bisect_loop fuel a x lo hi in
  (r = lo0 \/ float_lt x (nth (r - 1) a (Int 0)) = false) /\
  (r = hi0 \/ float_lt x (nth r a (Int 0)) = true).
Proof.
  induction fuel as [|fuel IH]; intros lo hi Hle Hfuel Hlo Hhi; cbn zeta.
  - cbn [Random.bisect_loop]. assert (lo = hi) by lia. subst. split; assumption.
  - cbn [Random.bisect_loop].
    destruct (Nat.ltb_spec lo hi) as [Hlt|Hge].
    2:{ assert (lo = hi) by lia. subst. split; assumption. }
    assert (Hmid : (lo <= (lo + hi) / 2 < hi)%nat).
    { split.
      - apply Nat.div_le_lower_bound; lia.
      - apply Nat.Div0.div_lt_upper_bound; lia. }
    destruct (float_lt x (nth ((lo + hi) / 2) a (Int 0))) eqn:E.
    + apply IH; [lia | lia | exact Hlo | by right].
    + apply IH; [lia | lia | | exact Hhi].
      right. replace (S ((lo + hi) / 2) - 1)%nat with ((lo + hi) / 2)%nat by lia.
      exact E.
Qed.

(** What [choices] returns sits at a position that brackets the draw
    point. *)
Lemma choices_designated {A} (population : list A) (weights : list number)
    (k : Z) (x : A) :
  Random.choices population weights k = Ok x ->
  Draw.designated population weights k x.
Proof.
  unfold Random.choices, Draw.designated.
  destruct (Random.accumulate weights) as [cum|] eqn:Ea; cbn [bind]; [|discriminate].
  destruct (negb _); [discriminate|].
  destruct (Random.cum_total cum) as [total|] eqn:Et; cbn [bind]; [|discriminate].
  destruct (_ <=? _)%float; [discriminate|].
  destruct (negb _); [discriminate|].
  set (pt := (Random.random_float k * total)%float).
  unfold Random.bisect.
  destruct (nth_error population _) as [y|] eqn:E; [|discriminate].
  intros [= <-].
  exists cum, total,
    (Random.bisect_loop (length population - 1 - 0) cum pt 0 (length population - 1)).
  split; [reflexivity|]. split; [exact Et|]. split; [exact E|].
  apply (bisect_loop_brackets cum pt 0 (length population - 1)
           (length population - 1 - 0) 0 (length population - 1));
    [lia | lia | by left | by left].
Qed.

(** X18: when some endpoint is eligible for the user type, an endpoint
    returned by the selection is an eligible endpoint of the simulator,
    and it sits at a position of the eligible list that brackets the point
    [random() * total] of the draw among the running sums of the eligible
    weights: the point is not below the running sum before that position
    and, unless the position is the last, it is below the running sum at
    that position. Sums, total and point are the numbers the draw
    computes. *)
Theorem select_endpoint_bracket sim ut k1 k2 ep :
  let av := List.filter (available_for ut) (endpoints sim) in
  av <> [] ->
  _select_endpoint sim ut k1 k2 = Ok ep ->
  Draw.designated av (map weight av) k2 ep /\
  In ut (user_types ep) /\ In ep (endpoints sim).
Proof.
  cbn zeta. intros Hne. unfold _select_endpoint.
  destruct (List.filter (available_for ut) (endpoints sim)) as [|e0 av] eqn:E;
    [congruence|].
  intros H. pose proof (choices_In _ _ _ _ H) as Hin.
  apply choices_designated in H. split; [exact H|].
  rewrite <- E in Hin. apply filter_In in Hin as [Hin Hav].
  split; [by apply available_for_In | exact Hin].
Qed.

Lemma select_endpoint_bracket_witness :
  let av := List.filter (available_for "browser") (endpoints (sim_of cfg_free)) in
  Draw.designated av (map weight av) 7 get_products /\
  In "browser" (user_types get_products) /\
  In get_products (endpoints (sim_of cfg_free)).
Proof.
  apply (select_endpoint_bracket (sim_of cfg_free) "browser" 0 7 get_products).
  - vm_compute. discriminate.
  - vm_compute. reflexivity.
Defined.

(** X19: the weighted draws are made in float arithmetic, and it shows.
    On every draw the region selection raises [ValueError] for a total that
    is not finite (two weights that overflow together, a weight [.inf], a
    weight [.nan]), raises [ValueError] for weights 1e16, 1.0 and -1e16,
    whose running sum comes to 0.0, and raises [OverflowError] for an int
    weight beyond the floats. With weights 4.0 and 3.0 the draw
    [5146971002709138 / 2^53] gives the second region, the product with
    the total being rounded up to 4.0; with weights 5e-324 and 0.0 the
    largest draw gives the region of weight zero. A user type of weight
    [.inf] passes validation, and its selection raises on every draw. *)
Theorem weighted_draw_float_effects (k : Z) :
  let select := fun rgs => _select_region (sim_of (cfg_of_regions rgs)) in
  let not_finite := ValueError "Total of weights must be finite" in
  select [region_of "a" (Float 0x1p1023); region_of "b" (Float 0x1p1023)] k
    = Raise not_finite /\
  select [region_of "a" (Float infinity); region_of "b" (Int 1)] k
    = Raise not_finite /\
  select [region_of "a" (Float nan)] k = Raise not_finite /\
  select [region_of "a" (Float 1e16); region_of "b" (Float 1);
          region_of "c" (Float (-1e16))] k
    = Raise (ValueError "Total of weights must be greater than zero") /\
  select [region_of "a" (Int (10 ^ 400))] k
    = Raise (OverflowError "int too large to convert to float") /\
  select [region_of "a" (Float 4); region_of "b" (Float 3)] 5146971002709138
    = Ok (region_of "b" (Float 3)) /\
  select [region_of "a" (Float 0x1p-1074); region_of "b" (Float 0)] (2 ^ 53 - 1)
    = Ok (region_of "b" (Float 0)) /\
  Main.validate_config cfg_boundless = (Main.passed, true) /\
  _select_user_type (sim_of cfg_boundless) k = Raise not_finite.
Proof.
  cbn zeta. repeat split; vm_compute; reflexivity.
Qed.

Lemma user_type_weights_map uts : forall ws,
  user_type_weights uts = Ok ws -> map ut_weight uts = map Some ws.
Proof.
  induction uts as [|u uts IH]; intros ws; cbn [user_type_weights].
  - by intros [= <-].
  - destruct (ut_weight u) as [wu|] eqn:Eu; cbn [getitem bind]; [|discriminate].
    destruct (user_type_weights uts) as [ws'|]; cbn [bind]; [|discriminate].
    intros [= <-]. cbn [map]. rewrite Eu. f_equal. by apply IH.
Qed.

(** X20: a user type returned by the selection is one of the configured
    user types, each of which then has a weight, and it sits at a position
    that brackets the draw point among the running sums of those weights;
    a region returned by the selection is one of the configured regions
    and sits at a position that brackets the draw point among the running
    sums of the region weights. *)
Theorem select_profile_bracket sim uts rgs k :
  cfg_user_types (config sim) = Some uts ->
  cfg_geographic_distribution (config sim) = Some rgs ->
  (forall ut, _select_user_type sim k = Ok ut ->
     In ut uts /\
     exists ws, user_type_weights uts = Ok ws /\
                map ut_weight uts = map Some ws /\
                Draw.designated uts ws k ut) /\
  (forall rg, _select_region sim k = Ok rg ->
     In rg rgs /\ Draw.designated rgs (map rg_weight rgs) k rg).
Proof.
  intros Hu Hr. split.
  - intros ut. unfold _select_user_type. rewrite Hu. cbn [getitem bind].
    destruct (user_type_weights uts) as [ws|] eqn:Ews; cbn [bind]; [|discriminate].
    intros H. split; [by apply choices_In in H|].
    exists ws. split; [reflexivity|].
    split; [by apply user_type_weights_map | by apply choices_designated].
  - intros rg. unfold _select_region. rewrite Hr. cbn [getitem bind].
    intros H. split; [by apply choices_In in H | by apply choices_designated].
Qed.

Lemma select_profile_bracket_witness :
  (forall ut, _select_user_type (sim_of cfg_regions) 5 = Ok ut ->
     In ut [browser; shopper] /\
     exists ws, user_type_weights [browser; shopper] = Ok ws /\
                map ut_weight [browser; shopper] = map Some ws /\
                Draw.designated [browser; shopper] ws 5 ut) /\
  (forall rg, _select_region (sim_of cfg_regions) 5 = Ok rg ->
     In rg [eu; mkRegion "void" (Int 0) None; us] /\
     Draw.designated [eu; mkRegion "void" (Int 0) None; us]
       (map rg_weight [eu; mkRegion "void" (Int 0) None; us]) 5 rg).
Proof.
  apply (select_profile_bracket (sim_of cfg_regions)
           [browser; shopper] [eu; mkRegion "void" (Int 0) None; us] 5); reflexivity.
Defined.

Lemma accumulate_from_ints zs : forall acc,
  Random.accumulate_from (Int acc) (map Int zs)
  = Ok (map Int (Draw.running_sums acc zs)).
Proof.
  induction zs as [|z zs IH]; intros acc; [reflexivity|].
  cbn [map Random.accumulate_from Draw.running_sums Num.add bind].
  by rewrite IH.
Qed.

Lemma running_sums_last zs : forall acc,
  last (map Int (acc :: Draw.running_sums acc zs))
  = Some (Int (fold_left Z.add zs acc)).
Proof.
  induction zs as [|z zs IH]; intros acc; [reflexivity|].
  cbn [Draw.running_sums fold_left map]. rewrite last_cons_cons. apply IH.
Qed.

(** X29: with int weights the running sums of a weighted draw are the
    exact sums of the weights, and the total the draw tests is the float
    nearest to the exact sum of all weights (an [OverflowError] when that
    sum is beyond the floats): no rounding takes place before the total is
    taken. *)
Theorem int_weights_summed_exactly (z : Z) (zs : list Z) :
  Random.accumulate (map Int (z :: zs))
  = Ok (map Int (z :: Draw.running_sums z zs)) /\
  Spec.total_weight (map Int (z :: zs))
  = (let* f := to_float (Int (fold_left Z.add zs z)) in Ok (f + 0)%float).
Proof.
  assert (Ha : Random.accumulate (map Int (z :: zs))
               = Ok (map Int (z :: Draw.running_sums z zs))).
  { cbn [map Random.accumulate]. by rewrite accumulate_from_ints. }
  split; [exact Ha|].
  unfold Spec.total_weight. rewrite Ha. cbn [bind]. unfold Random.cum_total.
  rewrite running_sums_last. reflexivity.
Qed.

End WeightedDrawFacts.

(** ** The statistics snapshot *)

Section SnapshotFacts.

Import Stats Snapshot.

Lemma insert_desc_perm x l : Permutation (insert_desc x l) (x :: l).
Proof.
  induction l as [|y l IH]; cbn [insert_desc]; [reflexivity|].
  destruct (snd x <? snd y); [|reflexivity].
  rewrite IH. apply perm_swap.
Qed.

Lemma sorted_desc_perm items : Permutation (sorted_desc items) items.
Proof.
  induction items as [|x items IH]; [reflexivity|].
  cbn [sorted_desc fold_right]. fold (sorted_desc items).
  rewrite insert_desc_perm. by constructor.
Qed.

Lemma insert_desc_sorted x l :
  StronglySorted by_count_desc l -> StronglySorted by_count_desc (insert_desc x l).
Proof.
  induction l as [|y l IH]; intros Hs; cbn [insert_desc].
  - repeat constructor.
  - apply StronglySorted_inv in Hs as [Hl Hy].
    destruct (Z.ltb_spec (snd x) (snd y)) as [Hlt|Hge].
    + constructor; [by apply IH|].
      rewrite (insert_desc_perm x l). constructor; [unfold by_count_desc; lia | exact Hy].
    + constructor; [by constructor|].
      constructor; [exact Hge|].
      eapply Forall_impl; [exact Hy|]. unfold by_count_desc. intros a Ha. lia.
Qed.

Lemma sorted_desc_sorted items : StronglySorted by_count_desc (sorted_desc items).
Proof.
  induction items as [|x items IH]; [constructor|].
  cbn [sorted_desc fold_right]. by apply insert_desc_sorted.
Qed.

Lemma insert_desc_stable c x l :
  List.filter (fun e => snd e =? c) (insert_desc x l)
    = List.filter (fun e => snd e =? c) (x :: l).
Proof.
  induction l as [|y l IH]; cbn [insert_desc]; [reflexivity|].
  destruct (Z.ltb_spec (snd x) (snd y)) as [Hlt|Hge]; [|reflexivity].
  cbn [List.filter] in *. rewrite IH.
  destruct (Z.eqb_spec (snd y) c), (Z.eqb_spec (snd x) c); try reflexivity. lia.
Qed.

Lemma sorted_desc_stable c items :
  List.filter (fun e => snd e =? c) (sorted_desc items)
    = List.filter (fun e => snd e =? c) items.
Proof.
  induction items as [|x items IH]; [reflexivity|].
  cbn [sorted_desc fold_right]. fold (sorted_desc items).
  rewrite insert_desc_stable. cbn [List.filter]. by rewrite IH.
Qed.

(** X21: the snapshot's top endpoints are at most ten entries of the
    endpoint histogram, by decreasing count; together with the entries
    left out they are the whole histogram, no entry left out has more hits
    than one kept, and among entries with the same count the ones recorded
    first come first. When the listing is that of the histogram, each
    entry kept is a key with its current count. *)
Theorem top_endpoints_are_the_most_hit (st : SimulationStats) (now : Q)
    (items : list (string * Z)) :
  let top := top_endpoints (get_stats st now items) in
  let rest := skipn 10 (sorted_desc items) in
  length top = Nat.min 10 (length items) /\
  Permutation (top ++ rest) items /\
  StronglySorted by_count_desc top /\
  (forall e e', In e top -> In e' rest -> snd e' <= snd e) /\
  (forall c, List.filter (fun e => snd e =? c) (top ++ rest)
             = List.filter (fun e => snd e =? c) items) /\
  (Permutation items (map_to_list (endpoints_hit st)) ->
   forall key n, In (key, n) top -> endpoints_hit st !! key = Some n).
Proof.
  cbn zeta. cbn [get_stats top_endpoints].
  pose proof (sorted_desc_sorted items) as Hs.
  pose proof (sorted_desc_perm items) as Hp.
  rewrite <- (firstn_skipn 10 (sorted_desc items)) in Hs.
  apply StronglySorted_app in Hs as (Hcross & Htop & _).
  split; [|split; [|split; [|split; [|split]]]].
  - rewrite length_firstn. by rewrite (Permutation_length Hp).
  - by rewrite firstn_skipn.
  - exact Htop.
  - intros e e' He He'. apply (Hcross e e'); by apply list_elem_of_In.
  - intros c. rewrite firstn_skipn. apply sorted_desc_stable.
  - intros Hitems key n Hin.
    apply elem_of_map_to_list. rewrite <- Hitems, <- Hp.
    apply list_elem_of_In. rewrite <- (firstn_skipn 10 (sorted_desc items)).
    apply in_app_iff. by left.
Qed.

End SnapshotFacts.

(** ** Waiting for the services *)

Section ReadinessFacts.

Import Readiness Examples Examples2.

Lemma attempts_spec probe name url r : forall a,
  (a + r = max_retries)%nat ->
  let '(events, gave_up) := attempts probe name url r a in
  (gets events <= r)%nat /\
  0 <= seconds_slept events <= 2 * Z.of_nat (pred r) /\
  (r = 0%nat -> gave_up = false) /\
  ((0 < r)%nat ->
   (gave_up = true <->
    (forall a', (a <= a' < max_retries - 1)%nat -> probe a' <> Answered 200) /\
    exists e, probe (max_retries - 1)%nat = Failed e)) /\
  ((forall n, exists status, probe n = Answered status) ->
   gave_up = false /\ seconds_slept events = 0).
Proof.
  unfold max_retries, gets.
  induction r as [|r IH]; intros a Har.
  - cbn. split; [lia|]. split; [lia|]. split; [reflexivity|]. split; [lia|].
    intros _. split; reflexivity.
  - cbn [attempts]. unfold max_retries.
    specialize (IH (S a) ltac:(lia)).
    destruct (attempts probe name url r (S a)) as [events gave_up].
    destruct IH as (IHg & IHs & IH0 & IHiff & IHans).
    destruct (probe a) as [status|e] eqn:Ep.
    + destruct (Z.eqb_spec status 200) as [->|Hne].
      * cbn [List.filter is_get length seconds_slept fold_right].
        split; [lia|]. split; [lia|]. split; [discriminate|].
        split; [|intros _; split; reflexivity].
        intros _. split; [discriminate|]. intros [Hall [e He]].
        destruct (Nat.eq_dec a 29%nat) as [Ha|Ha].
        -- subst a. cbn in He. congruence.
        -- exfalso. apply (Hall a); [lia | exact Ep].
      * cbn [List.filter is_get length seconds_slept fold_right].
        fold (seconds_slept events).
        split; [lia|]. split; [lia|]. split; [discriminate|]. split; [|exact IHans].
        intros _. destruct r as [|r].
        { assert (a = 29%nat) by lia. subst a. rewrite (IH0 eq_refl).
          split; [discriminate|]. intros [_ [e He]]. cbn in He. congruence. }
        rewrite (IHiff ltac:(lia)). split.
        -- intros [Hall He]. split; [|exact He].
           intros a' Ha'. destruct (Nat.eq_dec a' a) as [->|]; [congruence|].
           apply Hall. lia.
        -- intros [Hall He]. split; [|exact He]. intros a' Ha'. apply Hall. lia.
    + destruct (Nat.eqb_spec a (30 - 1)) as [Ha|Hne].
      * subst a. assert (r = 0%nat) by lia. subst r.
        cbn [List.filter is_get length seconds_slept fold_right].
        split; [lia|]. split; [cbn; lia|]. split; [discriminate|]. split.
        -- intros _. split; [|reflexivity]. intros _. split; [intros a' Ha'; lia|].
           exists e. exact Ep.
        -- intros Hans. destruct (Hans (30 - 1)%nat) as [st Hst]. congruence.
      * cbn [List.filter is_get length seconds_slept fold_right].
        fold (seconds_slept events). unfold retry_delay.
        split; [lia|]. split; [lia|]. split; [discriminate|]. split.
        -- intros _. rewrite (IHiff ltac:(lia)). split.
           ++ intros [Hall He]. split; [|exact He].
              intros a' Ha'. destruct (Nat.eq_dec a' a) as [->|]; [congruence|].
              apply Hall. lia.
           ++ intros [Hall He]. split; [|exact He]. intros a' Ha'. apply Hall. lia.
        -- intros Hans. destruct (Hans a) as [st Hst]. congruence.
Qed.

Lemma seconds_slept_app ev ev' :
  seconds_slept (ev ++ ev') = seconds_slept ev + seconds_slept ev'.
Proof.
  unfold seconds_slept. induction ev as [|e ev IH]; [reflexivity|].
  cbn [app fold_right]. rewrite IH. destruct e; lia.
Qed.

Lemma gets_app ev ev' : gets (ev ++ ev') = (gets ev + gets ev')%nat.
Proof. unfold gets. by rewrite List.filter_app, length_app. Qed.

Lemma poll_spec probe urls :
  let '(events, ok) := poll probe urls in
  (gets events <= 30 * length urls)%nat /\
  0 <= seconds_slept events <= 58 * Z.of_nat (length urls) /\
  (ok = false <-> exists name url, In (name, url) urls /\ gives_up (probe url)) /\
  ((forall url n, exists status, probe url n = Answered status) ->
   ok = true /\ seconds_slept events = 0).
Proof.
  induction urls as [|[name url] urls IH]; cbn [poll].
  - cbn. repeat split; try lia; try discriminate.
    intros (? & ? & [] & _).
  - pose proof (attempts_spec (probe url) name url max_retries 0 eq_refl) as Ha.
    destruct (attempts (probe url) name url max_retries 0) as [ev gave_up].
    destruct Ha as (Hg & Hs & _ & Hiff & Hans).
    specialize (Hiff ltac:(unfold max_retries; lia)).
    destruct (poll probe urls) as [ev' ok'].
    destruct IH as (IHg & IHs & IHiff & IHans).
    unfold max_retries in *. cbn [pred] in Hs. cbn [length].
    destruct gave_up.
    + split; [lia|]. split; [lia|]. split.
      * split; [|reflexivity]. intros _. exists name, url. split; [by left|].
        unfold gives_up, max_retries. destruct Hiff as [Hiff _].
        destruct (Hiff eq_refl) as [Hall He]. split; [|exact He].
        intros a Ha. apply Hall. lia.
      * intros Hall. destruct (Hans (Hall url)) as [? _]. discriminate.
    + rewrite seconds_slept_app, gets_app.
      split; [lia|]. split; [lia|]. split.
      * rewrite IHiff. split.
        -- intros (n & u & Hin & Hgu). exists n, u. split; [by right | exact Hgu].
        -- intros (n & u & [[= <- <-]|Hin] & Hgu).
           ++ exfalso. destruct Hiff as [_ Hiff].
              unfold gives_up, max_retries in Hgu. destruct Hgu as [Hall He].
              assert (false = true); [|discriminate].
              apply Hiff. split; [|exact He]. intros a Ha. apply Hall. lia.
           ++ exists n, u. split; assumption.
      * intros Hall. destruct (IHans Hall) as [-> Hz].
        destruct (Hans (Hall url)) as [_ Hz']. split; [reflexivity | lia].
Qed.

Lemma health_urls_spec services : forall urls,
  health_urls services = Ok urls ->
  length urls = length services /\
  forall name url, In (name, url) urls <->
    exists sc base, In (name, sc) services /\ sc_base_url sc = Some base /\
                    url = base +:+ "/health".
Proof.
  induction services as [|[n sc] services IH]; intros urls; cbn [health_urls].
  - intros [= <-]. split; [reflexivity|]. intros name url. split; [intros []|].
    intros (? & ? & [] & _).
  - destruct (sc_base_url sc) as [base|] eqn:Eb; cbn [getitem bind]; [|discriminate].
    destruct (health_urls services) as [tl|]; cbn [bind]; [|discriminate].
    intros [= <-]. destruct (IH tl eq_refl) as [Hlen Hin].
    split; [cbn [length]; by rewrite Hlen|].
    intros name url. cbn [In]. rewrite Hin. split.
    + intros [[= <- <-]|(c & b & Hc & Hb & ->)].
      * exists sc, base. split; [by left|]. split; [exact Eb | reflexivity].
      * exists c, b. split; [by right|]. split; [exact Hb | reflexivity].
    + intros (c & b & [[= <- <-]|Hc] & Hb & ->).
      * left. congruence.
      * right. exists c, b. split; [exact Hc|]. split; [exact Hb | reflexivity].
Qed.

Lemma check_services_health services :
  Main.check_services services = None ->
  exists urls, health_urls services = Ok urls.
Proof.
  induction services as [|[name sc] services IH];
    cbn [Main.check_services health_urls]; [eauto|].
  destruct (sc_base_url sc); [|discriminate].
  destruct (sc_endpoints sc); [|discriminate].
  intros H. destruct (IH H) as [tl ->]. cbn [getitem bind]. eauto.
Qed.

(** X22: for a configuration that validation accepts, waiting for the
    services never raises and is bounded: it sends at most 30 health
    requests per service and sleeps at most 58 seconds per service in all
    (2 seconds after each failed attempt but the last). *)
Theorem wait_for_services_bounded (cfg : Config) (probe : string -> nat -> Probe)
    (services : list (string * ServiceConfig)) :
  snd (Main.validate_config cfg) = true ->
  cfg_endpoints cfg = Some services ->
  exists events ok,
    wait_for_services cfg probe = Ok (events, ok) /\
    (length (List.filter is_get events) <= 30 * length services)%nat /\
    0 <= seconds_slept events <= 58 * Z.of_nat (length services).
Proof.
  intros Hv Hs.
  destruct (validate_config_true_inv cfg Hv)
    as (? & ? & ss & ? & ? & ? & _ & _ & Hs' & _ & _ & _ & _ & _ & _ & Hc & _).
  assert (ss = services) by congruence. subst ss.
  destruct (check_services_health services Hc) as [urls Hu].
  unfold wait_for_services. rewrite Hs. cbn [getitem bind]. rewrite Hu. cbn [bind].
  pose proof (poll_spec probe urls) as Hp.
  destruct (poll probe urls) as [events ok].
  destruct Hp as (Hg & Hsl & _ & _).
  destruct (health_urls_spec services urls Hu) as [Hlen _].
  exists (Print "Waiting for API services to be ready..." :: events), ok.
  split; [reflexivity|].
  cbn [List.filter is_get seconds_slept fold_right]. fold (seconds_slept events).
  unfold gets in Hg. rewrite <- Hlen. split; [exact Hg | exact Hsl].
Qed.

Lemma wait_for_services_bounded_witness :
  exists events ok,
    wait_for_services cfg_shop up_after_two = Ok (events, ok) /\
    (length (List.filter is_get events)
     <= 30 * length [("shop", mkServiceConfig (Some "http://shop:8000")
                                (Some [health; products]))])%nat /\
    0 <= seconds_slept events
      <= 58 * Z.of_nat (length [("shop", mkServiceConfig (Some "http://shop:8000")
                                           (Some [health; products]))]).
Proof.
  apply (wait_for_services_bounded cfg_shop up_after_two
           [("shop", mkServiceConfig (Some "http://shop:8000") (Some [health; products]))]);
    reflexivity.
Defined.

(** X23: waiting for the services returns [False] exactly when some
    service never answered 200 in its first 29 attempts and its 30th
    attempt raised an exception. *)
Theorem wait_for_services_false_iff (cfg : Config) (probe : string -> nat -> Probe)
    (services : list (string * ServiceConfig)) (events : list Event) (ok : bool) :
  cfg_endpoints cfg = Some services ->
  wait_for_services cfg probe = Ok (events, ok) ->
  (ok = false <->
   exists name sc base,
     In (name, sc) services /\ sc_base_url sc = Some base /\
     gives_up (probe (base +:+ "/health"))).
Proof.
  intros Hs. unfold wait_for_services. rewrite Hs. cbn [getitem bind].
  destruct (health_urls services) as [urls|] eqn:Hu; cbn [bind]; [|discriminate].
  pose proof (poll_spec probe urls) as Hp.
  destruct (poll probe urls) as [ev ok'].
  destruct Hp as (_ & _ & Hiff & _).
  destruct (health_urls_spec services urls Hu) as [_ Hin].
  intros [= <- <-]. rewrite Hiff. split.
  - intros (name & url & Hu' & Hg). apply Hin in Hu' as (sc & base & Hsc & Hb & ->).
    exists name, sc, base. split; [exact Hsc|]. split; [exact Hb | exact Hg].
  - intros (name & sc & base & Hsc & Hb & Hg).
    exists name, (base +:+ "/health"). split; [|exact Hg].
    apply Hin. exists sc, base. split; [exact Hsc|]. split; [exact Hb | reflexivity].
Qed.

Lemma wait_for_services_false_iff_witness :
  exists events,
    wait_for_services cfg_shop never_up = Ok (events, false) /\
    (false = false <->
     exists name sc base,
       In (name, sc) [("shop", mkServiceConfig (Some "http://shop:8000")
                                 (Some [health; products]))] /\
       sc_base_url sc = Some base /\
       gives_up (never_up (base +:+ "/health"))).
Proof.
  eexists. split; [vm_compute; reflexivity|].
  eapply (wait_for_services_false_iff cfg_shop never_up); [reflexivity|].
  vm_compute. reflexivity.
Defined.

(** X24: a service that answers every health request, whatever the
    status, is never waited for and never fatal: when no health request
    raises, the function returns [True] without sleeping, also when no
    service ever answered 200. *)
Theorem answering_services_pass (cfg : Config) (probe : string -> nat -> Probe)
    (events : list Event) (ok : bool) :
  (forall url n, exists status, probe url n = Answered status) ->
  wait_for_services cfg probe = Ok (events, ok) ->
  ok = true /\ seconds_slept events = 0.
Proof.
  intros Hall. unfold wait_for_services.
  destruct (cfg_endpoints cfg) as [services|]; cbn [getitem bind]; [|discriminate].
  destruct (health_urls services) as [urls|]; cbn [bind]; [|discriminate].
  pose proof (poll_spec probe urls) as Hp.
  destruct (poll probe urls) as [ev ok'].
  destruct Hp as (_ & _ & _ & Hans).
  intros [= <- <-]. destruct (Hans Hall) as [-> Hz].
  split; [reflexivity | exact Hz].
Qed.

Lemma answering_services_pass_witness :
  exists events,
    wait_for_services cfg_shop always_503 = Ok (events, true) /\
    true = true /\ seconds_slept events = 0.
Proof.
  eexists. split; [vm_compute; reflexivity|].
  eapply (answering_services_pass cfg_shop always_503).
  - intros url n. exists 503. reflexivity.
  - vm_compute. reflexivity.
Defined.

End ReadinessFacts.

(** ** Selection and workers on validated configurations *)

Section ValidatedFacts.

Import DataGenerators UserSession LoadSimulator Worker Examples Examples2.

Lemma check_user_types_weights uts :
  Main.check_user_types uts = None ->
  exists ws, user_type_weights uts = Ok ws /\
             Forall (fun w => Num.le_zero w = false) ws.
Proof.
  induction uts as [|u uts IH]; cbn [Main.check_user_types user_type_weights].
  - intros _. exists []. split; [reflexivity | constructor].
  - unfold Main.bad_weight. destruct (ut_weight u) as [w|]; [|discriminate].
    destruct (Num.le_zero w) eqn:Ew; [discriminate|].
    intros H. destruct (IH H) as (ws & -> & Hws). cbn [getitem bind].
    exists (w :: ws). split; [reflexivity|]. by constructor.
Qed.

(** X25: on a configuration that validation accepts, the user-type
    selection never fails for a missing key: the user types are there,
    each has a weight, and no weight compares [<= 0]. The call ends as a
    weighted draw over them does: [IndexError] with an empty user-type
    list, which validation accepts as well; otherwise [OverflowError] or
    [ValueError] when the total cannot be taken or is not greater than
    zero and finite, and one of the configured user types in every other
    case. *)
Theorem validated_user_type_selection (sim : LoadSimulator) (k : Z) :
  snd (Main.validate_config (config sim)) = true ->
  exists uts ws,
    cfg_user_types (config sim) = Some uts /\
    user_type_weights uts = Ok ws /\
    Forall (fun w => Num.le_zero w = false) ws /\
    Spec.weighted_outcome uts ws (_select_user_type sim k).
Proof.
  intros Hv.
  destruct (validate_config_true_inv (config sim) Hv)
    as (? & uts & ? & ? & ? & ? & _ & Hu & _ & _ & _ & _ & _ & _ & Hc & _ & _).
  destruct (check_user_types_weights uts Hc) as (ws & Hws & Hpos).
  exists uts, ws. repeat (split; [assumption|]).
  unfold _select_user_type. rewrite Hu. cbn [getitem bind]. rewrite Hws. cbn [bind].
  apply choices_outcome. by apply user_type_weights_length.
Qed.

Lemma validated_user_type_selection_witness :
  exists uts ws,
    cfg_user_types (config (sim_of cfg_regions)) = Some uts /\
    user_type_weights uts = Ok ws /\
    Forall (fun w => Num.le_zero w = false) ws /\
    Spec.weighted_outcome uts ws (_select_user_type (sim_of cfg_regions) 5).
Proof.
  apply (validated_user_type_selection (sim_of cfg_regions) 5). reflexivity.
Defined.

(** X26: with an empty user-type list a worker that is running ends in
    its first round: the selection's [IndexError] is caught by the
    worker's handler, no session is created and the worker does not start
    another round, whatever the later rounds would have brought. *)
Theorem worker_ends_without_user_types (sim : LoadSimulator) (rounds : nat -> Round)
    (fuel : nat) :
  cfg_user_types (config sim) = Some [] ->
  rd_running (rounds 0%nat) = true ->
  _user_session_worker (S fuel) rounds 0 sim
    = Some (Raise (IndexError "list index out of range")).
Proof.
  intros Hu Hr. cbn [_user_session_worker]. rewrite Hr. cbn [negb].
  unfold new_session, _select_user_type. rewrite Hu. reflexivity.
Qed.

Lemma worker_ends_without_user_types_witness :
  Main.validate_config cfg_nobody = (Main.passed, true) /\
  _user_session_worker 5 rounds_up 0 (sim_of cfg_nobody)
    = Some (Raise (IndexError "list index out of range")).
Proof.
  split; [reflexivity|].
  apply (worker_ends_without_user_types (sim_of cfg_nobody) rounds_up 4); reflexivity.
Defined.

Lemma new_session_effect sim pv k1 k2 sid sd now sim1 s :
  new_session sim pv k1 k2 sid sd now = Ok (sim1, s) ->
  stats sim1 = stats sim /\ config sim1 = config sim /\
  endpoints sim1 = endpoints sim /\ requests_made s = 0.
Proof.
  unfold new_session.
  destruct (_select_user_type sim k1) as [ut|]; cbn [bind]; [|discriminate].
  destruct (_select_region sim k2) as [rg|]; cbn [bind]; [|discriminate].
  destruct (UserSession.init pv sid ut rg (data_gen sim) sd) as [[s0 dg]|] eqn:E;
    cbn [bind]; [|discriminate].
  destruct (ut_name ut); cbn [getitem bind]; [|discriminate].
  intros [= <- <-]. cbn [fst snd set_data_gen stats config endpoints].
  repeat split.
  unfold UserSession.init in E.
  destruct (generate_user_id _ _ _ _) as [[uid dg1]|]; cbn [bind] in E; [|discriminate].
  destruct (get_user_agent _ _); cbn [bind] in E; [|discriminate].
  destruct (get_ip_address _ _ _ _); cbn [bind] in E; [|discriminate].
  injection E as <- _. reflexivity.
Qed.

Lemma worker_effect rounds fuel : forall j sim sim' n,
  _user_session_worker fuel rounds j sim = Some (Ok (sim', n)) ->
  config sim' = config sim /\ endpoints sim' = endpoints sim /\
  Stats.total_requests (stats sim) <= Stats.total_requests (stats sim') /\
  Stats.successful_requests (stats sim') + Stats.failed_requests (stats sim')
    - Stats.total_requests (stats sim')
    = Stats.successful_requests (stats sim) + Stats.failed_requests (stats sim)
      - Stats.total_requests (stats sim) /\
  Z.of_nat (length (Stats.response_times (stats sim'))) - Stats.total_requests (stats sim')
    = Z.of_nat (length (Stats.response_times (stats sim))) - Stats.total_requests (stats sim) /\
  Z.of_nat (length (Stats.errors (stats sim'))) - Stats.failed_requests (stats sim')
    <= Z.of_nat (length (Stats.errors (stats sim))) - Stats.failed_requests (stats sim).
Proof.
  induction fuel as [|fuel IH]; intros j sim sim' n; [discriminate|].
  cbn [_user_session_worker].
  destruct (rd_running (rounds j)); cbn [negb];
    [|intros [= <- <-]; repeat split; lia].
  destruct (new_session _ _ _ _ _ _ _) as [[sim1 s]|] eqn:En; [|discriminate].
  apply new_session_effect in En as (Hst & Hc & He & _).
  destruct (session_loop fuel (rd_world (rounds j)) 0 sim1 s)
    as [[[[sim2 s2] m]|]|] eqn:El; try discriminate.
  apply session_loop_effect in El. cbn zeta in El.
  destruct El as (L0 & Lc & Le & _ & Lt & Lsf & Lr & Ler & _).
  intros Hw. apply IH in Hw as (Wc & We & Wt & Wsf & Wr & Wer).
  rewrite Hst in *. repeat split; try congruence; lia.
Qed.

(** X27: through any run of a worker that ends because it is told to
    stop, however many sessions it ran and whatever their requests came
    to, the statistics stay consistent: if successes plus failures equal
    the total before, they do after, likewise the number of latency
    samples, the error texts do not outnumber the failures if they did not
    before, and the configuration and the endpoints are unchanged. *)
Theorem worker_keeps_statistics_consistent rounds fuel j sim sim' n :
  _user_session_worker fuel rounds j sim = Some (Ok (sim', n)) ->
  Stats.successful_requests (stats sim) + Stats.failed_requests (stats sim)
    = Stats.total_requests (stats sim) ->
  Z.of_nat (length (Stats.response_times (stats sim))) = Stats.total_requests (stats sim) ->
  Z.of_nat (length (Stats.errors (stats sim))) <= Stats.failed_requests (stats sim) ->
  Stats.successful_requests (stats sim') + Stats.failed_requests (stats sim')
    = Stats.total_requests (stats sim') /\
  Z.of_nat (length (Stats.response_times (stats sim'))) = Stats.total_requests (stats sim') /\
  Z.of_nat (length (Stats.errors (stats sim'))) <= Stats.failed_requests (stats sim') /\
  Stats.total_requests (stats sim) <= Stats.total_requests (stats sim') /\
  config sim' = config sim /\ endpoints sim' = endpoints sim.
Proof.
  intros Hw H1 H2 H3. apply worker_effect in Hw as (Wc & We & Wt & Wsf & Wr & Wer).
  repeat split; try assumption; lia.
Qed.

Lemma worker_keeps_statistics_consistent_witness :
  exists sim' n,
    _user_session_worker 6 rounds_two 0 (sim_of cfg_shop) = Some (Ok (sim', n)) /\
    Stats.successful_requests (stats sim') + Stats.failed_requests (stats sim')
      = Stats.total_requests (stats sim') /\
    Z.of_nat (length (Stats.response_times (stats sim'))) = Stats.total_requests (stats sim') /\
    Z.of_nat (length (Stats.errors (stats sim'))) <= Stats.failed_requests (stats sim') /\
    Stats.total_requests (stats (sim_of cfg_shop)) <= Stats.total_requests (stats sim') /\
    config sim' = config (sim_of cfg_shop) /\
    endpoints sim' = endpoints (sim_of cfg_shop).
Proof.
  destruct (_user_session_worker 6 rounds_two 0 (sim_of cfg_shop))
    as [[[sim' n]|]|] eqn:E; [|vm_compute in E; discriminate..].
  exists sim', n. split; [reflexivity|].
  apply (worker_keeps_statistics_consistent rounds_two 6 0 (sim_of cfg_shop) sim' n E).
  - reflexivity.
  - reflexivity.
  - vm_compute. discriminate.
Defined.

End ValidatedFacts.
